(** * DesyncServer: the purchase / entitlement lifecycle

    A shallow embedding of the purchase ledger ([models/Purchase.js]), the
    payment gateway adapter ([routes/stripe.js]), the legacy purchase routes
    ([routes/purchases.js]) and the models they touch, followed by the
    properties the specification states about them.

    Where the sources are in the tree: the Purchase model is the last module
    of [src/routes/auth.js]; the purchase routes are [src/unnamed/part_000];
    the gateway routes are [src/server/routes/stripe.js]; the application
    that mounts them is [src/server/index.js]; Product and Role
    are [src/unnamed/part_002] and [src/unnamed/part_004]; UserRole is the
    second module of [src/models/InvitationCode.js]; Notification and
    Software are [src/server/models/Notification.js] and
    [src/models/Software.js].

    Conventions of the embedding.
    - A JS [Number] that the code only counts with or compares as an integer
      (ids, counters, day counts, epoch milliseconds) is a [Z]; money amounts
      are rationals ([Q]), and no arithmetic on them is modelled.
    - Strings are ASCII text.
    - A valid [Date] is its time value, the epoch milliseconds within the
      range [TimeClip] allows; the invalid date is [None].  The ISO strings
      the code stores ([toISOString], which throws on the invalid date) and
      re-reads ([new Date(s)]) round-trip to the time value, so a stored date
      field is an [option Z] ([None] is JS [null]).  Calendar arithmetic
      ([setDate]) goes through the host's time zone, which is part of the
      environment.  Every request reads the clock once ([now], a valid
      date).
    - A mongoose collection is the list of its documents in insertion order;
      a loaded document is the pair of its position and its contents, and
      [save] writes the contents back at that position.  [save] runs the
      validators declared in the schema and throws when one fails.
    - A query filter on a path whose schema declares setters ([lowercase],
      [trim]) has the setters applied to its value, as mongoose does.
    - [async] handlers run to completion one after another; a throw leaves
      the writes made before it in place (there are no transactions). *)

From Stdlib Require Import ZArith QArith Qround Ascii String.
From stdpp Require Import base option list strings gmap pretty.

Close Scope Q_scope.
Local Open Scope Z_scope.

(** ** JavaScript values and helpers *)

#[warnings="-register-all"] Inductive JsValue : Type :=
| JNull
| JBool (b : bool)
| JNum (z : Z)
| JDec (q : Q)
| JStr (s : string)
| JObj (fields : list (string * JsValue)).

Definition jopt {A : Type} (f : A -> JsValue) (o : option A) : JsValue :=
  match o with Some a => f a | None => JNull end.

(** Truthiness of a string that may be [null]/[undefined]: the empty string
    is falsy. *)
Definition truthy_str (o : option string) : bool :=
  match o with
  | Some s => negb (String.eqb s "")
  | None => false
  end.

(** Truthiness of a number that may be [null]/[undefined]: zero is falsy. *)
Definition truthy_num (o : option Z) : bool :=
  match o with
  | Some z => negb (z =? 0)
  | None => false
  end.

(** [a || b] on strings. *)
Definition str_or (a : option string) (b : string) : string :=
  match a with
  | Some s => if String.eqb s "" then b else s
  | None => b
  end.

Definition ms_per_day : Z := 24 * 60 * 60 * 1000.

(** *** White space, and [parseInt] on a string, radix 10 or, after [0x], 16 *)

Definition is_space (a : ascii) : bool :=
  let n := Z.of_nat (nat_of_ascii a) in
  ((9 <=? n) && (n <=? 13)) || (n =? 32).

Fixpoint skip_space (s : string) : string :=
  match s with
  | String a r => if is_space a then skip_space r else s
  | EmptyString => s
  end.

Fixpoint trim_end (s : string) : string :=
  match s with
  | String a r =>
      match trim_end r with
      | EmptyString => if is_space a then EmptyString else String a EmptyString
      | r' => String a r'
      end
  | EmptyString => EmptyString
  end.

(** [s.trim()] *)
Definition trim (s : string) : string := trim_end (skip_space s).

Definition digit_val (radix : Z) (a : ascii) : option Z :=
  let n := Z.of_nat (nat_of_ascii a) in
  let v :=
    if (48 <=? n) && (n <=? 57) then Some (n - 48)
    else if (97 <=? n) && (n <=? 102) then Some (n - 87)
    else if (65 <=? n) && (n <=? 70) then Some (n - 55)
    else None in
  match v with
  | Some d => if d <? radix then Some d else None
  | None => None
  end.

(** Longest prefix of digits, accumulated left to right; [None] when there
    is no digit at all. *)
Fixpoint parse_digits (radix : Z) (acc : option Z) (s : string) : option Z :=
  match s with
  | String a r =>
      match digit_val radix a with
      | Some d =>
          parse_digits radix
            (Some (match acc with Some n => n * radix + d | None => d end)) r
      | None => acc
      end
  | EmptyString => acc
  end.

Definition strip_hex (s : string) : option string :=
  match s with
  | String "0" (String "x" r) => Some r
  | String "0" (String "X" r) => Some r
  | _ => None
  end.

Definition parse_unsigned (s : string) : option Z :=
  match strip_hex s with
  | Some r => parse_digits 16 None r
  | None => parse_digits 10 None s
  end.

(** [parseInt(s)]; [None] is [NaN]. *)
Definition parseInt (s : string) : option Z :=
  match skip_space s with
  | String "-" r => Z.opp <$> parse_unsigned r
  | String "+" r => parse_unsigned r
  | r => parse_unsigned r
  end.

(** [Number.prototype.toString()] on an integer. *)
Definition toString (z : Z) : string := pretty z.

(** ** Exceptions and results *)

Inductive Exn : Type :=
| Error (message : string)
| TypeError (message : string)
| RangeError (message : string)
| ValidationError (message : string).

Definition exn_message (e : Exn) : string :=
  match e with
  | Error m | TypeError m | RangeError m | ValidationError m => m
  end.

Inductive Result (A : Type) : Type :=
| Ok (a : A)
| Throw (e : Exn).
Arguments Ok {A} a.
Arguments Throw {A} e.

(** The spec's name for the error [recordDownload] throws. *)
Definition LimitExceeded : Exn := Error "Download limit exceeded".

(** ** Dates *)

(** The host's time zone as ECMA-262 reads it: the offset of local time from
    UTC, in milliseconds, at a UTC instant ([LocalTZA(t, true)]) and at a
    local time ([LocalTZA(t, false)]). *)
Record TimeZone : Type := mkTimeZone {
  offset_at_utc : Z -> Z;
  offset_at_local : Z -> Z
}.

Definition LocalTime (zone : TimeZone) (t : Z) : Z := t + offset_at_utc zone t.

Definition UTC (zone : TimeZone) (t : Z) : Z := t - offset_at_local zone t.

(** The zone of a host that runs on UTC. *)
Definition utc_zone : TimeZone := mkTimeZone (fun _ => 0) (fun _ => 0).

(** The largest time value of a [Date], 100,000,000 days from the epoch. *)
Definition max_time : Z := 8640000000000000.

(** [TimeClip]: a time value out of range makes the date invalid. *)
Definition TimeClip (t : Z) : option Z :=
  if Z.abs t <=? max_time then Some t else None.

(** [d.setDate(d.getDate() + days)] on the valid date [date]: the same local
    time of day, [days] calendar days on, read back as a UTC instant and
    clipped. *)
Definition addDays (zone : TimeZone) (date days : Z) : option Z :=
  TimeClip (UTC zone (LocalTime zone date + days * ms_per_day)).

(** [new Date(d.getTime() + ms)] on the valid date [date]. *)
Definition addMilliseconds (date ms : Z) : option Z := TimeClip (date + ms).

(** [d.toISOString()]: a [RangeError] on the invalid date. *)
Definition toISOString (d : option Z) : Result Z :=
  match d with
  | Some t => Ok t
  | None => Throw (RangeError "Invalid time value")
  end.

(** What reads back of a [Date] that mongoose casts into a [String] path
    ([Date.prototype.toString] prints to the second). *)
Definition cast_date (t : Z) : Z := t / 1000 * 1000.

(** ** The purchase ledger record ([models/Purchase.js]) *)

Inductive Status : Type := Pending | Completed | Failed | Refunded | Cancelled.

#[global] Instance Status_eq_dec : EqDecision Status.
Proof. solve_decision. Defined.

Definition status_name (s : Status) : string :=
  match s with
  | Pending => "Pending"
  | Completed => "Completed"
  | Failed => "Failed"
  | Refunded => "Refunded"
  | Cancelled => "Cancelled"
  end.

Definition str_in (s : string) (l : list string) : bool :=
  existsb (String.eqb s) l.

Module Purchase.

(** The schema's fields.  [_id] is the store's document identity (the
    insertion position); [id] is the auto-increment number, 0 until the
    pre-save hook assigns it. *)
Record t : Type := mk {
  _id : nat;
  id : Z;
  userId : Z;
  softwareId : Z;
  paymentMethod : string;
  amount : Q;
  currency : string;
  status : Status;
  transactionId : option string;
  stripePaymentId : option string;
  stripeSessionId : option string;
  productSlug : option string;
  duration : option string;
  durationDays : option Z;
  paymentData : JsValue;
  purchaseDate : Z;
  completedAt : option Z;
  refundedAt : option Z;
  refundReason : option string;
  downloadCount : Z;
  maxDownloads : Z;
  lastDownload : option Z;
  licenseKey : option string;
  expiresAt : option Z;
  notes : option string
}.

Definition set__id (v : nat) (p : t) : t :=
  {| _id := v; id := id p; userId := userId p; softwareId := softwareId p;
     paymentMethod := paymentMethod p; amount := amount p;
     currency := currency p; status := status p;
     transactionId := transactionId p;
     stripePaymentId := stripePaymentId p;
     stripeSessionId := stripeSessionId p; productSlug := productSlug p;
     duration := duration p; durationDays := durationDays p;
     paymentData := paymentData p; purchaseDate := purchaseDate p;
     completedAt := completedAt p; refundedAt := refundedAt p;
     refundReason := refundReason p; downloadCount := downloadCount p;
     maxDownloads := maxDownloads p; lastDownload := lastDownload p;
     licenseKey := licenseKey p; expiresAt := expiresAt p;
     notes := notes p |}.

Definition set_id (v : Z) (p : t) : t :=
  {| _id := _id p; id := v; userId := userId p; softwareId := softwareId p;
     paymentMethod := paymentMethod p; amount := amount p;
     currency := currency p; status := status p;
     transactionId := transactionId p;
     stripePaymentId := stripePaymentId p;
     stripeSessionId := stripeSessionId p; productSlug := productSlug p;
     duration := duration p; durationDays := durationDays p;
     paymentData := paymentData p; purchaseDate := purchaseDate p;
     completedAt := completedAt p; refundedAt := refundedAt p;
     refundReason := refundReason p; downloadCount := downloadCount p;
     maxDownloads := maxDownloads p; lastDownload := lastDownload p;
     licenseKey := licenseKey p; expiresAt := expiresAt p;
     notes := notes p |}.

Definition set_status (v : Status) (p : t) : t :=
  {| _id := _id p; id := id p; userId := userId p;
     softwareId := softwareId p; paymentMethod := paymentMethod p;
     amount := amount p; currency := currency p; status := v;
     transactionId := transactionId p;
     stripePaymentId := stripePaymentId p;
     stripeSessionId := stripeSessionId p; productSlug := productSlug p;
     duration := duration p; durationDays := durationDays p;
     paymentData := paymentData p; purchaseDate := purchaseDate p;
     completedAt := completedAt p; refundedAt := refundedAt p;
     refundReason := refundReason p; downloadCount := downloadCount p;
     maxDownloads := maxDownloads p; lastDownload := lastDownload p;
     licenseKey := licenseKey p; expiresAt := expiresAt p;
     notes := notes p |}.

Definition set_transactionId (v : option string) (p : t) : t :=
  {| _id := _id p; id := id p; userId := userId p;
     softwareId := softwareId p; paymentMethod := paymentMethod p;
     amount := amount p; currency := currency p; status := status p;
     transactionId := v; stripePaymentId := stripePaymentId p;
     stripeSessionId := stripeSessionId p; productSlug := productSlug p;
     duration := duration p; durationDays := durationDays p;
     paymentData := paymentData p; purchaseDate := purchaseDate p;
     completedAt := completedAt p; refundedAt := refundedAt p;
     refundReason := refundReason p; downloadCount := downloadCount p;
     maxDownloads := maxDownloads p; lastDownload := lastDownload p;
     licenseKey := licenseKey p; expiresAt := expiresAt p;
     notes := notes p |}.

Definition set_stripePaymentId (v : option string) (p : t) : t :=
  {| _id := _id p; id := id p; userId := userId p;
     softwareId := softwareId p; paymentMethod := paymentMethod p;
     amount := amount p; currency := currency p; status := status p;
     transactionId := transactionId p; stripePaymentId := v;
     stripeSessionId := stripeSessionId p; productSlug := productSlug p;
     duration := duration p; durationDays := durationDays p;
     paymentData := paymentData p; purchaseDate := purchaseDate p;
     completedAt := completedAt p; refundedAt := refundedAt p;
     refundReason := refundReason p; downloadCount := downloadCount p;
     maxDownloads := maxDownloads p; lastDownload := lastDownload p;
     licenseKey := licenseKey p; expiresAt := expiresAt p;
     notes := notes p |}.

Definition set_stripeSessionId (v : option string) (p : t) : t :=
  {| _id := _id p; id := id p; userId := userId p;
     softwareId := softwareId p; paymentMethod := paymentMethod p;
     amount := amount p; currency := currency p; status := status p;
     transactionId := transactionId p;
     stripePaymentId := stripePaymentId p; stripeSessionId := v;
     productSlug := productSlug p; duration := duration p;
     durationDays := durationDays p; paymentData := paymentData p;
     purchaseDate := purchaseDate p; completedAt := completedAt p;
     refundedAt := refundedAt p; refundReason := refundReason p;
     downloadCount := downloadCount p; maxDownloads := maxDownloads p;
     lastDownload := lastDownload p; licenseKey := licenseKey p;
     expiresAt := expiresAt p; notes := notes p |}.

Definition set_paymentData (v : JsValue) (p : t) : t :=
  {| _id := _id p; id := id p; userId := userId p;
     softwareId := softwareId p; paymentMethod := paymentMethod p;
     amount := amount p; currency := currency p; status := status p;
     transactionId := transactionId p;
     stripePaymentId := stripePaymentId p;
     stripeSessionId := stripeSessionId p; productSlug := productSlug p;
     duration := duration p; durationDays := durationDays p;
     paymentData := v; purchaseDate := purchaseDate p;
     completedAt := completedAt p; refundedAt := refundedAt p;
     refundReason := refundReason p; downloadCount := downloadCount p;
     maxDownloads := maxDownloads p; lastDownload := lastDownload p;
     licenseKey := licenseKey p; expiresAt := expiresAt p;
     notes := notes p |}.

Definition set_completedAt (v : option Z) (p : t) : t :=
  {| _id := _id p; id := id p; userId := userId p;
     softwareId := softwareId p; paymentMethod := paymentMethod p;
     amount := amount p; currency := currency p; status := status p;
     transactionId := transactionId p;
     stripePaymentId := stripePaymentId p;
     stripeSessionId := stripeSessionId p; productSlug := productSlug p;
     duration := duration p; durationDays := durationDays p;
     paymentData := paymentData p; purchaseDate := purchaseDate p;
     completedAt := v; refundedAt := refundedAt p;
     refundReason := refundReason p; downloadCount := downloadCount p;
     maxDownloads := maxDownloads p; lastDownload := lastDownload p;
     licenseKey := licenseKey p; expiresAt := expiresAt p;
     notes := notes p |}.

Definition set_refundedAt (v : option Z) (p : t) : t :=
  {| _id := _id p; id := id p; userId := userId p;
     softwareId := softwareId p; paymentMethod := paymentMethod p;
     amount := amount p; currency := currency p; status := status p;
     transactionId := transactionId p;
     stripePaymentId := stripePaymentId p;
     stripeSessionId := stripeSessionId p; productSlug := productSlug p;
     duration := duration p; durationDays := durationDays p;
     paymentData := paymentData p; purchaseDate := purchaseDate p;
     completedAt := completedAt p; refundedAt := v;
     refundReason := refundReason p; downloadCount := downloadCount p;
     maxDownloads := maxDownloads p; lastDownload := lastDownload p;
     licenseKey := licenseKey p; expiresAt := expiresAt p;
     notes := notes p |}.

Definition set_refundReason (v : option string) (p : t) : t :=
  {| _id := _id p; id := id p; userId := userId p;
     softwareId := softwareId p; paymentMethod := paymentMethod p;
     amount := amount p; currency := currency p; status := status p;
     transactionId := transactionId p;
     stripePaymentId := stripePaymentId p;
     stripeSessionId := stripeSessionId p; productSlug := productSlug p;
     duration := duration p; durationDays := durationDays p;
     paymentData := paymentData p; purchaseDate := purchaseDate p;
     completedAt := completedAt p; refundedAt := refundedAt p;
     refundReason := v; downloadCount := downloadCount p;
     maxDownloads := maxDownloads p; lastDownload := lastDownload p;
     licenseKey := licenseKey p; expiresAt := expiresAt p;
     notes := notes p |}.

Definition set_downloadCount (v : Z) (p : t) : t :=
  {| _id := _id p; id := id p; userId := userId p;
     softwareId := softwareId p; paymentMethod := paymentMethod p;
     amount := amount p; currency := currency p; status := status p;
     transactionId := transactionId p;
     stripePaymentId := stripePaymentId p;
     stripeSessionId := stripeSessionId p; productSlug := productSlug p;
     duration := duration p; durationDays := durationDays p;
     paymentData := paymentData p; purchaseDate := purchaseDate p;
     completedAt := completedAt p; refundedAt := refundedAt p;
     refundReason := refundReason p; downloadCount := v;
     maxDownloads := maxDownloads p; lastDownload := lastDownload p;
     licenseKey := licenseKey p; expiresAt := expiresAt p;
     notes := notes p |}.

Definition set_lastDownload (v : option Z) (p : t) : t :=
  {| _id := _id p; id := id p; userId := userId p;
     softwareId := softwareId p; paymentMethod := paymentMethod p;
     amount := amount p; currency := currency p; status := status p;
     transactionId := transactionId p;
     stripePaymentId := stripePaymentId p;
     stripeSessionId := stripeSessionId p; productSlug := productSlug p;
     duration := duration p; durationDays := durationDays p;
     paymentData := paymentData p; purchaseDate := purchaseDate p;
     completedAt := completedAt p; refundedAt := refundedAt p;
     refundReason := refundReason p; downloadCount := downloadCount p;
     maxDownloads := maxDownloads p; lastDownload := v;
     licenseKey := licenseKey p; expiresAt := expiresAt p;
     notes := notes p |}.

Definition set_licenseKey (v : option string) (p : t) : t :=
  {| _id := _id p; id := id p; userId := userId p;
     softwareId := softwareId p; paymentMethod := paymentMethod p;
     amount := amount p; currency := currency p; status := status p;
     transactionId := transactionId p;
     stripePaymentId := stripePaymentId p;
     stripeSessionId := stripeSessionId p; productSlug := productSlug p;
     duration := duration p; durationDays := durationDays p;
     paymentData := paymentData p; purchaseDate := purchaseDate p;
     completedAt := completedAt p; refundedAt := refundedAt p;
     refundReason := refundReason p; downloadCount := downloadCount p;
     maxDownloads := maxDownloads p; lastDownload := lastDownload p;
     licenseKey := v; expiresAt := expiresAt p; notes := notes p |}.

Definition set_expiresAt (v : option Z) (p : t) : t :=
  {| _id := _id p; id := id p; userId := userId p;
     softwareId := softwareId p; paymentMethod := paymentMethod p;
     amount := amount p; currency := currency p; status := status p;
     transactionId := transactionId p;
     stripePaymentId := stripePaymentId p;
     stripeSessionId := stripeSessionId p; productSlug := productSlug p;
     duration := duration p; durationDays := durationDays p;
     paymentData := paymentData p; purchaseDate := purchaseDate p;
     completedAt := completedAt p; refundedAt := refundedAt p;
     refundReason := refundReason p; downloadCount := downloadCount p;
     maxDownloads := maxDownloads p; lastDownload := lastDownload p;
     licenseKey := licenseKey p; expiresAt := v; notes := notes p |}.

Definition set_notes (v : option string) (p : t) : t :=
  {| _id := _id p; id := id p; userId := userId p;
     softwareId := softwareId p; paymentMethod := paymentMethod p;
     amount := amount p; currency := currency p; status := status p;
     transactionId := transactionId p;
     stripePaymentId := stripePaymentId p;
     stripeSessionId := stripeSessionId p; productSlug := productSlug p;
     duration := duration p; durationDays := durationDays p;
     paymentData := paymentData p; purchaseDate := purchaseDate p;
     completedAt := completedAt p; refundedAt := refundedAt p;
     refundReason := refundReason p; downloadCount := downloadCount p;
     maxDownloads := maxDownloads p; lastDownload := lastDownload p;
     licenseKey := licenseKey p; expiresAt := expiresAt p; notes := v |}.

(** [new Purchase({...})] as the two routes call it: the fields given,
    every other one at its schema default. *)
Definition new (now : Z) (userId softwareId : Z) (productSlug duration : option string)
    (durationDays : option Z) (paymentMethod : string) (amount : Q)
    (currency : string) : t :=
  {| _id := 0%nat; id := 0; userId := userId; softwareId := softwareId;
     paymentMethod := paymentMethod; amount := amount; currency := currency;
     status := Pending; transactionId := None; stripePaymentId := None;
     stripeSessionId := None; productSlug := productSlug;
     duration := duration; durationDays := durationDays;
     paymentData := JObj []; purchaseDate := now; completedAt := None;
     refundedAt := None; refundReason := None; downloadCount := 0;
     maxDownloads := 5; lastDownload := None; licenseKey := None;
     expiresAt := None; notes := None |}.

(** The validators of the schema: [enum] on [paymentMethod] and
    [currency], [min] on [amount], [downloadCount] and [maxDownloads]
    (the [required] fields are always present in this record). *)
Definition validate (p : t) : bool :=
  str_in (paymentMethod p) ["Crypto"; "Card"; "PayPal"; "Bank Transfer"]
  && Qle_bool 0 (amount p)
  && str_in (currency p) ["USD"; "EUR"; "BTC"; "ETH"]
  && (0 <=? downloadCount p)
  && (1 <=? maxDownloads p).

(** The methods below are the field assignments of the source methods;
    each source method ends in [return this.save()], which the caller
    sequences with [savePurchase]. *)

Definition completePurchase (now : Z) (txId : option string) (p : t) : t :=
  let p := set_status Completed p in
  let p := set_completedAt (Some now) p in
  if truthy_str txId then set_transactionId txId p else p.

Definition failPurchase (reason : option string) (p : t) : t :=
  let p := set_status Failed p in
  if truthy_str reason then set_notes reason p else p.

Definition refundPurchase (now : Z) (reason : option string) (p : t) : t :=
  let p := set_status Refunded p in
  let p := set_refundedAt (Some now) p in
  set_refundReason reason p.

Definition recordDownload (now : Z) (p : t) : Result t :=
  if maxDownloads p <=? downloadCount p then Throw LimitExceeded
  else
    let p := set_downloadCount (downloadCount p + 1) p in
    Ok (set_lastDownload (Some now) p).

(** [this.expiresAt && new Date() > new Date(this.expiresAt)] *)
Definition expired (now : Z) (p : t) : bool :=
  match expiresAt p with
  | Some e => e <? now
  | None => false
  end.

Definition canDownload (now : Z) (p : t) : bool :=
  if negb (bool_decide (status p = Completed)) then false
  else if maxDownloads p <=? downloadCount p then false
  else if expired now p then false
  else true.

Definition isActive (now : Z) (p : t) : bool :=
  if negb (bool_decide (status p = Completed)) then false
  else if expired now p then false
  else true.

(** [this.toObject()]: the document as a plain object, one key per field
    (the timestamps mongoose maintains on its own are left out). *)
Definition toObject (p : t) : gmap string JsValue :=
  list_to_map
    [ ("_id", JNum (Z.of_nat (_id p)));
      ("id", JNum (id p));
      ("userId", JNum (userId p));
      ("softwareId", JNum (softwareId p));
      ("paymentMethod", JStr (paymentMethod p));
      ("amount", JDec (amount p));
      ("currency", JStr (currency p));
      ("status", JStr (status_name (status p)));
      ("transactionId", jopt JStr (transactionId p));
      ("stripePaymentId", jopt JStr (stripePaymentId p));
      ("stripeSessionId", jopt JStr (stripeSessionId p));
      ("productSlug", jopt JStr (productSlug p));
      ("duration", jopt JStr (duration p));
      ("durationDays", jopt JNum (durationDays p));
      ("paymentData", paymentData p);
      ("purchaseDate", JNum (purchaseDate p));
      ("completedAt", jopt JNum (completedAt p));
      ("refundedAt", jopt JNum (refundedAt p));
      ("refundReason", jopt JStr (refundReason p));
      ("downloadCount", JNum (downloadCount p));
      ("maxDownloads", JNum (maxDownloads p));
      ("lastDownload", jopt JNum (lastDownload p));
      ("licenseKey", jopt JStr (licenseKey p));
      ("expiresAt", jopt JNum (expiresAt p));
      ("notes", jopt JStr (notes p)) ].

Definition toJSON (p : t) : gmap string JsValue :=
  let purchaseObject := toObject p in
  let purchaseObject := delete "_id" purchaseObject in
  let purchaseObject := delete "__v" purchaseObject in
  delete "paymentData" purchaseObject.

End Purchase.

(** ** Catalog, roles, notifications ([models/Product.js], [models/Role.js],
    [models/UserRole.js], [models/Notification.js], [models/Software.js]) *)

Module Product.

(** One entry of the [durations] array. *)
Record Duration : Type := mkDuration {
  duration : string;
  days : option Z;
  price : Q;
  stripePriceId : option string
}.

Record t : Type := mk {
  id : Z;
  slug : string;
  title : string;
  description : option string;
  basePrice : Q;
  currency : option string;
  durations : list Duration;
  roleId : option Z;
  active : bool
}.

(** [this.durations.find(d => d.duration === duration)] *)
Definition findDuration (name : string) (p : t) : option Duration :=
  List.find (fun d => String.eqb (duration d) name) (durations p).

Definition getPriceForDuration (name : string) (p : t) : Q :=
  match findDuration name p with
  | Some durationObj => price durationObj
  | None => basePrice p
  end.

End Product.

Module Role.

Record t : Type := mk {
  id : Z;
  slug : string;
  name : string;
  permissions : list string;
  priority : Z;
  active : bool
}.

Definition hasPermission (permission : string) (r : t) : bool :=
  str_in permission (permissions r) || str_in "*" (permissions r).

End Role.

Module UserRole.

Record t : Type := mk {
  id : Z;
  userUid : Z;
  roleId : Z;
  assignedAt : Z;
  assignedBy : option Z;
  expiresAt : option Z;
  active : bool
}.

(** [new UserRole({ userUid, roleId, assignedBy, expiresAt })] *)
Definition new (now : Z) (userUid roleId : Z) (assignedBy : option Z)
    (expiresAt : option Z) : t :=
  {| id := 0; userUid := userUid; roleId := roleId; assignedAt := now;
     assignedBy := assignedBy; expiresAt := expiresAt; active := true |}.

Definition set_id (v : Z) (u : t) : t :=
  {| id := v; userUid := userUid u; roleId := roleId u;
     assignedAt := assignedAt u; assignedBy := assignedBy u;
     expiresAt := expiresAt u; active := active u |}.

Definition isExpired (now : Z) (u : t) : bool :=
  match expiresAt u with
  | Some e => e <? now
  | None => false
  end.

Definition isValid (now : Z) (u : t) : bool :=
  active u && negb (isExpired now u).

End UserRole.

Module Notification.

Record t : Type := mk {
  id : Z;
  userUid : Z;
  type : string;
  title : string;
  message : string;
  data : JsValue;
  relatedId : option Z;
  fromUserId : option Z;
  read : bool;
  readAt : option Z;
  createdAt : Z
}.

Definition new (now : Z) (userUid : Z) (type title message : string)
    (data : JsValue) (relatedId fromUserId : option Z) : t :=
  {| id := 0; userUid := userUid; type := type; title := title;
     message := message; data := data; relatedId := relatedId;
     fromUserId := fromUserId; read := false; readAt := None;
     createdAt := now |}.

Definition set_id (v : Z) (n : t) : t :=
  {| id := v; userUid := userUid n; type := type n; title := title n;
     message := message n; data := data n; relatedId := relatedId n;
     fromUserId := fromUserId n; read := read n; readAt := readAt n;
     createdAt := createdAt n |}.

(** [required] on a string rejects the empty string; [maxlength] bounds the
    length. *)
Definition validate (n : t) : bool :=
  str_in (type n)
    ["mention"; "pm"; "reply"; "reaction"; "purchase"; "system"; "token_reward"]
  && negb (String.eqb (title n) "")
  && (String.length (title n) <=? 200)%nat
  && negb (String.eqb (message n) "")
  && (String.length (message n) <=? 1000)%nat.

End Notification.

Module Software.

Record t : Type := mk {
  id : Z;
  name : string;
  description : string;
  price : Q;
  currency : string;
  category : string;
  version : string;
  downloadUrl : option string;
  status : string;
  createdBy : Z;
  updatedAt : Z;
  totalSales : Z;
  rating : Q;
  reviewCount : Z
}.

Definition set_totalSales (v : Z) (p : t) : t :=
  {| id := id p; name := name p; description := description p;
     price := price p; currency := currency p; category := category p;
     version := version p; downloadUrl := downloadUrl p;
     status := status p; createdBy := createdBy p;
     updatedAt := updatedAt p; totalSales := v; rating := rating p;
     reviewCount := reviewCount p |}.

Definition set_updatedAt (v : Z) (p : t) : t :=
  {| id := id p; name := name p; description := description p;
     price := price p; currency := currency p; category := category p;
     version := version p; downloadUrl := downloadUrl p;
     status := status p; createdBy := createdBy p; updatedAt := v;
     totalSales := totalSales p; rating := rating p;
     reviewCount := reviewCount p |}.

Definition validate (s : t) : bool :=
  negb (String.eqb (name s) "")
  && (String.length (name s) <=? 100)%nat
  && negb (String.eqb (description s) "")
  && (String.length (description s) <=? 1000)%nat
  && Qle_bool 0 (price s)
  && str_in (currency s) ["USD"; "EUR"; "BTC"; "ETH"]
  && str_in (category s) ["Cheat"; "Tool"; "Script"; "Mod"; "Other"]
  && str_in (status s) ["Active"; "Inactive"; "Discontinued"; "Beta"]
  && (0 <=? totalSales s)
  && Qle_bool 0 (rating s) && Qle_bool (rating s) 5
  && (0 <=? reviewCount s).

(** Field assignments of [incrementSales]; the caller sequences the save,
    which writes [updatedAt] again. *)
Definition incrementSales (now : Z) (s : t) : t :=
  let s := set_totalSales (totalSales s + 1) s in
  set_updatedAt now s.

Definition isPurchasable (s : t) : bool :=
  String.eqb (status s) "Active" || String.eqb (status s) "Beta".

End Software.

(** ** The document store and the handler monad *)

Record Db : Type := mkDb {
  purchases : list Purchase.t;
  products : list Product.t;
  roles : list Role.t;
  userRoles : list UserRole.t;
  notifications : list Notification.t;
  software : list Software.t
}.

Definition with_purchases (l : list Purchase.t) (db : Db) : Db :=
  {| purchases := l; products := products db; roles := roles db;
     userRoles := userRoles db; notifications := notifications db;
     software := software db |}.

Definition with_userRoles (l : list UserRole.t) (db : Db) : Db :=
  {| purchases := purchases db; products := products db; roles := roles db;
     userRoles := l; notifications := notifications db;
     software := software db |}.

Definition with_notifications (l : list Notification.t) (db : Db) : Db :=
  {| purchases := purchases db; products := products db; roles := roles db;
     userRoles := userRoles db; notifications := l;
     software := software db |}.

Definition with_software (l : list Software.t) (db : Db) : Db :=
  {| purchases := purchases db; products := products db; roles := roles db;
     userRoles := userRoles db; notifications := notifications db;
     software := l |}.

(** A loaded document: its position in the collection and its contents. *)
Definition Doc (A : Type) : Type := nat * A.

(** A handler step: reads and writes the store, returns or throws.  The
    store it leaves is kept in both cases. *)
Definition M (A : Type) : Type := Db -> Db * Result A.

Definition ret {A : Type} (a : A) : M A := fun db => (db, Ok a).

Definition throw {A : Type} (e : Exn) : M A := fun db => (db, Throw e).

Definition bind {A B : Type} (m : M A) (k : A -> M B) : M B :=
  fun db =>
    match m db with
    | (db', Ok a) => k a db'
    | (db', Throw e) => (db', Throw e)
    end.

Definition lift {A : Type} (r : Result A) : M A := fun db => (db, r).

Definition gets {A : Type} (f : Db -> A) : M A := fun db => (db, Ok (f db)).

(** [try { m } catch (error) { h error }] *)
Definition try_catch {A : Type} (m : M A) (h : Exn -> M A) : M A :=
  fun db =>
    match m db with
    | (db', Ok a) => (db', Ok a)
    | (db', Throw e) => h e db'
    end.

Declare Scope handler_scope.
Delimit Scope handler_scope with handler.
Notation "'let*' x := m 'in' k" := (bind m (fun x => k))
  (at level 10, x binder, m at level 100, k at level 200) : handler_scope.
Local Open Scope handler_scope.

(** The auto-increment hook: [last ? last.id + 1 : 1], [last] being the
    document with the highest id. *)
Definition next_id (ids : list Z) : Z :=
  match ids with
  | [] => 1
  | x :: r => foldr Z.max x r + 1
  end.

(** [save()] of a new purchase: validation, then the pre-save hook (id,
    license key), then the insertion.  [key] is what [generateLicenseKey]
    draws. *)
Definition insertPurchase (key : string) (p : Purchase.t) : M (Doc Purchase.t) :=
  fun db =>
    if Purchase.validate p then
      let i := length (purchases db) in
      let p := Purchase.set__id i p in
      let p := Purchase.set_id (next_id (Purchase.id <$> purchases db)) p in
      let p := if truthy_str (Purchase.licenseKey p) then p
               else Purchase.set_licenseKey (Some key) p in
      (with_purchases (purchases db ++ [p]) db, Ok (i, p))
    else (db, Throw (ValidationError "Purchase validation failed")).

(** [save()] of a purchase that is already stored. *)
Definition savePurchase (d : Doc Purchase.t) : M (Doc Purchase.t) :=
  fun db =>
    if Purchase.validate d.2 then
      (with_purchases (<[d.1 := d.2]> (purchases db)) db, Ok d)
    else (db, Throw (ValidationError "Purchase validation failed")).

(** [save()] of a new role assignment (its schema has no value validator). *)
Definition insertUserRole (u : UserRole.t) : M UserRole.t :=
  fun db =>
    let u := UserRole.set_id (next_id (UserRole.id <$> userRoles db)) u in
    (with_userRoles (userRoles db ++ [u]) db, Ok u).

(** [Notification.createNotification(...)] *)
Definition createNotification (now : Z) (userUid : Z) (type title message : string)
    (data : JsValue) (relatedId fromUserId : option Z) : M Notification.t :=
  fun db =>
    let n := Notification.new now userUid type title message data relatedId
               fromUserId in
    if Notification.validate n then
      let n := Notification.set_id (next_id (Notification.id <$> notifications db)) n in
      (with_notifications (notifications db ++ [n]) db, Ok n)
    else (db, Throw (ValidationError "Notification validation failed")).

(** [save()] of a stored software listing that has been modified.  The
    schema has [timestamps: true] and declares [updatedAt] itself, as a
    [String]: the save sets [updatedAt] to the current [Date], cast into
    that path, whatever the method assigned before. *)
Definition saveSoftware (now : Z) (d : Doc Software.t) : M (Doc Software.t) :=
  fun db =>
    let s := Software.set_updatedAt (cast_date now) d.2 in
    if Software.validate s then
      (with_software (<[d.1 := s]> (software db)) db, Ok (d.1, s))
    else (db, Throw (ValidationError "Software validation failed")).

(** ** HTTP responses *)

Inductive Body : Type :=
| BMessage (success : bool) (message : string)
| BError (error : string)
| BText (text : string)
| BReceived
| BCheckout (sessionId : string) (url : option string)
| BPurchase (message : string) (purchase : gmap string JsValue)
| BDownload (message : string) (downloadUrl : option string) (remainingDownloads : Z)
| BFailure (message error : string).

Record Response : Type := mkResponse { code : Z; body : Body }.

(** [res.status(c).json({ success: false, message })] *)
Definition fail (c : Z) (message : string) : Response :=
  mkResponse c (BMessage false message).

(** ** The payment provider ([stripe]) *)

Module Session.

Record t : Type := mk {
  id : string;
  client_reference_id : option string;
  metadata : option (gmap string string);
  payment_intent : option string;
  url : option string
}.

End Session.

Module PaymentIntent.

Record PaymentError : Type := mkError { message : option string }.

Record t : Type := mk {
  id : string;
  last_payment_error : option PaymentError
}.

End PaymentIntent.

(** [event.type] together with [event.data.object]. *)
Inductive StripeEvent : Type :=
| checkout_session_completed (session : Session.t)
| payment_intent_succeeded (paymentIntent : PaymentIntent.t)
| payment_intent_payment_failed (paymentIntent : PaymentIntent.t)
| other_event (type : string).

(** The argument of [stripe.checkout.sessions.create], but for
    [unit_amount]: [Math.round(price * 100)] is arithmetic on the double
    that holds the price, which the rational prices here do not give. *)
Record SessionParams : Type := mkParams {
  sp_currency : string;
  sp_name : string;
  sp_description : string;
  sp_success_url : string;
  sp_cancel_url : string;
  sp_client_reference_id : string;
  sp_metadata : gmap string string
}.

(** [req.body] as the body parsers leave it: the bytes of the body (the
    [Buffer] of [express.raw()]), or an object (what [express.json()] and
    [express.urlencoded()] parse, and the empty object of a request no
    parser read). *)
Inductive ReqBody : Type :=
| RawBody (raw : string)
| ParsedBody.

(** The provider's client, as far as the routes use it: [constructEvent] on
    the raw text of a body, the error [constructEvent] throws when it is
    handed an object instead (the signature is over the raw text, and an
    object is no JSON text: it throws whatever the header), and session
    creation. *)
Record Stripe : Type := mkStripe {
  constructEvent_raw : string -> option string -> option string -> Result StripeEvent;
  constructEvent_object : option string -> option string -> Exn;
  sessions_create : SessionParams -> Result Session.t
}.

(** [stripe.webhooks.constructEvent(req.body, sig, secret)] *)
Definition constructEvent (api : Stripe) (payload : ReqBody) (sig secret : option string)
    : Result StripeEvent :=
  match payload with
  | RawBody raw => constructEvent_raw api raw sig secret
  | ParsedBody => Throw (constructEvent_object api sig secret)
  end.

(** The module-level [stripe] (null when no key is configured), the
    environment variables read by the routes and by the application, and
    the time zone of the host. *)
Record Env : Type := mkEnv {
  stripe : option Stripe;
  STRIPE_WEBHOOK_SECRET : option string;
  FRONTEND_URL : option string;
  NODE_ENV : option string;
  TZ : TimeZone
}.

(** An [undefined] interpolated into a template string. *)
Definition interp (o : option string) : string := default "undefined" o.

Fixpoint toLowerCase (s : string) : string :=
  match s with
  | String a r =>
      let n := nat_of_ascii a in
      String (if ((65 <=? n) && (n <=? 90))%nat then ascii_of_nat (n + 32) else a)
             (toLowerCase r)
  | EmptyString => EmptyString
  end.

(** The [slug] path of the Product schema is declared [lowercase: true,
    trim: true].  The setters run on what is stored and on the value of a
    query filter alike, so a product is found by the slug as cast. *)
Definition cast_slug (s : string) : string := toLowerCase (trim s).

(** ** The payment gateway adapter ([routes/stripe.js]) *)

(** The body of [POST /api/stripe/create-checkout-session] and the
    authenticated principal. *)
Record CheckoutReq : Type := mkCheckoutReq {
  co_user : Z;
  co_productSlug : option string;
  co_duration : option string
}.

Definition session_params (env : Env) (req_user : Z) (productSlug duration : string)
    (product : Product.t) (durationObj : Product.Duration)
    (purchase : Purchase.t) : SessionParams :=
  {| sp_currency := toLowerCase (str_or (Product.currency product) "USD");
     sp_name := Product.title product +:+ " - " +:+ duration;
     sp_description := str_or (Product.description product) "";
     sp_success_url := interp (FRONTEND_URL env) +:+ "/settings?purchase=success";
     sp_cancel_url := interp (FRONTEND_URL env) +:+ "/settings?purchase=cancelled";
     sp_client_reference_id := toString (Purchase.id purchase);
     sp_metadata :=
       {[ "purchaseId" := toString (Purchase.id purchase);
          "userId" := toString req_user;
          "productSlug" := productSlug;
          "duration" := duration ]} |}.

Definition create_checkout_session (env : Env) (now : Z) (key : string)
    (req : CheckoutReq) : M Response :=
  try_catch
    (match stripe env with
     | None => ret (fail 503 "Payment system not configured")
     | Some api =>
         let userUid := co_user req in
         if negb (truthy_str (co_productSlug req)) || negb (truthy_str (co_duration req))
         then ret (fail 400 "Product slug and duration are required")
         else
           let productSlug := default "" (co_productSlug req) in
           let duration := default "" (co_duration req) in
           let* product := gets (fun db =>
             list_find (fun p => Product.slug p = cast_slug productSlug
                                 /\ Product.active p = true)
                       (products db)) in
           match product with
           | None => ret (fail 404 "Product not found")
           | Some (_, product) =>
               match Product.findDuration duration product with
               | None => ret (fail 400 "Invalid duration")
               | Some durationObj =>
                   let* purchase := insertPurchase key
                     (Purchase.new now userUid (Product.id product) (Some productSlug)
                        (Some duration) (Product.days durationObj) "Card"
                        (Product.price durationObj)
                        (str_or (Product.currency product) "USD")) in
                   let* session := lift (sessions_create api
                     (session_params env userUid productSlug duration product
                        durationObj purchase.2)) in
                   let purchase :=
                     (purchase.1,
                      Purchase.set_stripeSessionId (Some (Session.id session)) purchase.2) in
                   let* _ := savePurchase purchase in
                   ret (mkResponse 200 (BCheckout (Session.id session) (Session.url session)))
               end
           end
     end)
    (fun _ => ret (fail 500 "Server error while creating checkout session")).

(** [session.client_reference_id || session.metadata.purchaseId]: the
    property read throws when [metadata] is null or undefined. *)
Definition session_reference (session : Session.t) : Result (option string) :=
  if truthy_str (Session.client_reference_id session)
  then Ok (Session.client_reference_id session)
  else
    match Session.metadata session with
    | Some metadata => Ok (metadata !! "purchaseId")
    | None => Throw (TypeError "Cannot read properties of undefined (reading 'purchaseId')")
    end.

(** The expiry of a granted role: [durationDays] calendar days from now when
    it is positive, [null] otherwise.  [toISOString] throws when the day
    count takes the date out of range. *)
Definition role_expiry (zone : TimeZone) (now : Z) (durationDays : option Z)
    : Result (option Z) :=
  match durationDays with
  | Some d =>
      if truthy_num (Some d) && (0 <? d) then
        match toISOString (addDays zone now d) with
        | Ok expiresAt => Ok (Some expiresAt)
        | Throw e => Throw e
        end
      else Ok None
  | None => Ok None
  end.

Definition completed_message (product : option Product.t) : string :=
  "Your purchase of " +:+
  match product with Some product => Product.title product | None => "product" end
  +:+ " has been completed successfully.".

Definition handleCheckoutSessionCompleted (zone : TimeZone) (now : Z)
    (session : Session.t) : M unit :=
  let* ref := lift (session_reference session) in
  let purchaseId := parseInt (interp ref) in
  if negb (truthy_num purchaseId) then ret tt
  else
    let purchaseId := default 0 purchaseId in
    let* found := gets (fun db =>
      list_find (fun p => Purchase.id p = purchaseId) (purchases db)) in
    match found with
    | None => ret tt
    | Some (i, purchase) =>
        let purchase := Purchase.set_status Completed purchase in
        let purchase := Purchase.set_completedAt (Some now) purchase in
        let purchase := Purchase.set_stripePaymentId (Session.payment_intent session) purchase in
        let purchase := Purchase.set_transactionId (Some (Session.id session)) purchase in
        let* _ := savePurchase (i, purchase) in
        let* product := gets (fun db =>
          list_find (fun p => Some (Product.slug p)
                              = cast_slug <$> Purchase.productSlug purchase)
                    (products db)) in
        let product := snd <$> product in
        let* purchase :=
          match product with
          | Some product =>
              if truthy_num (Product.roleId product) then
                let* role := gets (fun db =>
                  list_find (fun r => Some (Role.id r) = Product.roleId product) (roles db)) in
                match role with
                | Some (_, role) =>
                    let* expiresAt :=
                      lift (role_expiry zone now (Purchase.durationDays purchase)) in
                    let* _ := insertUserRole
                      (UserRole.new now (Purchase.userId purchase) (Role.id role)
                         (Some (Purchase.userId purchase)) expiresAt) in
                    let purchase := Purchase.set_expiresAt expiresAt purchase in
                    let* _ := savePurchase (i, purchase) in
                    ret purchase
                | None => ret purchase
                end
              else ret purchase
          | None => ret purchase
          end in
        let* _ := createNotification now (Purchase.userId purchase) "purchase"
          "Purchase Complete!" (completed_message product)
          (JObj [("purchaseId", JNum (Purchase.id purchase));
                 ("productSlug", jopt JStr (Purchase.productSlug purchase));
                 ("duration", jopt JStr (Purchase.duration purchase))])
          (Some (Purchase.id purchase)) None in
        ret tt
    end.

Definition handlePaymentFailed (now : Z) (paymentIntent : PaymentIntent.t) : M unit :=
  let* found := gets (fun db =>
    list_find (fun p => Purchase.stripePaymentId p = Some (PaymentIntent.id paymentIntent))
              (purchases db)) in
  match found with
  | Some (i, purchase) =>
      let purchase := Purchase.set_status Failed purchase in
      let purchase :=
        Purchase.set_notes
          (Some (str_or (PaymentIntent.last_payment_error paymentIntent
                           ≫= PaymentIntent.message) "Payment failed"))
          purchase in
      let* _ := savePurchase (i, purchase) in
      let* _ := createNotification now (Purchase.userId purchase) "purchase"
        "Payment Failed" "Your recent payment attempt has failed. Please try again."
        (JObj [("purchaseId", JNum (Purchase.id purchase))])
        (Some (Purchase.id purchase)) None in
      ret tt
  | None => ret tt
  end.

(** [req.body] and the [stripe-signature] header of a webhook delivery, as
    the route handler finds them. *)
Record WebhookReq : Type := mkWebhookReq {
  wh_body : ReqBody;
  wh_signature : option string
}.

Definition handle_event (zone : TimeZone) (now : Z) (event : StripeEvent) : M unit :=
  match event with
  | checkout_session_completed session =>
      handleCheckoutSessionCompleted zone now session
  | payment_intent_succeeded _ => ret tt
  | payment_intent_payment_failed paymentIntent => handlePaymentFailed now paymentIntent
  | other_event _ => ret tt
  end.

Definition webhook (env : Env) (now : Z) (req : WebhookReq) : M Response :=
  match stripe env with
  | None => ret (mkResponse 503 (BError "Payment system not configured"))
  | Some api =>
      match constructEvent api (wh_body req) (wh_signature req)
              (STRIPE_WEBHOOK_SECRET env) with
      | Throw err =>
          ret (mkResponse 400 (BText ("Webhook Error: " +:+ exn_message err)))
      | Ok event =>
          try_catch
            (let* _ := handle_event (TZ env) now event in
             ret (mkResponse 200 BReceived))
            (fun _ => ret (mkResponse 500 (BError "Webhook handler failed")))
      end
  end.

(** ** The application ([server/index.js])

    [app.use(express.json({ limit: '10mb' }))] and
    [app.use(express.urlencoded({ extended: true }))] are installed before
    the routers, the stripe router among them.  (The rate limiter, which
    answers 429 above 500 requests in a quarter of an hour, is left out: a
    delivery is one it lets through.) *)

Inductive ContentType : Type := ApplicationJson | FormUrlencoded | OtherType.

(** A webhook delivery as it reaches the application. *)
Record Delivery : Type := mkDelivery {
  dv_type : ContentType;
  dv_raw : string;
  dv_signature : option string
}.

(** The two body parsers.  A parser reads a request of its type that has a
    body; [parse_error ct raw] is the error it passes on when it rejects the
    body (text it cannot parse, a body over the limit), [None] when it
    accepts.  In every other case [req.body] is an object: the parsed one,
    or the empty one of a request no parser read. *)
Definition body_parsers (parse_error : ContentType -> string -> option Exn)
    (d : Delivery) : Result ReqBody :=
  match dv_type d with
  | OtherType => Ok ParsedBody
  | ct =>
      if String.eqb (dv_raw d) "" then Ok ParsedBody
      else match parse_error ct (dv_raw d) with
           | Some err => Throw err
           | None => Ok ParsedBody
           end
  end.

(** The error-handling middleware. *)
Definition error_handler (env : Env) (err : Exn) : Response :=
  mkResponse 500
    (BFailure "Something went wrong!"
       (if bool_decide (NODE_ENV env = Some "development") then exn_message err
        else "Internal server error")).

(** [POST /api/stripe/webhook] through the application.  The route's own
    [express.raw({ type: 'application/json' })] passes every request on
    untouched: a request of that type with a body has been parsed by
    [express.json()] already, and any other is not for it to read. *)
Definition app_webhook (parse_error : ContentType -> string -> option Exn)
    (env : Env) (now : Z) (d : Delivery) : M Response :=
  match body_parsers parse_error d with
  | Throw err => ret (error_handler env err)
  | Ok body => webhook env now (mkWebhookReq body (dv_signature d))
  end.

(** ** The legacy purchase routes ([routes/purchases.js]) *)

Record PurchaseReq : Type := mkPurchaseReq {
  pr_user : Z;
  pr_softwareId : option Z;
  pr_paymentMethod : option string
}.

Definition post_purchase (now : Z) (key : string) (req : PurchaseReq) : M Response :=
  try_catch
    (if negb (truthy_num (pr_softwareId req)) || negb (truthy_str (pr_paymentMethod req))
     then ret (fail 400 "Software ID and payment method are required")
     else
       let softwareId := default 0 (pr_softwareId req) in
       let paymentMethod := default "" (pr_paymentMethod req) in
       let* software := gets (fun db =>
         list_find (fun s => Software.id s = softwareId) (software db)) in
       match software with
       | None => ret (fail 404 "Software not found")
       | Some (j, software) =>
           if negb (Software.isPurchasable software)
           then ret (fail 400 "Software is not available for purchase")
           else
             let* existingPurchase := gets (fun db =>
               list_find (fun p => Purchase.userId p = pr_user req
                                   /\ Purchase.softwareId p = softwareId
                                   /\ Purchase.status p = Completed)
                         (purchases db)) in
             match existingPurchase with
             | Some _ => ret (fail 409 "You already own this software")
             | None =>
                 let* purchase := insertPurchase key
                   (Purchase.new now (pr_user req) softwareId None None None
                      paymentMethod (Software.price software)
                      (Software.currency software)) in
                 let* purchase := savePurchase
                   (purchase.1,
                    Purchase.completePurchase now (Some ("DEMO_" +:+ toString now)) purchase.2) in
                 let* _ := saveSoftware now (j, Software.incrementSales now software) in
                 ret (mkResponse 201
                        (BPurchase "Purchase completed successfully"
                           (Purchase.toJSON purchase.2)))
             end
       end)
    (fun _ => ret (fail 500 "Server error while processing purchase")).

Record DownloadReq : Type := mkDownloadReq {
  dl_user : Z;
  dl_id : string
}.

(** The message of a refused redeem. *)
Definition denial_message (now : Z) (purchase : Purchase.t) : string :=
  if negb (bool_decide (Purchase.status purchase = Completed))
  then "Purchase not completed"
  else if Purchase.maxDownloads purchase <=? Purchase.downloadCount purchase
  then "Download limit exceeded"
  else if Purchase.expired now purchase
  then "Purchase has expired"
  else "Download not available".

Definition post_download (now : Z) (req : DownloadReq) : M Response :=
  try_catch
    (match parseInt (dl_id req) with
     | None => ret (fail 400 "Invalid purchase ID")
     | Some id =>
         let* found := gets (fun db =>
           list_find (fun p => Purchase.id p = id) (purchases db)) in
         match found with
         | None => ret (fail 404 "Purchase not found")
         | Some (i, purchase) =>
             if negb (dl_user req =? Purchase.userId purchase)
             then ret (fail 403 "You can only download your own purchases")
             else if negb (Purchase.canDownload now purchase)
             then ret (fail 400 (denial_message now purchase))
             else
               let* purchase := lift (Purchase.recordDownload now purchase) in
               let* _ := savePurchase (i, purchase) in
               let* software := gets (fun db =>
                 list_find (fun s => Software.id s = Purchase.softwareId purchase)
                           (software db)) in
               let downloadUrl :=
                 match software with
                 | Some (_, s) =>
                     if truthy_str (Software.downloadUrl s) then Software.downloadUrl s
                     else None
                 | None => None
                 end in
               ret (mkResponse 200
                      (BDownload "Download recorded successfully" downloadUrl
                         (Purchase.maxDownloads purchase - Purchase.downloadCount purchase)))
         end
     end)
    (fun _ => ret (fail 500 "Server error while recording download")).

(** An explicit refund: [refundPurchase(reason)] on the stored purchase at
    position [i] (no route of the repository calls it). *)
Definition refund (now : Z) (i : nat) (reason : option string) : M unit :=
  let* purchase := gets (fun db => purchases db !! i) in
  match purchase with
  | Some purchase =>
      let* _ := savePurchase (i, Purchase.refundPurchase now reason purchase) in
      ret tt
  | None => ret tt
  end.

(** ** The operations of the purchase flow as a transition system

    The route handlers that write purchases, each on the request it is
    handed, and the refund action; the GET routes only read.  [OpWebhook]
    is the webhook route on the body it is handed, raw or parsed; what the
    application of this repository hands it is [app_webhook]. *)

Inductive Op : Type :=
| OpCheckout (key : string) (req : CheckoutReq)
| OpWebhook (req : WebhookReq)
| OpPurchase (key : string) (req : PurchaseReq)
| OpDownload (req : DownloadReq)
| OpRefund (i : nat) (reason : option string).

(** One request (or refund action) handled at time [now]: the store it
    leaves. *)
Definition run_op (env : Env) (now : Z) (op : Op) (db : Db) : Db :=
  match op with
  | OpCheckout key req => (create_checkout_session env now key req db).1
  | OpWebhook req => (webhook env now req db).1
  | OpPurchase key req => (post_purchase now key req db).1
  | OpDownload req => (post_download now req db).1
  | OpRefund i reason => (refund now i reason db).1
  end.

Fixpoint run_ops (env : Env) (ops : list (Z * Op)) (db : Db) : Db :=
  match ops with
  | [] => db
  | (now, op) :: ops => run_ops env ops (run_op env now op db)
  end.

(** What the ledger shows of each purchase: its number and its status. *)
Definition ledger (db : Db) : list (Z * Status) :=
  (fun p => (Purchase.id p, Purchase.status p)) <$> purchases db.

Definition status_at (i : nat) (db : Db) : option Status :=
  Purchase.status <$> purchases db !! i.

(** The same redeem request repeated at the given times: the responses in
    order and the store after the last one. *)
Fixpoint redeem_all (req : DownloadReq) (times : list Z) (db : Db)
    : Db * list (Result Response) :=
  match times with
  | [] => (db, [])
  | now :: times =>
      let r := post_download now req db in
      let rest := redeem_all req times r.1 in
      (rest.1, r.2 :: rest.2)
  end.

Definition succeeded (r : Result Response) : Prop :=
  match r with
  | Ok resp => code resp = 200
  | Throw _ => False
  end.

(** ** The specification's wording, for comparison with the code *)

(** "true iff status is Completed, counter has headroom, and ([expiresAt] is
    null or strictly in the future)" *)
Definition spec_isDownloadAllowed (now : Z) (p : Purchase.t) : Prop :=
  Purchase.status p = Completed
  /\ Purchase.downloadCount p < Purchase.maxDownloads p
  /\ (Purchase.expiresAt p = None
      \/ exists e, Purchase.expiresAt p = Some e /\ now < e).

(** "status transitions are monotonic except Completed -> Refunded; no
    transition ever reverts to Pending": a status that has left Pending
    stays as it is, except that Completed may become Refunded. *)
Definition spec_transition (s s' : Status) : Prop :=
  s = s' \/ s = Pending \/ (s = Completed /\ s' = Refunded).


Definition may_set (op : Op) (s : Status) : Prop :=
  match op with
  | OpWebhook _ => s = Completed \/ s = Failed
  | OpRefund _ _ => s = Refunded
  | _ => False
  end.

(** ... and as the routes have it: [POST /api/purchases] creates its record
    and completes it in the same request. *)
Definition code_may_create (op : Op) (s : Status) : Prop :=
  match op with
  | OpCheckout _ _ => s = Pending
  | OpPurchase _ _ => s = Completed
  | _ => False
  end.


(** ** A worked scenario

    The catalog of the specification's example: product "pro-tool" with the
    tier 1month / 30 days / 9.99 and a role; next to it a product whose role
    id names no role, a product without tiers, a product that is no longer
    active, a product with a very long title, and a legacy software
    listing.  The provider stub accepts the signature "valid" and reads the
    event off the body. *)

Module Example.

Definition tier : Product.Duration :=
  Product.mkDuration "1month" (Some 30) (999 # 100)%Q None.

Definition pro_tool : Product.t :=
  Product.mk 1 "pro-tool" "Pro Tool" None (20 # 1)%Q (Some "USD") [tier] (Some 7) true.

Definition ghost_tool : Product.t :=
  Product.mk 2 "ghost-tool" "Ghost Tool" None (20 # 1)%Q (Some "USD") [tier] (Some 9) true.

Definition bare_tool : Product.t :=
  Product.mk 3 "bare-tool" "Bare Tool" None (5 # 1)%Q (Some "USD") [] None true.

Definition retired_tool : Product.t :=
  Product.mk 4 "retired-tool" "Retired Tool" None (20 # 1)%Q (Some "USD") [tier] None false.

Fixpoint xs (n : nat) : string :=
  match n with
  | O => ""
  | S n => String "x" (xs n)
  end.

(** A product whose title has a thousand characters. *)
Definition long_tool : Product.t :=
  Product.mk 5 "long-tool" (xs 1000) None (20 # 1)%Q (Some "USD") [tier] None true.

Definition vip : Role.t := Role.mk 7 "vip" "VIP" [] 0 true.

Definition legacy : Software.t :=
  Software.mk 1 "Legacy" "A legacy listing" (3 # 1)%Q "USD" "Tool" "1.0.0"
    (Some "https://files.example/legacy.zip") "Active" 1 0 0 (0 # 1)%Q 0.

Definition db0 : Db :=
  mkDb [] [pro_tool; ghost_tool; bare_tool; retired_tool; long_tool] [vip] [] [] [legacy].

Definition decline : PaymentIntent.t :=
  PaymentIntent.mk "pi_1"
    (Some (PaymentIntent.mkError (Some "Your card was declined."))).

(** Body "C<n>": checkout completed for purchase [n]; "F": payment failed
    for intent pi_1; anything else: an event the route does not handle. *)
Definition decode (body : string) : StripeEvent :=
  match body with
  | String "C" ref =>
      checkout_session_completed
        (Session.mk "cs_1" (Some ref) (Some ∅) (Some "pi_1") None)
  | String "F" _ => payment_intent_payment_failed decline
  | _ => other_event "customer.created"
  end.

Definition api : Stripe :=
  mkStripe
    (fun body sig secret =>
       if bool_decide (sig = Some "valid") then Ok (decode body)
       else Throw (Error "No signatures found matching the expected signature for payload"))
    (fun sig secret =>
       Error "Webhook payload must be provided as a string or a Buffer")
    (fun params =>
       Ok (Session.mk "cs_1" (Some (sp_client_reference_id params))
             (Some (sp_metadata params)) None (Some "https://checkout.example/cs_1"))).

Definition env : Env :=
  mkEnv (Some api) (Some "whsec") (Some "https://site.example") (Some "production")
    utc_zone.

Definition buyer : Z := 42.

Definition checkout (slug tier : string) : Op :=
  OpCheckout "AAAA-BBBB-CCCC-DDDD" (mkCheckoutReq buyer (Some slug) (Some tier)).

Definition delivery (body signature : string) : Op :=
  OpWebhook (mkWebhookReq (RawBody body) (Some signature)).

(** Checkout of pro-tool (purchase 1, Pending), then its completion. *)
Definition db1 : Db := run_op env 1000 (checkout "pro-tool" "1month") db0.
Definition db2 : Db := run_op env 2000 (delivery "C1" "valid") db1.
(** A payment failure for the same intent, then the completion replayed. *)
Definition db3 : Db := run_op env 3000 (delivery "F" "valid") db2.
Definition db4 : Db := run_op env 4000 (delivery "C1" "valid") db3.

(** Checkout and completion of ghost-tool, whose role id names no role. *)
Definition ghost1 : Db := run_op env 1000 (checkout "ghost-tool" "1month") db0.
Definition ghost2 : Db := run_op env 2000 (delivery "C1" "valid") ghost1.

(** The completed session the provider reports for purchase 1. *)
Definition session1 : Session.t :=
  Session.mk "cs_1" (Some "1") (Some ∅) (Some "pi_1") None.

(** Checkout of long-tool. *)
Definition long1 : Db := run_op env 1000 (checkout "long-tool" "1month") db0.

(** A catalog whose product grants the role for a hundred million days, the
    span of the dates there are, and the checkout of that product. *)
Definition lifetime : Product.Duration :=
  Product.mkDuration "lifetime" (Some 100000000) (4999 # 100)%Q None.

Definition eternal_tool : Product.t :=
  Product.mk 1 "eternal-tool" "Eternal Tool" None (50 # 1)%Q (Some "USD") [lifetime]
    (Some 7) true.

Definition eternal0 : Db := mkDb [] [eternal_tool] [vip] [] [] [].
Definition eternal1 : Db := run_op env 1000 (checkout "eternal-tool" "lifetime") eternal0.

Definition redeem : DownloadReq := mkDownloadReq buyer "1".

(** A completed purchase whose access lapses at instant 5000. *)
Definition lapsing : Purchase.t :=
  Purchase.set_expiresAt (Some 5000)
    (Purchase.set_status Completed
       (Purchase.new 1000 buyer 1 (Some "pro-tool") (Some "1month") (Some 30)
          "Card" (999 # 100)%Q "USD")).

(** The record stored at position [i] ([lapsing] when there is none). *)
Definition stored (i : nat) (db : Db) : Purchase.t :=
  default lapsing (purchases db !! i).

End Example.

(** What one operation does to the purchase collection, record by record:
    it rewrites one stored record, keeping its number and its download
    limit, either moving it to a status the operation may set (counter
    untouched) or, for a redeem, counting one more download below the
    limit (status untouched); or it appends one record, with an unused
    counter, in a status the operation may create. *)
Definition is_download (op : Op) : Prop :=
  match op with OpDownload _ => True | _ => False end.

Definition record_updated (op : Op) (p p' : Purchase.t) : Prop :=
  Purchase.id p' = Purchase.id p
  /\ Purchase.maxDownloads p' = Purchase.maxDownloads p
  /\ ((may_set op (Purchase.status p')
       /\ Purchase.downloadCount p' = Purchase.downloadCount p)
      \/ (is_download op
          /\ Purchase.status p' = Purchase.status p
          /\ Purchase.downloadCount p < Purchase.maxDownloads p
          /\ Purchase.downloadCount p' = Purchase.downloadCount p + 1)).

Definition record_created (op : Op) (p' : Purchase.t) : Prop :=
  code_may_create op (Purchase.status p')
  /\ Purchase.downloadCount p' = 0
  /\ Purchase.maxDownloads p' = 5.

Definition purchases_effect (op : Op) (l l' : list Purchase.t) : Prop :=
  l' = l
  \/ (exists i p p', l !! i = Some p /\ l' = <[i := p']> l /\ record_updated op p p')
  \/ (exists p', l' = l ++ [p'] /\ record_created op p').

(** The role a completion of the purchase [p] grants in the store [db]: the
    stored role that the role id of the purchase's product names, when that
    id is neither null nor 0. *)
Definition granted_role (db : Db) (p : Purchase.t) : option Role.t :=
  match list_find (fun q => Some (Product.slug q)
                            = cast_slug <$> Purchase.productSlug p) (products db) with
  | Some (_, product) =>
      if truthy_num (Product.roleId product) then
        snd <$> list_find (fun x => Some (Role.id x) = Product.roleId product) (roles db)
      else None
  | None => None
  end.

(** The purchase as the completion handler leaves it when it grants a role
    that expires at [expiresAt]. *)
Definition completed_record (expiresAt : option Z) (now : Z) (session : Session.t)
    (p : Purchase.t) : Purchase.t :=
  Purchase.set_expiresAt expiresAt
    (Purchase.set_transactionId (Some (Session.id session))
       (Purchase.set_stripePaymentId (Session.payment_intent session)
          (Purchase.set_completedAt (Some now) (Purchase.set_status Completed p)))).

(** ** More of the models and routes *)

(** Where these sources are in the tree: the User model is
    [src/unnamed/part_003]; the role checks of the middleware are
    [src/server/middleware/auth.js]; the notification routes are the second
    module of [src/server/routes/stripe.js]. *)

(** *** [generateLicenseKey] ([models/Purchase.js]) *)

Definition license_chars : string := "ABCDEFGHIJKLMNOPQRSTUVWXYZ0123456789".

(** [s.charAt(k)]: the empty string outside the string. *)
Definition charAt (s : string) (k : Z) : string :=
  if k <? 0 then ""
  else match String.get (Z.to_nat k) s with
       | Some a => String a ""
       | None => ""
       end.

(** One round of the loop: the dash before every fourth character but the
    first, then the character drawn. *)
Definition license_step (rand : nat -> Q) (result : string) (i : nat) : string :=
  let result :=
    if (0 <? i)%nat && (i mod 4 =? 0)%nat then result +:+ "-" else result in
  result +:+
  charAt license_chars
    (Qfloor (Qmult (rand i) (Z.of_nat (String.length license_chars) # 1))).

(** [generateLicenseKey()], [rand i] being what the call of [Math.random()]
    in round [i] returns. *)
Definition generateLicenseKey (rand : nat -> Q) : string :=
  foldl (license_step rand) "" (seq 0 16).

(** *** Role assignments: [extend] ([models/UserRole.js]) *)

(** [extend(days)] up to its save: the new expiry counts from the current
    one, or from now when there is none; [toISOString] throws when it is out
    of range, and the expiry is then left as it was. *)
Definition extend (now days : Z) (u : UserRole.t) : Result UserRole.t :=
  let currentExpiry := default now (UserRole.expiresAt u) in
  let newExpiry := addMilliseconds currentExpiry (days * 24 * 60 * 60 * 1000) in
  match toISOString newExpiry with
  | Ok expiresAt =>
      Ok {| UserRole.id := UserRole.id u; UserRole.userUid := UserRole.userUid u;
            UserRole.roleId := UserRole.roleId u;
            UserRole.assignedAt := UserRole.assignedAt u;
            UserRole.assignedBy := UserRole.assignedBy u;
            UserRole.expiresAt := Some expiresAt; UserRole.active := UserRole.active u |}
  | Throw e => Throw e
  end.

(** *** Accounts and the role checks ([models/User.js], [middleware/auth.js]) *)

Module User.

(** What the authorization code reads and writes of an account. *)
Record t : Type := mk {
  uid : Z;
  badge : string;
  banned : bool;
  banReason : option string;
  bannedAt : option Z;
  bannedBy : option Z
}.

Definition isAdmin (u : t) : bool := str_in (badge u) ["Owner"; "Admin"].

Definition isModerator (u : t) : bool :=
  str_in (badge u) ["Owner"; "Admin"; "Moderator"].

Definition isSupport (u : t) : bool :=
  str_in (badge u) ["Owner"; "Admin"; "Moderator"; "Support"].

Definition validBadges : list string :=
  ["Owner"; "Admin"; "Moderator"; "Support"; "Premium"; "Known"; "Member"].

(** [changeRank]: the badge is assigned when it is one of the valid ones
    (the save that follows is the caller's), an [Error] is thrown
    otherwise. *)
Definition changeRank (newBadge : string) (u : t) : Result t :=
  if str_in newBadge validBadges then
    Ok {| uid := uid u; badge := newBadge; banned := banned u;
          banReason := banReason u; bannedAt := bannedAt u; bannedBy := bannedBy u |}
  else Throw (Error "Invalid badge").

End User.

(** A role check: [None] is [next()], a response ends the request. *)
Definition role_check (allowed : User.t -> bool) (denied : string)
    (user : option User.t) : option Response :=
  match user with
  | None => Some (fail 401 "Authentication required")
  | Some u => if negb (allowed u) then Some (fail 403 denied) else None
  end.

Definition requireAdmin : option User.t -> option Response :=
  role_check User.isAdmin "Admin privileges required".

Definition requireModerator : option User.t -> option Response :=
  role_check User.isModerator "Moderator privileges required".

Definition requireSupport : option User.t -> option Response :=
  role_check User.isSupport "Support privileges required".

Definition requireOwner : option User.t -> option Response :=
  role_check (fun u => String.eqb (User.badge u) "Owner") "Owner privileges required".

(** *** Reading one purchase: [GET /api/purchases/:id] *)






(** *** Pagination of the list routes *)

(** [parseInt(req.query.x) || dflt] *)
Definition query_int (x : option string) (dflt : Z) : Z :=
  match parseInt (interp x) with
  | Some n => if n =? 0 then dflt else n
  | None => dflt
  end.

(** [Math.ceil(total / limit)] for integers, [limit] not zero. *)
Definition ceil_div (total limit : Z) : Z := - ((- total) / limit).

Record Pagination : Type := mkPagination {
  currentPage : Z;
  totalPages : Z;
  totalPurchases : Z;
  hasNext : bool;
  hasPrev : bool
}.

Definition skip_of (page limit : Z) : Z := (page - 1) * limit.

Definition pagination (page limit total : Z) : Pagination :=
  let totalPages := ceil_div total limit in
  {| currentPage := page; totalPages := totalPages; totalPurchases := total;
     hasNext := page <? totalPages; hasPrev := 1 <? page |}.

(** *** Reading notifications ([routes/notifications.js]) *)

(** The [$set] of read-all: [read: true, readAt: now]. *)
Definition mark_read (now : Z) (n : Notification.t) : Notification.t :=
  {| Notification.id := Notification.id n;
     Notification.userUid := Notification.userUid n;
     Notification.type := Notification.type n;
     Notification.title := Notification.title n;
     Notification.message := Notification.message n;
     Notification.data := Notification.data n;
     Notification.relatedId := Notification.relatedId n;
     Notification.fromUserId := Notification.fromUserId n;
     Notification.read := true;
     Notification.readAt := Some now;
     Notification.createdAt := Notification.createdAt n |}.

(** The filter [{ userUid, read: false }]. *)
Definition unread_of (userUid : Z) (n : Notification.t) : bool :=
  (Notification.userUid n =? userUid) && negb (Notification.read n).

(** [Notification.countDocuments({ userUid, read: false })], the answer of
    [GET /api/notifications/unread-count]. *)
Definition unreadCount (userUid : Z) (db : Db) : Z :=
  Z.of_nat (length (List.filter (unread_of userUid) (notifications db))).

(** [PUT /api/notifications/read-all]: one [updateMany] over the filter. *)
Definition read_all (now : Z) (userUid : Z) : M Response :=
  fun db =>
    (with_notifications
       ((fun n => if unread_of userUid n then mark_read now n else n)
          <$> notifications db)
       db,
     Ok (mkResponse 200 (BMessage true "All notifications marked as read"))).

(** *** The exact writes of each operation *)

(** A new purchase as the pre-save hook stores it. *)
Definition stored_new (key : string) (db : Db) (p : Purchase.t) : Purchase.t :=
  Purchase.set_licenseKey (Some key)
    (Purchase.set_id (next_id (Purchase.id <$> purchases db))
       (Purchase.set__id (length (purchases db)) p)).

(** How an operation handled at [now] rewrites a stored purchase. *)
Inductive rewrite_by (now : Z) : Op -> Purchase.t -> Purchase.t -> Prop :=
| rw_completed req session p expiresAt zone :
    expiresAt = Purchase.expiresAt p
    \/ role_expiry zone now (Purchase.durationDays p) = Ok expiresAt ->
    rewrite_by now (OpWebhook req) p
      (Purchase.set_expiresAt expiresAt
         (Purchase.set_transactionId (Some (Session.id session))
            (Purchase.set_stripePaymentId (Session.payment_intent session)
               (Purchase.set_completedAt (Some now)
                  (Purchase.set_status Completed p)))))
| rw_failed req intent note p :
    Purchase.stripePaymentId p = Some intent ->
    rewrite_by now (OpWebhook req) p
      (Purchase.set_notes (Some note) (Purchase.set_status Failed p))
| rw_download req p :
    Purchase.canDownload now p = true ->
    dl_user req = Purchase.userId p ->
    rewrite_by now (OpDownload req) p
      (Purchase.set_lastDownload (Some now)
         (Purchase.set_downloadCount (Purchase.downloadCount p + 1) p))
| rw_refund i reason p :
    rewrite_by now (OpRefund i reason) p (Purchase.refundPurchase now reason p).

(** The purchase an operation handled at [now] appends to the store [db]. *)
Inductive created_by (now : Z) (db : Db) : Op -> Purchase.t -> Prop :=
| cr_checkout key req productId slug tier days price cur sessionId :
    created_by now db (OpCheckout key req)
      (Purchase.set_stripeSessionId sessionId
         (stored_new key db
            (Purchase.new now (co_user req) productId (Some slug) (Some tier) days
               "Card" price cur)))
| cr_purchase key req softwareId method price cur :
    created_by now db (OpPurchase key req)
      (Purchase.completePurchase now (Some ("DEMO_" +:+ toString now))
         (stored_new key db
            (Purchase.new now (pr_user req) softwareId None None None method
               price cur))).

Definition exact_effect (now : Z) (op : Op) (db : Db) (l' : list Purchase.t) : Prop :=
  l' = purchases db
  \/ (exists i p p', purchases db !! i = Some p /\ rewrite_by now op p p'
                     /\ l' = <[i := p']> (purchases db))
  \/ (exists p', created_by now db op p' /\ l' = purchases db ++ [p']).

(** *** What an operation keeps of a stored purchase *)

(** The fields no operation writes after the first save. *)
Definition same_order (p p' : Purchase.t) : Prop :=
  Purchase._id p' = Purchase._id p
  /\ Purchase.id p' = Purchase.id p
  /\ Purchase.userId p' = Purchase.userId p
  /\ Purchase.softwareId p' = Purchase.softwareId p
  /\ Purchase.paymentMethod p' = Purchase.paymentMethod p
  /\ Purchase.amount p' = Purchase.amount p
  /\ Purchase.currency p' = Purchase.currency p
  /\ Purchase.productSlug p' = Purchase.productSlug p
  /\ Purchase.duration p' = Purchase.duration p
  /\ Purchase.durationDays p' = Purchase.durationDays p
  /\ Purchase.purchaseDate p' = Purchase.purchaseDate p
  /\ Purchase.maxDownloads p' = Purchase.maxDownloads p
  /\ Purchase.licenseKey p' = Purchase.licenseKey p
  /\ Purchase.paymentData p' = Purchase.paymentData p.

(** Stores as the flow builds them: purchase numbers are positive and
    pairwise distinct. *)
Definition numbered (db : Db) : Prop :=
  Forall (fun n => 1 <= n) (Purchase.id <$> purchases db)
  /\ NoDup (Purchase.id <$> purchases db).

(** A purchase that is still Pending carries no payment intent. *)
Definition unpaid_without_intent (db : Db) : Prop :=
  Forall (fun p => Purchase.status p = Pending -> Purchase.stripePaymentId p = None)
    (purchases db).

(** A purchase with an expiry has a positive day count. *)
Definition expiry_from_days (db : Db) : Prop :=
  Forall (fun p => Purchase.expiresAt p <> None ->
                   exists d, Purchase.durationDays p = Some d /\ 0 < d)
    (purchases db).

(** What every operation leaves of the other collections: the catalog as it
    is, the role assignments and notifications it had as a prefix of what
    it has now, the software listings under the same numbers. *)
Definition frame (db db' : Db) : Prop :=
  products db' = products db
  /\ roles db' = roles db
  /\ userRoles db `prefix_of` userRoles db'
  /\ notifications db `prefix_of` notifications db'
  /\ Software.id <$> software db' = Software.id <$> software db.

Definition is_webhook (op : Op) : Prop :=
  match op with OpWebhook _ => True | _ => False end.

(** The store a successful [POST /api/purchases] leaves. *)
Definition bought (now : Z) (key : string) (req : PurchaseReq) (j : nat)
    (s : Software.t) (db : Db) : Db :=
  with_software
    (<[j := Software.set_updatedAt (cast_date now) (Software.incrementSales now s)]>
       (software db))
    (with_purchases
       (purchases db ++
        [Purchase.completePurchase now (Some ("DEMO_" +:+ toString now))
           (stored_new key db
              (Purchase.new now (pr_user req) (default 0 (pr_softwareId req)) None
                 None None (default "" (pr_paymentMethod req)) (Software.price s)
                 (Software.currency s)))])
       db).

(** * Properties *)

(** ** Auxiliary facts *)

(** Case analysis on the next test of a handler that has been unfolded. *)
Ltac next_case :=
  match goal with
  | |- context [match ?x with _ => _ end] =>
      lazymatch x with
      | context [match _ with _ => _ end] => fail
      | _ => destruct x eqn:?
      end
  | |- context [if ?x then _ else _] =>
      lazymatch x with
      | context [if _ then _ else _] => fail
      | _ => destruct x eqn:?
      end
  end.

Ltac unfold_handler :=
  unfold bind, gets, lift, ret, throw, try_catch, savePurchase, insertPurchase,
    insertUserRole, createNotification, saveSoftware.

Lemma list_find_update {A : Type} (P : A -> Prop) `{!forall x, Decision (P x)}
    (l : list A) (i : nat) (x x' : A) :
  list_find P l = Some (i, x) -> P x' -> list_find P (<[i := x']> l) = Some (i, x').
Proof.
  intros (Hx & _ & Hleast)%list_find_Some HP.
  apply list_find_insert_Some. right; left.
  split_and!; eauto using lookup_lt_Some.
Qed.

Lemma ledger_lookup (i : nat) (p : Purchase.t) (db : Db) :
  purchases db !! i = Some p ->
  ledger db !! i = Some (Purchase.id p, Purchase.status p).
Proof. intros Hp. unfold ledger. by rewrite list_lookup_fmap, Hp. Qed.

Lemma status_at_ledger (i : nat) (db : Db) :
  status_at i db = snd <$> ledger db !! i.
Proof.
  unfold status_at, ledger. rewrite list_lookup_fmap.
  by destruct (purchases db !! i).
Qed.

Lemma toObject_other (v : JsValue) (p : Purchase.t) (k : string) :
  k <> "paymentData" ->
  Purchase.toObject (Purchase.set_paymentData v p) !! k = Purchase.toObject p !! k.
Proof.
  intros Hk. unfold Purchase.toObject. cbn [list_to_map foldr uncurry fst snd].
  repeat (rewrite (lookup_insert _ _ k); case_decide; [subst; try done|]).
  done.
Qed.

(** *** The redeem route, one request at a time *)

Section Redeem.

Variables (req : DownloadReq) (pid : Z).
Hypothesis Hpid : parseInt (dl_id req) = Some pid.

Lemma download_denied (now : Z) (db : Db) (i : nat) (p : Purchase.t) :
  list_find (fun p => Purchase.id p = pid) (purchases db) = Some (i, p) ->
  dl_user req = Purchase.userId p ->
  Purchase.canDownload now p = false ->
  post_download now req db = (db, Ok (fail 400 (denial_message now p))).
Proof.
  intros Hfind Huser Hcan. unfold post_download. unfold_handler.
  rewrite Hpid, Hfind, Huser, Z.eqb_refl, Hcan. reflexivity.
Qed.

Lemma download_success (now : Z) (db : Db) (i : nat) (p : Purchase.t) :
  list_find (fun p => Purchase.id p = pid) (purchases db) = Some (i, p) ->
  succeeded (post_download now req db).2 ->
  exists p',
    list_find (fun p => Purchase.id p = pid)
      (purchases (post_download now req db).1) = Some (i, p')
    /\ Purchase.downloadCount p' = Purchase.downloadCount p + 1
    /\ Purchase.maxDownloads p' = Purchase.maxDownloads p
    /\ Purchase.status p' = Completed
    /\ Purchase.userId p' = Purchase.userId p
    /\ dl_user req = Purchase.userId p
    /\ Purchase.downloadCount p < Purchase.maxDownloads p.
Proof.
  intros Hfind. pose proof Hfind as (_ & Hid & _)%list_find_Some.
  unfold post_download. unfold_handler. rewrite Hpid, Hfind. cbn.
  destruct (dl_user req =? Purchase.userId p) eqn:Huser; cbn; [|done].
  apply Z.eqb_eq in Huser.
  destruct (Purchase.canDownload now p) eqn:Hcan; cbn; [|done].
  unfold Purchase.canDownload in Hcan.
  destruct (bool_decide (Purchase.status p = Completed)) eqn:Hst; cbn in Hcan; [|done].
  apply bool_decide_eq_true in Hst.
  unfold Purchase.recordDownload.
  destruct (Purchase.maxDownloads p <=? Purchase.downloadCount p) eqn:Hlim; [done|].
  apply Z.leb_gt in Hlim. cbn.
  next_case; cbn; [|done]. intros _.
  eexists. split; [by eapply list_find_update; [exact Hfind|]|].
  cbn. by split_and!.
Qed.

End Redeem.

(** *** What each operation does to the purchase collection *)

Lemma snoc_insert {A : Type} (l : list A) (x y : A) :
  <[length l := y]> (l ++ [x]) = l ++ [y].
Proof. rewrite insert_app_r_alt by lia. by rewrite Nat.sub_diag. Qed.

Lemma completePurchase_fields (now : Z) (txId : option string) (p : Purchase.t) :
  Purchase.validate (Purchase.completePurchase now txId p) = Purchase.validate p
  /\ Purchase.status (Purchase.completePurchase now txId p) = Completed
  /\ Purchase.downloadCount (Purchase.completePurchase now txId p)
     = Purchase.downloadCount p
  /\ Purchase.maxDownloads (Purchase.completePurchase now txId p)
     = Purchase.maxDownloads p.
Proof. unfold Purchase.completePurchase. by destruct (truthy_str txId). Qed.

Lemma completed_effect (zone : TimeZone) (now : Z) (session : Session.t)
    (req : WebhookReq) (db : Db) :
  purchases_effect (OpWebhook req) (purchases db)
    (purchases (handleCheckoutSessionCompleted zone now session db).1).
Proof.
  unfold handleCheckoutSessionCompleted. unfold_handler. cbn.
  destruct (session_reference session) as [ref|]; cbn; [|by left].
  destruct (truthy_num (parseInt (interp ref))); cbn; [|by left].
  destruct (list_find _ (purchases db)) as [[i p]|] eqn:Hfind; cbn; [|by left].
  apply list_find_Some in Hfind as (Hp & _ & _).
  repeat (next_case; cbn).
  all: try (by left).
  all: right; left; eexists i, p, _; split; [done|].
  all: rewrite ?list_insert_insert_eq; split; [reflexivity|].
  all: split_and!; try done; left; split; [left|]; done.
Qed.

Lemma failed_effect (now : Z) (paymentIntent : PaymentIntent.t) (req : WebhookReq) (db : Db) :
  purchases_effect (OpWebhook req) (purchases db)
    (purchases (handlePaymentFailed now paymentIntent db).1).
Proof.
  unfold handlePaymentFailed. unfold_handler. cbn.
  destruct (list_find _ (purchases db)) as [[i p]|] eqn:Hfind; cbn; [|by left].
  apply list_find_Some in Hfind as (Hp & _ & _).
  repeat (next_case; cbn).
  all: try (by left).
  all: right; left; eexists i, p, _; split; [done|].
  all: split; [reflexivity|].
  all: split_and!; try done; left; split; [right|]; done.
Qed.

(** A delivery whose signature verifies is answered from the outcome of the
    event handler. *)
Lemma webhook_verified (env : Env) (now : Z) (req : WebhookReq) (db : Db)
    (api : Stripe) (event : StripeEvent) :
  stripe env = Some api ->
  constructEvent api (wh_body req) (wh_signature req) (STRIPE_WEBHOOK_SECRET env)
    = Ok event ->
  webhook env now req db =
    ((handle_event (TZ env) now event db).1,
     Ok (match (handle_event (TZ env) now event db).2 with
         | Ok _ => mkResponse 200 BReceived
         | Throw _ => mkResponse 500 (BError "Webhook handler failed")
         end)).
Proof.
  intros Hapi Hev. unfold webhook. rewrite Hapi, Hev.
  unfold try_catch, bind, ret.
  by destruct (handle_event (TZ env) now event db) as [db' [[]|e]].
Qed.

Lemma webhook_effect (env : Env) (now : Z) (req : WebhookReq) (db : Db) :
  purchases_effect (OpWebhook req) (purchases db) (purchases (webhook env now req db).1).
Proof.
  destruct (stripe env) as [api|] eqn:Hapi; [|unfold webhook; rewrite Hapi; by left].
  destruct (constructEvent api (wh_body req) (wh_signature req)
              (STRIPE_WEBHOOK_SECRET env)) as [event|err] eqn:Hev;
    [|unfold webhook; rewrite Hapi, Hev; by left].
  rewrite (webhook_verified _ _ _ _ _ _ Hapi Hev). cbn [fst].
  destruct event as [session|pi|pi|type]; cbn [handle_event]; try (by left).
  - apply completed_effect.
  - apply failed_effect.
Qed.

Lemma checkout_effect (env : Env) (now : Z) (key : string) (req : CheckoutReq) (db : Db) :
  purchases_effect (OpCheckout key req) (purchases db)
    (purchases (create_checkout_session env now key req db).1).
Proof.
  unfold create_checkout_session. unfold_handler. cbn.
  repeat (next_case; cbn).
  all: try (by left).
  all: right; right; eexists; rewrite ?snoc_insert; split; [reflexivity|].
  all: by split_and!.
Qed.

Lemma purchase_effect (now : Z) (key : string) (req : PurchaseReq) (db : Db) :
  purchases_effect (OpPurchase key req) (purchases db)
    (purchases (post_purchase now key req db).1).
Proof.
  unfold post_purchase. unfold_handler. cbn.
  repeat (next_case; cbn).
  all: try (by left).
  all: try (exfalso;
            rewrite (proj1 (completePurchase_fields _ _ _)) in *;
            unfold Purchase.validate in *; cbn in *; congruence).
  all: right; right; eexists; rewrite ?snoc_insert; split; [reflexivity|].
  all: destruct (completePurchase_fields now (Some ("DEMO_" +:+ toString now))
         (Purchase.set_licenseKey (Some key)
            (Purchase.set_id (next_id (Purchase.id <$> purchases db))
               (Purchase.set__id (length (purchases db))
                  (Purchase.new now (pr_user req) (default 0 (pr_softwareId req))
                     None None None (default "" (pr_paymentMethod req))
                     (Software.price t) (Software.currency t))))))
         as (_ & Hst & Hcount & Hmax).
  all: by split_and!.
Qed.

Lemma download_effect (now : Z) (req : DownloadReq) (db : Db) :
  purchases_effect (OpDownload req) (purchases db)
    (purchases (post_download now req db).1).
Proof.
  unfold post_download. unfold_handler. cbn.
  destruct (parseInt (dl_id req)) as [pid|]; cbn; [|by left].
  destruct (list_find _ (purchases db)) as [[i p]|] eqn:Hfind; cbn; [|by left].
  apply list_find_Some in Hfind as (Hp & _ & _).
  unfold Purchase.recordDownload.
  destruct (Purchase.maxDownloads p <=? Purchase.downloadCount p) eqn:Hlim.
  { repeat (next_case; cbn); by left. }
  apply Z.leb_gt in Hlim.
  repeat (next_case; cbn).
  all: try (by left).
  all: right; left; eexists i, p, _; split; [done|].
  all: split; [reflexivity|].
  all: split_and!; try done; right; by split_and!.
Qed.

Lemma refund_effect (now : Z) (i : nat) (reason : option string) (db : Db) :
  purchases_effect (OpRefund i reason) (purchases db) (purchases (refund now i reason db).1).
Proof.
  unfold refund. unfold_handler. cbn.
  destruct (purchases db !! i) as [p|] eqn:Hp; cbn; [|by left].
  repeat (next_case; cbn).
  all: try (by left).
  all: right; left; eexists i, p, _; split; [done|].
  all: split; [reflexivity|].
  all: split_and!; try done; left; by split.
Qed.

Lemma op_effect (env : Env) (now : Z) (op : Op) (db : Db) :
  purchases_effect op (purchases db) (purchases (run_op env now op db)).
Proof.
  destruct op; cbn [run_op].
  - apply checkout_effect.
  - apply webhook_effect.
  - apply purchase_effect.
  - apply download_effect.
  - apply refund_effect.
Qed.

(** *** Repeated redeems *)

Lemma redeem_all_counts (req : DownloadReq) (pid : Z) (times : list Z) :
  parseInt (dl_id req) = Some pid ->
  forall (db : Db) (i : nat) (p : Purchase.t),
    list_find (fun p => Purchase.id p = pid) (purchases db) = Some (i, p) ->
    Forall succeeded (redeem_all req times db).2 ->
    exists p',
      list_find (fun p => Purchase.id p = pid)
        (purchases (redeem_all req times db).1) = Some (i, p')
      /\ Purchase.downloadCount p' = Purchase.downloadCount p + Z.of_nat (length times)
      /\ Purchase.maxDownloads p' = Purchase.maxDownloads p
      /\ Purchase.userId p' = Purchase.userId p
      /\ (Purchase.status p = Completed -> Purchase.status p' = Completed)
      /\ (times <> [] -> Purchase.status p' = Completed /\ dl_user req = Purchase.userId p).
Proof.
  intros Hpid. induction times as [|now times IH]; intros db i p Hfind Hall.
  - exists p. cbn. split_and!; try done. lia.
  - cbn [redeem_all fst snd] in *. apply Forall_cons in Hall as [Hok Hall].
    destruct (download_success req pid Hpid now db i p Hfind Hok)
      as (p1 & Hfind1 & Hc1 & Hm1 & Hs1 & Hu1 & Huser & _).
    destruct (IH _ i p1 Hfind1 Hall) as (p' & Hfind' & Hc' & Hm' & Hu' & Hs' & _).
    exists p'. split_and!; try done.
    + rewrite Hc', Hc1. cbn [length]. lia.
    + congruence.
    + congruence.
    + auto.
    + intros _. auto.
Qed.

Lemma validate_checkout_record (now userId softwareId : Z) (key : string)
    (productSlug duration : option string) (days : option Z) (price : Q)
    (cur : string) (n : nat) (m : Z) (sessionId : option string) :
  Qle_bool 0 price = true ->
  str_in cur ["USD"; "EUR"; "BTC"; "ETH"] = true ->
  let p := Purchase.new now userId softwareId productSlug duration days "Card" price cur in
  Purchase.validate p = true
  /\ Purchase.validate
       (Purchase.set_stripeSessionId sessionId
          (Purchase.set_licenseKey (Some key) (Purchase.set_id m (Purchase.set__id n p))))
     = true.
Proof.
  intros Hprice Hcur p. unfold Purchase.validate.
  cbn [p Purchase.new Purchase.set_stripeSessionId Purchase.set_licenseKey
       Purchase.set_id Purchase.set__id Purchase.paymentMethod Purchase.amount
       Purchase.currency Purchase.downloadCount Purchase.maxDownloads].
  by rewrite Hprice, Hcur.
Qed.

(** *** The expiry of a role *)

Lemma role_expiry_spec (zone : TimeZone) (now : Z) (durationDays : option Z) :
  role_expiry zone now durationDays
  = match durationDays with
    | Some d =>
        if 0 <? d then
          match addDays zone now d with
          | Some e => Ok (Some e)
          | None => Throw (RangeError "Invalid time value")
          end
        else Ok None
    | None => Ok None
    end.
Proof.
  destruct durationDays as [d|]; [|done]. unfold role_expiry. cbn [truthy_num].
  destruct (Z.ltb_spec 0 d); [|by rewrite andb_false_r].
  rewrite (proj2 (Z.eqb_neq d 0)) by lia. cbn [negb andb].
  by destruct (addDays zone now d).
Qed.

(** On a host that runs on UTC a calendar day is 86,400,000 milliseconds. *)
Lemma addDays_utc (now d : Z) :
  addDays utc_zone now d
  = if Z.abs (now + d * 86400000) <=? max_time then Some (now + d * 86400000) else None.
Proof.
  assert (H : UTC utc_zone (LocalTime utc_zone now + d * ms_per_day)
              = now + d * 86400000).
  { unfold UTC, LocalTime, utc_zone, ms_per_day.
    cbn [offset_at_utc offset_at_local]. lia. }
  unfold addDays, TimeClip. by rewrite H.
Qed.

(** An expiry that has been computed is there exactly for a positive day
    count. *)
Lemma role_expiry_ok (zone : TimeZone) (now : Z) (durationDays : option Z)
    (expiresAt : option Z) :
  role_expiry zone now durationDays = Ok expiresAt ->
  (expiresAt <> None <-> exists d, durationDays = Some d /\ 0 < d)
  /\ (forall e, expiresAt = Some e ->
        exists d, durationDays = Some d /\ 0 < d /\ addDays zone now d = Some e).
Proof.
  rewrite role_expiry_spec. destruct durationDays as [d|].
  - destruct (Z.ltb_spec 0 d).
    + destruct (addDays zone now d) as [e|] eqn:He; [|done]. intros [= <-].
      split; [split; [eauto|done]|]. intros e' [= <-]. eauto.
    + intros [= <-]. split; [|done]. split; [done|]. intros (d' & [= <-] & ?). lia.
  - intros [= <-]. split; [|done]. split; [done|]. by intros (d' & ? & _).
Qed.

(** *** A completion, once the purchase is found *)

Section Completion.

Variables (zone : TimeZone) (session : Session.t) (ref : option string) (pid : Z).
Hypothesis Href : session_reference session = Ok ref.
Hypothesis Hpid : parseInt (interp ref) = Some pid.
Hypothesis Hnz : pid <> 0.

Variables (now : Z) (db : Db) (i : nat) (p : Purchase.t).
Hypothesis Hfind :
  list_find (fun p => Purchase.id p = pid) (purchases db) = Some (i, p).
Hypothesis Hvalid : Purchase.validate p = true.

(** The handler past its first save. *)
Lemma completion_start :
  handleCheckoutSessionCompleted zone now session db
  = (let db1 :=
       with_purchases
         (<[i := completed_record (Purchase.expiresAt p) now session p]> (purchases db))
         db in
     let purchase := completed_record (Purchase.expiresAt p) now session p in
     let product :=
       snd <$> list_find (fun q => Some (Product.slug q)
                                   = cast_slug <$> Purchase.productSlug p)
                 (products db) in
     (let* purchase :=
        match product with
        | Some product =>
            if truthy_num (Product.roleId product) then
              let* role := gets (fun db =>
                list_find (fun r => Some (Role.id r) = Product.roleId product)
                          (roles db)) in
              match role with
              | Some (_, role) =>
                  let* expiresAt :=
                    lift (role_expiry zone now (Purchase.durationDays purchase)) in
                  let* _ := insertUserRole
                    (UserRole.new now (Purchase.userId purchase) (Role.id role)
                       (Some (Purchase.userId purchase)) expiresAt) in
                  let purchase := Purchase.set_expiresAt expiresAt purchase in
                  let* _ := savePurchase (i, purchase) in
                  ret purchase
              | None => ret purchase
              end
            else ret purchase
        | None => ret purchase
        end in
      let* _ := createNotification now (Purchase.userId purchase) "purchase"
        "Purchase Complete!" (completed_message product)
        (JObj [("purchaseId", JNum (Purchase.id purchase));
               ("productSlug", jopt JStr (Purchase.productSlug purchase));
               ("duration", jopt JStr (Purchase.duration purchase))])
        (Some (Purchase.id purchase)) None in
      ret tt) db1).
Proof.
  unfold handleCheckoutSessionCompleted.
  unfold bind at 1. unfold lift at 1. rewrite Href. cbn [fst snd]. rewrite Hpid.
  cbn [truthy_num negb default from_option id].
  rewrite (proj2 (Z.eqb_neq _ _) Hnz). cbn [negb].
  unfold bind at 1. unfold gets at 1. rewrite Hfind. cbn [fst snd].
  unfold bind at 1. unfold savePurchase at 1. cbn [fst snd].
  change (Purchase.validate (Purchase.set_transactionId _ _))
    with (Purchase.validate p).
  rewrite Hvalid. cbn [fst snd].
  unfold bind at 1. unfold gets at 1. cbn [fst snd products with_purchases].
  destruct p; reflexivity.
Qed.

End Completion.

(** *** A completion that grants a role *)

Section Grant.

Variables (zone : TimeZone) (session : Session.t) (ref : option string) (pid : Z).
Hypothesis Href : session_reference session = Ok ref.
Hypothesis Hpid : parseInt (interp ref) = Some pid.
Hypothesis Hnz : pid <> 0.

Variables (slug : option string) (products0 : list Product.t) (roles0 : list Role.t).
Variables (j : nat) (product : Product.t) (r : Z) (k : nat) (role : Role.t).
Hypothesis Hproduct :
  list_find (fun q => Some (Product.slug q) = slug) products0 = Some (j, product).
Hypothesis Hrole : Product.roleId product = Some r.
Hypothesis Hrnz : r <> 0.
Hypothesis Hfound :
  list_find (fun x => Some (Role.id x) = Product.roleId product) roles0 = Some (k, role).

Variables (now : Z) (db : Db) (i : nat) (p : Purchase.t).
Hypothesis Hps : products db = products0.
Hypothesis Hrs : roles db = roles0.
Hypothesis Hslug : cast_slug <$> Purchase.productSlug p = slug.
Hypothesis Hfind :
  list_find (fun p => Purchase.id p = pid) (purchases db) = Some (i, p).
Hypothesis Hvalid : Purchase.validate p = true.

Lemma grant_reached :
  handleCheckoutSessionCompleted zone now session db
  = (let db1 :=
       with_purchases
         (<[i := completed_record (Purchase.expiresAt p) now session p]> (purchases db))
         db in
     let purchase := completed_record (Purchase.expiresAt p) now session p in
     (let* purchase :=
        (let* expiresAt :=
           lift (role_expiry zone now (Purchase.durationDays purchase)) in
         let* _ := insertUserRole
           (UserRole.new now (Purchase.userId purchase) (Role.id role)
              (Some (Purchase.userId purchase)) expiresAt) in
         let purchase := Purchase.set_expiresAt expiresAt purchase in
         let* _ := savePurchase (i, purchase) in
         ret purchase) in
      let* _ := createNotification now (Purchase.userId purchase) "purchase"
        "Purchase Complete!" (completed_message (Some product))
        (JObj [("purchaseId", JNum (Purchase.id purchase));
               ("productSlug", jopt JStr (Purchase.productSlug purchase));
               ("duration", jopt JStr (Purchase.duration purchase))])
        (Some (Purchase.id purchase)) None in
      ret tt) db1).
Proof.
  assert (Htruthy : truthy_num (Product.roleId product) = true).
  { rewrite Hrole. cbn. by rewrite (proj2 (Z.eqb_neq _ _) Hrnz). }
  rewrite (completion_start zone session ref pid Href Hpid Hnz now db i p Hfind Hvalid).
  cbn zeta. rewrite Hps, Hslug, Hproduct. cbn [fmap option_fmap option_map snd].
  rewrite Htruthy.
  unfold bind at 1. unfold bind at 1. unfold gets at 1.
  cbn [fst snd roles with_purchases]. rewrite Hrs, Hfound. reflexivity.
Qed.

(** The expiry is in range: the role is granted. *)
Lemma grant_run (expiresAt : option Z) :
  role_expiry zone now (Purchase.durationDays p) = Ok expiresAt ->
  let db' := (handleCheckoutSessionCompleted zone now session db).1 in
  purchases db' = <[i := completed_record expiresAt now session p]> (purchases db)
  /\ userRoles db'
     = userRoles db
       ++ [UserRole.set_id (next_id (UserRole.id <$> userRoles db))
             (UserRole.new now (Purchase.userId p) (Role.id role)
                (Some (Purchase.userId p)) expiresAt)]
  /\ products db' = products0 /\ roles db' = roles0.
Proof.
  intros Hexp. cbn zeta. rewrite grant_reached. cbn zeta.
  unfold_handler.
  change (Purchase.durationDays (completed_record _ _ _ _))
    with (Purchase.durationDays p).
  rewrite Hexp. cbn [fst snd].
  change (Purchase.validate (Purchase.set_expiresAt _ _))
    with (Purchase.validate p).
  rewrite Hvalid. cbn.
  destruct (Notification.validate _); cbn; rewrite list_insert_insert_eq; done.
Qed.

(** The expiry is out of range: the handler throws after its first save,
    before the role assignment. *)
Lemma grant_refused (err : Exn) :
  role_expiry zone now (Purchase.durationDays p) = Throw err ->
  handleCheckoutSessionCompleted zone now session db
  = (with_purchases
       (<[i := completed_record (Purchase.expiresAt p) now session p]> (purchases db))
       db,
     Throw err).
Proof.
  intros Hexp. rewrite grant_reached. cbn zeta. unfold_handler.
  change (Purchase.durationDays (completed_record _ _ _ _))
    with (Purchase.durationDays p).
  by rewrite Hexp.
Qed.

End Grant.

(** *** A completion that grants no role *)

Lemma no_grant_run (zone : TimeZone) (session : Session.t) (ref : option string)
    (pid : Z) (now : Z) (db : Db) (i : nat) (p : Purchase.t) :
  session_reference session = Ok ref ->
  parseInt (interp ref) = Some pid -> pid <> 0 ->
  list_find (fun p => Purchase.id p = pid) (purchases db) = Some (i, p) ->
  Purchase.validate p = true ->
  (forall j product k role,
      list_find (fun q => Some (Product.slug q) = cast_slug <$> Purchase.productSlug p)
        (products db) = Some (j, product) ->
      truthy_num (Product.roleId product) = true ->
      list_find (fun x => Some (Role.id x) = Product.roleId product) (roles db)
        = Some (k, role) ->
      False) ->
  let db' := (handleCheckoutSessionCompleted zone now session db).1 in
  purchases db'
    = <[i := completed_record (Purchase.expiresAt p) now session p]> (purchases db)
  /\ userRoles db' = userRoles db
  /\ products db' = products db /\ roles db' = roles db.
Proof.
  intros Href Hpid Hnz Hfind Hvalid Hnone.
  rewrite (completion_start zone session ref pid Href Hpid Hnz now db i p Hfind Hvalid).
  cbn zeta.
  destruct (list_find _ (products db)) as [[j product]|] eqn:Hproduct;
    cbn [fmap option_fmap option_map snd].
  - destruct (truthy_num (Product.roleId product)) eqn:Htruthy.
    + destruct (list_find (fun x => Some (Role.id x) = Product.roleId product)
                  (roles db)) as [[k role]|] eqn:Hrole.
      * destruct (Hnone j product k role eq_refl Htruthy Hrole).
      * unfold_handler. cbn [fst snd roles with_purchases]. rewrite Hrole. cbn.
        by destruct (Notification.validate _).
    + unfold_handler. cbn. by destruct (Notification.validate _).
  - unfold_handler. cbn. by destruct (Notification.validate _).
Qed.

(** *** The role a completion grants *)

Lemma granted_role_Some (db : Db) (p : Purchase.t) (role : Role.t) :
  granted_role db p = Some role ->
  exists j product r k,
    list_find (fun q => Some (Product.slug q) = cast_slug <$> Purchase.productSlug p)
      (products db) = Some (j, product)
    /\ Product.roleId product = Some r /\ r <> 0
    /\ list_find (fun x => Some (Role.id x) = Product.roleId product) (roles db)
       = Some (k, role)
    /\ Role.id role = r.
Proof.
  unfold granted_role.
  destruct (list_find _ (products db)) as [[j product]|]; [|done].
  destruct (Product.roleId product) as [r|] eqn:Hr; [|done]. cbn [truthy_num].
  destruct (Z.eqb_spec r 0); [done|]. cbn [negb].
  destruct (list_find _ (roles db)) as [[k role']|] eqn:Hrole; [|done].
  intros [= <-]. pose proof Hrole as (_ & Hid & _)%list_find_Some.
  exists j, product, r, k. split_and!; try done.
  - by rewrite Hr.
  - congruence.
Qed.

Lemma granted_role_None (db : Db) (p : Purchase.t) :
  granted_role db p = None ->
  forall j product k role,
    list_find (fun q => Some (Product.slug q) = cast_slug <$> Purchase.productSlug p)
      (products db) = Some (j, product) ->
    truthy_num (Product.roleId product) = true ->
    list_find (fun x => Some (Role.id x) = Product.roleId product) (roles db)
      = Some (k, role) ->
    False.
Proof.
  unfold granted_role. intros Hnone j product k role Hproduct Htruthy Hrole.
  by rewrite Hproduct, Htruthy, Hrole in Hnone.
Qed.

(** Whatever comes after, the first save has made the purchase Completed. *)
Lemma completion_completes (zone : TimeZone) (session : Session.t)
    (ref : option string) (pid : Z) (now : Z) (db : Db) (i : nat) (p : Purchase.t) :
  session_reference session = Ok ref ->
  parseInt (interp ref) = Some pid -> pid <> 0 ->
  list_find (fun p => Purchase.id p = pid) (purchases db) = Some (i, p) ->
  Purchase.validate p = true ->
  status_at i (handleCheckoutSessionCompleted zone now session db).1 = Some Completed.
Proof.
  intros Href Hpid Hnz Hfind Hvalid.
  pose proof Hfind as (Hp & _ & _)%list_find_Some.
  rewrite (completion_start zone session ref pid Href Hpid Hnz now db i p Hfind Hvalid).
  cbn zeta. unfold_handler. cbn.
  repeat (next_case; cbn).
  all: unfold status_at; cbn; rewrite ?list_insert_insert_eq.
  all: by rewrite list_lookup_insert_eq by (by eapply lookup_lt_Some).
Qed.

(** *** The two saves of [POST /api/purchases] *)


(** *** Status transitions, one operation at a time *)

Lemma step_status (env : Env) (now : Z) (op : Op) (db : Db) (i : nat) (s : Status) :
  status_at i db = Some s ->
  exists s', status_at i (run_op env now op db) = Some s' /\ (s' = s \/ may_set op s').
Proof.
  unfold status_at. intros Hs.
  destruct (purchases db !! i) as [p|] eqn:Hp; [|done]. cbn in Hs. simplify_eq.
  destruct (op_effect env now op db)
    as [-> | [(i0 & p0 & p' & Hp0 & -> & _ & _ & Hupd) | (p' & -> & _)]].
  - exists (Purchase.status p). rewrite Hp. auto.
  - destruct (decide (i0 = i)) as [->|Hne].
    + exists (Purchase.status p').
      rewrite list_lookup_insert_eq by (by eapply lookup_lt_Some).
      split; [done|]. simplify_eq.
      destruct Hupd as [[? _] | (_ & ? & _)]; auto.
    + exists (Purchase.status p). rewrite list_lookup_insert_ne by done.
      rewrite Hp. auto.
  - exists (Purchase.status p). rewrite lookup_app_l by (by eapply lookup_lt_Some).
    rewrite Hp. auto.
Qed.

Lemma may_set_cases (op : Op) (s : Status) :
  may_set op s -> s = Completed \/ s = Failed \/ s = Refunded.
Proof. destruct op; cbn; intuition. Qed.

Lemma may_set_not_pending (op : Op) (s : Status) : may_set op s -> s <> Pending.
Proof.
  intros H. destruct (may_set_cases _ _ H) as [-> | [-> | ->]]; discriminate.
Qed.

(** *** The lifecycle of the ledger *)


(** *** Redeems that succeed, and what a response shows of a purchase *)

Lemma post_purchase_hides_paymentData (now : Z) (key : string) (req : PurchaseReq)
    (db : Db) (c : Z) (message : string) (o : gmap string JsValue) :
  (post_purchase now key req db).2 = Ok (mkResponse c (BPurchase message o)) ->
  o !! "paymentData" = None.
Proof.
  unfold post_purchase. unfold_handler. cbn.
  repeat (next_case; cbn); try done.
  intros [= _ _ <-]. unfold Purchase.toJSON. apply lookup_delete_eq.
Qed.

Lemma validate_counted (now : Z) (p : Purchase.t) :
  Purchase.validate p = true ->
  Purchase.validate
    (Purchase.set_lastDownload (Some now)
       (Purchase.set_downloadCount (Purchase.downloadCount p + 1) p)) = true.
Proof.
  unfold Purchase.validate. cbn. rewrite !andb_true_iff, !Z.leb_le.
  intros ((((? & ?) & ?) & ?) & ?). split_and!; try done. lia.
Qed.

Lemma redeem_succeeds (now : Z) (req : DownloadReq) (pid : Z) (db : Db) (i : nat)
    (p : Purchase.t) :
  parseInt (dl_id req) = Some pid ->
  list_find (fun p => Purchase.id p = pid) (purchases db) = Some (i, p) ->
  dl_user req = Purchase.userId p ->
  Purchase.canDownload now p = true ->
  Purchase.validate p = true ->
  exists url,
    (post_download now req db).2
    = Ok (mkResponse 200
            (BDownload "Download recorded successfully" url
               (Purchase.maxDownloads p - (Purchase.downloadCount p + 1)))).
Proof.
  intros Hpid Hfind Huser Hcan Hvalid.
  unfold post_download. unfold_handler. rewrite Hpid, Hfind. cbn.
  rewrite Huser, Z.eqb_refl, Hcan. cbn.
  unfold Purchase.canDownload in Hcan. unfold Purchase.recordDownload.
  destruct (bool_decide (Purchase.status p = Completed)); [|done]. cbn in Hcan.
  destruct (Purchase.maxDownloads p <=? Purchase.downloadCount p); [done|]. cbn.
  rewrite (validate_counted now p Hvalid). cbn. by eexists.
Qed.

(** *** The download limit, one operation at a time *)

Lemma within_limit_step (env : Env) (now : Z) (op : Op) (db : Db) :
  Forall (fun p => Purchase.downloadCount p <= Purchase.maxDownloads p) (purchases db) ->
  Forall (fun p => Purchase.downloadCount p <= Purchase.maxDownloads p)
    (purchases (run_op env now op db)).
Proof.
  intros Hinv.
  destruct (op_effect env now op db)
    as [-> | [(i & p & p' & Hp & -> & Hid & Hmax & Hupd) | (p' & -> & Hst & Hc & Hm)]].
  - done.
  - apply Forall_insert; [done|].
    pose proof (Forall_lookup_1 _ _ _ _ Hinv Hp) as Hle. cbn in Hle.
    destruct Hupd as [[_ Hc] | (_ & _ & Hlt & Hc)]; lia.
  - apply Forall_app. split; [done|]. apply Forall_singleton. lia.
Qed.

(** The base-price fallback of the catalog: [getPriceForDuration] answers
    the base price for a tier the product does not have. *)
Lemma getPriceForDuration_fallback (name : string) (p : Product.t) :
  Product.findDuration name p = None ->
  Product.getPriceForDuration name p = Product.basePrice p.
Proof. unfold Product.getPriceForDuration. by intros ->. Qed.

(** ** The claims *)

(** C1.  [downloadCount] never exceeds [maxDownloads].  [recordDownload]
    throws [LimitExceeded] whenever [downloadCount >= maxDownloads] and
    otherwise adds one to [downloadCount] (the limit is kept); no sequence
    of operations of the flow takes a stored counter above its limit; and after [N]
    successful redeems of a purchase that started at zero with
    [maxDownloads = N], the next redeem is refused with the 400 message of
    [LimitExceeded] and leaves the store, hence the counter, as it was. *)
Theorem C1_download_limit :
  (forall now p,
      Purchase.maxDownloads p <= Purchase.downloadCount p ->
      Purchase.recordDownload now p = Throw LimitExceeded)
  /\ (forall now p,
      Purchase.downloadCount p < Purchase.maxDownloads p ->
      exists p', Purchase.recordDownload now p = Ok p'
        /\ Purchase.downloadCount p' = Purchase.downloadCount p + 1
        /\ Purchase.maxDownloads p' = Purchase.maxDownloads p)
  /\ (forall env ops db,
      Forall (fun p => Purchase.downloadCount p <= Purchase.maxDownloads p) (purchases db) ->
      Forall (fun p => Purchase.downloadCount p <= Purchase.maxDownloads p)
        (purchases (run_ops env ops db)))
  /\ (forall req pid db i p times now,
      parseInt (dl_id req) = Some pid ->
      list_find (fun p => Purchase.id p = pid) (purchases db) = Some (i, p) ->
      Purchase.downloadCount p = 0 ->
      Purchase.maxDownloads p = Z.of_nat (length times) ->
      1 <= Purchase.maxDownloads p ->
      Forall succeeded (redeem_all req times db).2 ->
      let db' := (redeem_all req times db).1 in
      post_download now req db' = (db', Ok (fail 400 (exn_message LimitExceeded)))
      /\ exists p', purchases db' !! i = Some p'
           /\ Purchase.downloadCount p' = Purchase.maxDownloads p
           /\ Purchase.maxDownloads p' = Purchase.maxDownloads p).
Proof.
  split_and!.
  - intros now p Hlim. unfold Purchase.recordDownload.
    by rewrite (proj2 (Z.leb_le _ _) Hlim).
  - intros now p Hlim. unfold Purchase.recordDownload.
    rewrite (proj2 (Z.leb_gt _ _) Hlim). by eexists.
  - intros env ops. induction ops as [|[now op] ops IH]; intros db Hinv; [done|].
    cbn [run_ops]. by apply IH, within_limit_step.
  - intros req pid db i p times now Hpid Hfind Hzero Hmax Hpos Hall db'.
    destruct (redeem_all_counts req pid times Hpid db i p Hfind Hall)
      as (p' & Hfind' & Hc' & Hm' & _ & _ & Hlast).
    fold db' in Hfind'.
    destruct Hlast as [Hst Huser]; [by intros ->; cbn in *; lia|].
    assert (Hlim : Purchase.maxDownloads p' <= Purchase.downloadCount p') by lia.
    pose proof Hfind' as (Hp' & _ & _)%list_find_Some.
    split; [|exists p'; split_and!; [done|lia|done]].
    assert (Hcan : Purchase.canDownload now p' = false).
    { unfold Purchase.canDownload.
      by rewrite (bool_decide_eq_true_2 _ Hst), (proj2 (Z.leb_le _ _) Hlim). }
    assert (Huser' : dl_user req = Purchase.userId p').
    { destruct (redeem_all_counts req pid times Hpid db i p Hfind Hall)
        as (q & Hq & _ & _ & Hu & _). fold db' in Hq. congruence. }
    rewrite (download_denied req pid Hpid now db' i p' Hfind' Huser' Hcan).
    unfold denial_message.
    by rewrite (bool_decide_eq_true_2 _ Hst), (proj2 (Z.leb_le _ _) Hlim).
Qed.

Lemma C1_download_limit_witness :
  let db' := (redeem_all Example.redeem [3000; 3001; 3002; 3003; 3004] Example.db2).1 in
  post_download 9000 Example.redeem db'
    = (db', Ok (fail 400 "Download limit exceeded"))
  /\ exists p', purchases db' !! 0%nat = Some p'
       /\ Purchase.downloadCount p' = 5
       /\ Purchase.maxDownloads p' = 5.
Proof.
  destruct C1_download_limit as (_ & _ & _ & Hlast).
  apply (Hlast Example.redeem 1 Example.db2 0%nat (Example.stored 0 Example.db2)
           [3000; 3001; 3002; 3003; 3004] 9000).
  - reflexivity.
  - vm_compute. reflexivity.
  - reflexivity.
  - reflexivity.
  - vm_compute. discriminate.
  - vm_compute. repeat constructor.
Defined.

(** C2 (as the code has it).  The checkout-completion callback applied to
    a Pending purchase moves it to Completed.  When the purchase's product
    has a role id, neither null nor 0, that names a stored role, and the
    day count keeps the expiry within the range of a date, one application
    appends exactly one role assignment, for the buyer and that role, and a
    second application appends a second one (the handler is not
    idempotent).  When there is no such role (no product, a role id that is
    null or 0, or one that names no stored role), no role assignment is
    created, by the first application or by the second. *)
Theorem C2_completion_grants_once :
  forall zone now now' session ref pid db i p,
    session_reference session = Ok ref ->
    parseInt (interp ref) = Some pid -> pid <> 0 ->
    list_find (fun p => Purchase.id p = pid) (purchases db) = Some (i, p) ->
    Purchase.status p = Pending ->
    Purchase.validate p = true ->
    let db1 := (handleCheckoutSessionCompleted zone now session db).1 in
    let db2 := (handleCheckoutSessionCompleted zone now' session db1).1 in
    status_at i db = Some Pending
    /\ status_at i db1 = Some Completed
    /\ (forall role e e',
          granted_role db p = Some role ->
          role_expiry zone now (Purchase.durationDays p) = Ok e ->
          role_expiry zone now' (Purchase.durationDays p) = Ok e' ->
          (exists u, userRoles db1 = userRoles db ++ [u]
             /\ UserRole.userUid u = Purchase.userId p
             /\ UserRole.roleId u = Role.id role)
          /\ (exists u u', userRoles db2 = userRoles db ++ [u; u']
                /\ UserRole.userUid u = Purchase.userId p
                /\ UserRole.roleId u = Role.id role
                /\ UserRole.userUid u' = Purchase.userId p
                /\ UserRole.roleId u' = Role.id role))
    /\ (granted_role db p = None ->
          userRoles db1 = userRoles db
          /\ userRoles db2 = userRoles db
          /\ status_at i db2 = Some Completed).
Proof.
  intros zone now now' session ref pid db i p
    Href Hpid Hnz Hfind Hpending Hvalid db1 db2.
  pose proof Hfind as (Hp & Hid & _)%list_find_Some.
  split_and!.
  - unfold status_at. by rewrite Hp, <- Hpending.
  - by eapply completion_completes.
  - intros role e e' Hgrant He He'.
    destruct (granted_role_Some _ _ _ Hgrant)
      as (j & product & r & k & Hproduct & Hrole & Hrnz & Hfound & Hr).
    destruct (grant_run zone session ref pid Href Hpid Hnz _
                (products db) (roles db) j product r k role Hproduct Hrole Hrnz Hfound
                now db i p eq_refl eq_refl eq_refl Hfind Hvalid e He)
      as (Hps1 & Hur1 & Hpr1 & Hro1).
    fold db1 in Hps1, Hur1, Hpr1, Hro1.
    assert (Hfind1 : list_find (fun p => Purchase.id p = pid) (purchases db1)
                     = Some (i, completed_record e now session p)).
    { rewrite Hps1. by eapply list_find_update. }
    destruct (grant_run zone session ref pid Href Hpid Hnz _
                (products db) (roles db) j product r k role Hproduct Hrole Hrnz Hfound
                now' db1 i (completed_record e now session p) Hpr1 Hro1 eq_refl Hfind1
                Hvalid e' He')
      as (_ & Hur2 & _).
    fold db2 in Hur2. split.
    + eexists. split; [exact Hur1|]. by split.
    + eexists _, _. split; [by rewrite Hur2, Hur1, <- app_assoc|]. by split_and!.
  - intros Hnone.
    destruct (no_grant_run zone session ref pid now db i p Href Hpid Hnz Hfind Hvalid
                (granted_role_None _ _ Hnone))
      as (Hps1 & Hur1 & Hpr1 & Hro1).
    fold db1 in Hps1, Hur1, Hpr1, Hro1.
    assert (Hfind1 : list_find (fun p => Purchase.id p = pid) (purchases db1)
                     = Some (i, completed_record (Purchase.expiresAt p) now session p)).
    { rewrite Hps1. by eapply list_find_update. }
    assert (Hnone1 : granted_role db1
                       (completed_record (Purchase.expiresAt p) now session p) = None).
    { unfold granted_role in *. by rewrite Hpr1, Hro1. }
    destruct (no_grant_run zone session ref pid now' db1 i _ Href Hpid Hnz Hfind1 Hvalid
                (granted_role_None _ _ Hnone1))
      as (_ & Hur2 & _).
    fold db2 in Hur2. split_and!; [done|congruence|].
    by eapply completion_completes.
Qed.

Lemma C2_completion_grants_once_witness :
  (let db1 :=
     (handleCheckoutSessionCompleted utc_zone 2000 Example.session1 Example.db1).1 in
   let db2 := (handleCheckoutSessionCompleted utc_zone 4000 Example.session1 db1).1 in
   status_at 0 Example.db1 = Some Pending
   /\ status_at 0 db1 = Some Completed
   /\ (exists u, userRoles db1 = userRoles Example.db1 ++ [u]
         /\ UserRole.userUid u = Example.buyer /\ UserRole.roleId u = 7)
   /\ (exists u u', userRoles db2 = userRoles Example.db1 ++ [u; u']
         /\ UserRole.userUid u = Example.buyer /\ UserRole.roleId u = 7
         /\ UserRole.userUid u' = Example.buyer /\ UserRole.roleId u' = 7))
  /\ (let db1 :=
        (handleCheckoutSessionCompleted utc_zone 2000 Example.session1 Example.ghost1).1 in
      let db2 := (handleCheckoutSessionCompleted utc_zone 4000 Example.session1 db1).1 in
      status_at 0 db1 = Some Completed
      /\ userRoles db1 = userRoles Example.ghost1
      /\ userRoles db2 = userRoles Example.ghost1
      /\ status_at 0 db2 = Some Completed).
Proof.
  split.
  - destruct (C2_completion_grants_once utc_zone 2000 4000 Example.session1 (Some "1") 1
                Example.db1 0%nat (Example.stored 0 Example.db1))
      as (Hbefore & Hafter & Hgrant & _).
    + reflexivity.
    + reflexivity.
    + discriminate.
    + vm_compute. reflexivity.
    + reflexivity.
    + reflexivity.
    + destruct (Hgrant Example.vip (Some (2000 + 30 * 86400000))
                  (Some (4000 + 30 * 86400000))) as [Honce Htwice].
      * vm_compute. reflexivity.
      * vm_compute. reflexivity.
      * vm_compute. reflexivity.
      * split_and!; [exact Hbefore|exact Hafter|exact Honce|exact Htwice].
  - destruct (C2_completion_grants_once utc_zone 2000 4000 Example.session1 (Some "1") 1
                Example.ghost1 0%nat (Example.stored 0 Example.ghost1))
      as (_ & Hafter & _ & Hnone).
    + reflexivity.
    + reflexivity.
    + discriminate.
    + vm_compute. reflexivity.
    + reflexivity.
    + reflexivity.
    + destruct Hnone as (Hone & Htwo & Hstill); [vm_compute; reflexivity|].
      split_and!; [exact Hafter|exact Hone|exact Htwo|exact Hstill].
Defined.

(** A product that specifies a role, by an id that names no stored role:
    the callback completes the Pending purchase and creates no role
    assignment. *)
Lemma C2_counterexample :
  let db' :=
    (handleCheckoutSessionCompleted utc_zone 2000 Example.session1 Example.ghost1).1 in
  Purchase.productSlug (Example.stored 0 Example.ghost1) = Some "ghost-tool"
  /\ Product.roleId Example.ghost_tool = Some 9
  /\ status_at 0 Example.ghost1 = Some Pending
  /\ status_at 0 db' = Some Completed
  /\ userRoles Example.ghost1 = []
  /\ userRoles db' = [].
Proof. cbn zeta. split_and!; vm_compute; reflexivity. Qed.

(** C3 (the code against the claim).  The route handler does what the
    claim says when it is handed the raw body: a delivery whose signature
    verifies is answered 200 [{received: true}] when the event handler
    returns.  The application, however, installs [express.json()] before the
    router: the handler is never handed a raw body, [constructEvent] throws
    for every delivery, and a delivery that the rate limiter lets through
    is answered 400 (503 without the payment system, 500 when the body
    parser rejects the body), whatever its signature; the store is left as
    it was. *)
Theorem C3_webhook_responses :
  forall parse_error env now d db,
    let r := app_webhook parse_error env now d db in
    r.1 = db
    /\ (exists resp, r.2 = Ok resp
          /\ (code resp = 400 \/ code resp = 500 \/ code resp = 503))
    /\ (forall api, stripe env = Some api ->
        body_parsers parse_error d = Ok ParsedBody ->
        r.2 = Ok (mkResponse 400
                    (BText ("Webhook Error: " +:+
                            exn_message
                              (constructEvent_object api (dv_signature d)
                                 (STRIPE_WEBHOOK_SECRET env))))))
    /\ (forall api event db' u, stripe env = Some api ->
        constructEvent_raw api (dv_raw d) (dv_signature d) (STRIPE_WEBHOOK_SECRET env)
          = Ok event ->
        handle_event (TZ env) now event db = (db', Ok u) ->
        webhook env now (mkWebhookReq (RawBody (dv_raw d)) (dv_signature d)) db
        = (db', Ok (mkResponse 200 BReceived))).
Proof.
  intros parse_error env now d db r. subst r. unfold app_webhook.
  assert (Hparsed : forall body, body_parsers parse_error d = Ok body -> body = ParsedBody).
  { unfold body_parsers. intros body.
    destruct (dv_type d); [| |by intros [= <-]].
    all: destruct (String.eqb (dv_raw d) ""); [by intros [= <-]|].
    all: by destruct (parse_error _ (dv_raw d)); [|intros [= <-]]. }
  split_and!.
  - destruct (body_parsers parse_error d) as [body|err] eqn:Hbody; [|done].
    rewrite (Hparsed body eq_refl). unfold webhook.
    by destruct (stripe env).
  - destruct (body_parsers parse_error d) as [body|err] eqn:Hbody.
    + rewrite (Hparsed body eq_refl). unfold webhook.
      destruct (stripe env); eexists; (split; [reflexivity|]); cbn; auto.
    + eexists. split; [reflexivity|]. cbn. auto.
  - intros api Hapi ->. unfold webhook. by rewrite Hapi.
  - intros api event db' u Hapi Hev Hh.
    rewrite (webhook_verified env now (mkWebhookReq (RawBody (dv_raw d)) (dv_signature d))
               db api event Hapi Hev).
    by rewrite Hh.
Qed.

Lemma C3_webhook_responses_witness :
  (app_webhook (fun _ _ => None) Example.env 2000
     (mkDelivery ApplicationJson "C1" (Some "valid")) Example.db1).2
  = Ok (mkResponse 400
          (BText "Webhook Error: Webhook payload must be provided as a string or a Buffer"))
  /\ webhook Example.env 2000 (mkWebhookReq (RawBody "C1") (Some "valid")) Example.db1
     = (Example.db2, Ok (mkResponse 200 BReceived)).
Proof.
  destruct (C3_webhook_responses (fun _ _ => None) Example.env 2000
              (mkDelivery ApplicationJson "C1" (Some "valid")) Example.db1)
    as (_ & _ & Hrefused & Hraw).
  split.
  - apply (Hrefused Example.api); reflexivity.
  - apply (Hraw Example.api (checkout_session_completed Example.session1) Example.db2 tt).
    + reflexivity.
    + reflexivity.
    + vm_compute. reflexivity.
Defined.

(** The delivery of the completion of purchase 1, signed by the provider:
    the signature verifies on the raw body, and the route handler, handed
    that body, answers 200 and completes the purchase; the application
    answers 400 and the purchase stays Pending. *)
Lemma C3_counterexample :
  constructEvent_raw Example.api "C1" (Some "valid") (Some "whsec")
  = Ok (checkout_session_completed Example.session1)
  /\ (webhook Example.env 2000 (mkWebhookReq (RawBody "C1") (Some "valid")) Example.db1).2
     = Ok (mkResponse 200 BReceived)
  /\ app_webhook (fun _ _ => None) Example.env 2000
       (mkDelivery ApplicationJson "C1" (Some "valid")) Example.db1
     = (Example.db1,
        Ok (mkResponse 400
              (BText "Webhook Error: Webhook payload must be provided as a string or a Buffer")))
  /\ status_at 0 Example.db1 = Some Pending.
Proof. split_and!; vm_compute; reflexivity. Qed.

(** C4 (as the code has it).  [canDownload] holds exactly when the status
    is Completed, [downloadCount < maxDownloads], and [expiresAt] is null
    or not yet past: the instant [expiresAt] itself still counts as
    allowed.  In particular it is false for every status other than
    Completed, whatever the counters. *)
Theorem C4_canDownload_iff :
  forall now p,
    (Purchase.canDownload now p = true <->
       Purchase.status p = Completed
       /\ Purchase.downloadCount p < Purchase.maxDownloads p
       /\ (Purchase.expiresAt p = None
           \/ exists e, Purchase.expiresAt p = Some e /\ now <= e))
    /\ (Purchase.status p <> Completed -> Purchase.canDownload now p = false).
Proof.
  intros now p. unfold Purchase.canDownload, Purchase.expired.
  destruct (bool_decide_reflect (Purchase.status p = Completed)) as [Hst|Hst]; cbn.
  - destruct (Z.leb_spec (Purchase.maxDownloads p) (Purchase.downloadCount p)).
    + split; [|done]. split; [done|]. intros (_ & ? & _). lia.
    + destruct (Purchase.expiresAt p) as [e|].
      * destruct (Z.ltb_spec e now).
        -- split; [|done]. split; [done|].
           intros (_ & _ & [?|(e' & ? & ?)]); simplify_eq. lia.
        -- split; [|done]. split; [|done]. intros _. split_and!; eauto.
      * split; [|done]. split; [|done]. intros _. split_and!; eauto.
  - split; [|done]. split; [done|]. by intros (? & _).
Qed.

Lemma C4_canDownload_iff_witness :
  Purchase.canDownload 9000 (Purchase.new 1000 42 1 None None None "Card" 0%Q "USD")
  = false.
Proof.
  apply (proj2 (C4_canDownload_iff 9000
                  (Purchase.new 1000 42 1 None None None "Card" 0%Q "USD"))).
  cbn. discriminate.
Defined.

(** At the very instant of expiry the code still allows the download, while
    "strictly in the future" does not. *)
Lemma C4_counterexample :
  Purchase.canDownload 5000 Example.lapsing = true
  /\ ~ spec_isDownloadAllowed 5000 Example.lapsing.
Proof.
  split; [reflexivity|].
  intros (_ & _ & [H | (e & H & Hlt)]); cbn in H; simplify_eq. lia.
Qed.

(** C5 (as the code has it).  For a checkout request with a non-empty
    product slug and tier name, the payment system being configured, the
    product is looked up by the slug as the schema casts it (trimmed, in
    lower case): when no active product has that slug the answer is 404 and
    nothing is written; when the product has no tier of that name, which includes a
    product without tiers, the answer is 400 "Invalid duration" and nothing
    is written (the base price is not used); when the tier exists and the
    record passes validation (price not negative, currency among the
    accepted ones), exactly one purchase is appended, Pending, with the
    tier's price as amount and the product's currency ("USD" when the
    product has none). *)
Theorem C5_checkout_snapshot :
  forall env api now key req slug name db,
    stripe env = Some api ->
    co_productSlug req = Some slug -> slug <> "" ->
    co_duration req = Some name -> name <> "" ->
    let found :=
      list_find (fun p => Product.slug p = cast_slug slug /\ Product.active p = true)
        (products db) in
    let r := create_checkout_session env now key req db in
    (found = None -> r = (db, Ok (fail 404 "Product not found")))
    /\ (forall j product, found = Some (j, product) ->
        Product.findDuration name product = None ->
        r = (db, Ok (fail 400 "Invalid duration")))
    /\ (forall j product tier, found = Some (j, product) ->
        Product.findDuration name product = Some tier ->
        Qle_bool 0 (Product.price tier) = true ->
        str_in (str_or (Product.currency product) "USD") ["USD"; "EUR"; "BTC"; "ETH"] = true ->
        exists p,
          purchases r.1 = purchases db ++ [p]
          /\ Purchase.status p = Pending
          /\ Purchase.amount p = Product.price tier
          /\ Purchase.currency p = str_or (Product.currency product) "USD"
          /\ Purchase.durationDays p = Product.days tier
          /\ Purchase.productSlug p = Some slug).
Proof.
  intros env api now key req slug name db Hapi Hslug Hslug' Hname Hname' found r.
  assert (Hreq : negb (truthy_str (co_productSlug req))
                 || negb (truthy_str (co_duration req)) = false).
  { rewrite Hslug, Hname. cbn.
    by rewrite (proj2 (String.eqb_neq _ _) Hslug'), (proj2 (String.eqb_neq _ _) Hname'). }
  subst r. unfold create_checkout_session.
  rewrite Hapi, Hreq, Hslug, Hname. cbn [default from_option id].
  unfold try_catch, bind, gets, ret. fold found.
  split_and!.
  - by intros ->.
  - intros j product -> Hnone. by rewrite Hnone.
  - intros j product tier -> Htier Hprice Hcur. rewrite Htier.
    unfold insertPurchase, savePurchase, lift.
    rewrite (proj1 (validate_checkout_record now (co_user req) (Product.id product)
                      key (Some slug) (Some name) (Product.days tier) _ _
                      0%nat 0 None Hprice Hcur)).
    cbn [truthy_str Purchase.licenseKey Purchase.new Purchase.set_id Purchase.set__id].
    destruct (sessions_create api _) as [session|e];
      cbn [fst snd purchases with_purchases].
    + rewrite (proj2 (validate_checkout_record now (co_user req) (Product.id product)
                        key (Some slug) (Some name) (Product.days tier) _ _
                        _ _ _ Hprice Hcur)).
      cbn [fst snd purchases with_purchases]. rewrite snoc_insert. by eexists.
    + by eexists.
Qed.

Lemma C5_checkout_snapshot_witness :
  (exists p,
     purchases
       (create_checkout_session Example.env 1000 "AAAA-BBBB-CCCC-DDDD"
          (mkCheckoutReq Example.buyer (Some " Pro-Tool") (Some "1month")) Example.db0).1
     = purchases Example.db0 ++ [p]
     /\ Purchase.status p = Pending
     /\ Purchase.amount p = Product.price Example.tier
     /\ Purchase.currency p = str_or (Product.currency Example.pro_tool) "USD"
     /\ Purchase.durationDays p = Product.days Example.tier
     /\ Purchase.productSlug p = Some " Pro-Tool")
  /\ create_checkout_session Example.env 1000 "AAAA-BBBB-CCCC-DDDD"
       (mkCheckoutReq Example.buyer (Some "retired-tool") (Some "1month")) Example.db0
     = (Example.db0, Ok (fail 404 "Product not found"))
  /\ create_checkout_session Example.env 1000 "AAAA-BBBB-CCCC-DDDD"
       (mkCheckoutReq Example.buyer (Some "pro-tool") (Some "1year")) Example.db0
     = (Example.db0, Ok (fail 400 "Invalid duration")).
Proof.
  split_and!.
  - destruct (C5_checkout_snapshot Example.env Example.api 1000 "AAAA-BBBB-CCCC-DDDD"
                (mkCheckoutReq Example.buyer (Some " Pro-Tool") (Some "1month"))
                " Pro-Tool" "1month" Example.db0)
      as (_ & _ & Hcreated);
      [reflexivity|reflexivity|discriminate|reflexivity|discriminate|].
    apply (Hcreated 0%nat Example.pro_tool Example.tier); reflexivity.
  - destruct (C5_checkout_snapshot Example.env Example.api 1000 "AAAA-BBBB-CCCC-DDDD"
                (mkCheckoutReq Example.buyer (Some "retired-tool") (Some "1month"))
                "retired-tool" "1month" Example.db0)
      as (Hmissing & _);
      [reflexivity|reflexivity|discriminate|reflexivity|discriminate|].
    apply Hmissing. reflexivity.
  - destruct (C5_checkout_snapshot Example.env Example.api 1000 "AAAA-BBBB-CCCC-DDDD"
                (mkCheckoutReq Example.buyer (Some "pro-tool") (Some "1year"))
                "pro-tool" "1year" Example.db0)
      as (_ & Hnotier & _);
      [reflexivity|reflexivity|discriminate|reflexivity|discriminate|].
    apply (Hnotier 0%nat Example.pro_tool); reflexivity.
Defined.

(** An active product without any tier: the request is refused with 400
    "Invalid duration"; nothing is created at the base price, and the
    failure is not the 404 of a missing product. *)
Lemma C5_counterexample :
  list_find (fun p => Product.slug p = cast_slug "bare-tool" /\ Product.active p = true)
    (products Example.db0) = Some (2%nat, Example.bare_tool)
  /\ Product.durations Example.bare_tool = []
  /\ create_checkout_session Example.env 1000 "AAAA-BBBB-CCCC-DDDD"
       (mkCheckoutReq Example.buyer (Some "bare-tool") (Some "1month")) Example.db0
     = (Example.db0, Ok (fail 400 "Invalid duration")).
Proof. split_and!; reflexivity. Qed.



(** C7 (as the code has it).  The three ledger methods set their status
    whatever the current one is, so a status may change again after it has
    left Pending; what holds of every sequence of operations is that a
    purchase that has left Pending is never Pending again, each operation
    either keeping the status or setting Completed, Failed or Refunded. *)
Theorem C7_never_back_to_pending :
  (forall now txId reason p,
      Purchase.status (Purchase.completePurchase now txId p) = Completed
      /\ Purchase.status (Purchase.failPurchase reason p) = Failed
      /\ Purchase.status (Purchase.refundPurchase now reason p) = Refunded)
  /\ (forall env now op db i s,
      status_at i db = Some s ->
      exists s', status_at i (run_op env now op db) = Some s'
        /\ (s' = s \/ s' = Completed \/ s' = Failed \/ s' = Refunded))
  /\ (forall env ops db i s,
      status_at i db = Some s -> s <> Pending ->
      exists s', status_at i (run_ops env ops db) = Some s' /\ s' <> Pending).
Proof.
  split_and!.
  - intros now txId reason p. unfold Purchase.completePurchase, Purchase.failPurchase.
    by destruct (truthy_str txId), (truthy_str reason).
  - intros env now op db i s Hs.
    destruct (step_status env now op db i s Hs) as (s' & Hs' & Hcase).
    exists s'. split; [done|]. destruct Hcase as [?|Hset]; [by left|right].
    by eapply may_set_cases.
  - intros env ops. induction ops as [|[now op] ops IH]; intros db i s Hs Hne.
    + by exists s.
    + cbn [run_ops].
      destruct (step_status env now op db i s Hs) as (s1 & Hs1 & Hcase).
      apply (IH _ i s1 Hs1).
      destruct Hcase as [->|Hset]; [done|]. by eapply may_set_not_pending.
Qed.

Lemma C7_never_back_to_pending_witness :
  exists s',
    status_at 0
      (run_ops Example.env
         [(3000, Example.delivery "F" "valid"); (4000, Example.delivery "C1" "valid")]
         Example.db2) = Some s'
    /\ s' <> Pending.
Proof.
  apply (proj2 (proj2 C7_never_back_to_pending) Example.env
           [(3000, Example.delivery "F" "valid"); (4000, Example.delivery "C1" "valid")]
           Example.db2 0%nat Completed).
  - vm_compute. reflexivity.
  - discriminate.
Defined.

(** A completed purchase is moved to Failed by a payment-failure event and
    back to Completed by a replayed completion: neither step is one the
    specification's rule allows. *)
Lemma C7_counterexample :
  status_at 0 Example.db2 = Some Completed
  /\ status_at 0 (run_op Example.env 3000 (Example.delivery "F" "valid") Example.db2)
     = Some Failed
  /\ status_at 0 (run_op Example.env 4000 (Example.delivery "C1" "valid") Example.db3)
     = Some Completed
  /\ ~ spec_transition Completed Failed
  /\ ~ spec_transition Failed Completed.
Proof.
  split_and!; try (vm_compute; reflexivity).
  - intros [?|[?|[_ ?]]]; discriminate.
  - intros [?|[?|[? _]]]; discriminate.
Qed.




(** C9.  A refused redeem is answered 400, and the message is chosen by
    testing the status first, then the download counter, then the expiry:
    a purchase that is not Completed gets "Purchase not completed" whatever
    its counter and expiry; a Completed one at its limit gets "Download
    limit exceeded" whatever its expiry; a Completed one below its limit
    that is refused gets "Purchase has expired".  The three messages are
    pairwise distinct, and the store is left as it was. *)
Theorem C9_denial_order :
  forall now req pid db i p,
    parseInt (dl_id req) = Some pid ->
    list_find (fun p => Purchase.id p = pid) (purchases db) = Some (i, p) ->
    dl_user req = Purchase.userId p ->
    Purchase.canDownload now p = false ->
    exists message,
      post_download now req db = (db, Ok (fail 400 message))
      /\ (Purchase.status p <> Completed -> message = "Purchase not completed")
      /\ (Purchase.status p = Completed ->
          Purchase.maxDownloads p <= Purchase.downloadCount p ->
          message = "Download limit exceeded")
      /\ (Purchase.status p = Completed ->
          Purchase.downloadCount p < Purchase.maxDownloads p ->
          message = "Purchase has expired" /\ Purchase.expired now p = true)
      /\ "Purchase not completed" <> "Download limit exceeded"
      /\ "Purchase not completed" <> "Purchase has expired"
      /\ "Download limit exceeded" <> "Purchase has expired".
Proof.
  intros now req pid db i p Hpid Hfind Huser Hcan.
  exists (denial_message now p).
  split; [by apply (download_denied req pid Hpid now db i p)|].
  unfold denial_message. unfold Purchase.canDownload in Hcan.
  destruct (bool_decide_reflect (Purchase.status p = Completed)) as [Hst|Hst];
    cbn in *; [|by split_and!].
  destruct (Z.leb_spec (Purchase.maxDownloads p) (Purchase.downloadCount p));
    [split_and!; try done; lia|].
  destruct (Purchase.expired now p); [|done].
  split_and!; try done. lia.
Qed.

Lemma C9_denial_order_witness :
  exists message,
    post_download 3000 Example.redeem Example.db1
      = (Example.db1, Ok (fail 400 message))
    /\ message = "Purchase not completed".
Proof.
  destruct (C9_denial_order 3000 Example.redeem 1 Example.db1 0%nat
              (Example.stored 0 Example.db1))
    as (message & Hrun & Hstatus & _).
  - reflexivity.
  - vm_compute. reflexivity.
  - reflexivity.
  - reflexivity.
  - exists message. split; [exact Hrun|]. apply Hstatus. vm_compute. discriminate.
Defined.

(** C10.  The JSON form of a purchase has no [paymentData] key, and it does
    not depend on the payment data: two records that differ only in
    [paymentData] serialise to the same object.  The purchase that the
    answer of [POST /api/purchases] carries is in that form, so it shows no
    payment data. *)
Theorem C10_toJSON_hides_paymentData :
  (forall p, Purchase.toJSON p !! "paymentData" = None)
  /\ (forall p v, Purchase.toJSON (Purchase.set_paymentData v p) = Purchase.toJSON p)
  /\ (forall now key req db c message o,
      (post_purchase now key req db).2 = Ok (mkResponse c (BPurchase message o)) ->
      o !! "paymentData" = None).
Proof.
  split_and!.
  - intros p. unfold Purchase.toJSON. apply lookup_delete_eq.
  - intros p v. apply map_eq. intros k. unfold Purchase.toJSON.
    destruct (decide (k = "paymentData")) as [->|Hk].
    + by rewrite !lookup_delete_eq.
    + rewrite !(lookup_delete_ne _ "paymentData") by done.
      rewrite !(lookup_delete _ "__v"), !(lookup_delete _ "_id").
      repeat case_decide; try done. by apply toObject_other.
  - intros now key req db c message o. apply post_purchase_hides_paymentData.
Qed.

Lemma C10_toJSON_hides_paymentData_witness :
  match (post_purchase 1000 "AAAA-BBBB-CCCC-DDDD"
           (mkPurchaseReq Example.buyer (Some 1) (Some "Card")) Example.db0).2 with
  | Ok (mkResponse c (BPurchase _ o)) => c = 201 /\ o !! "paymentData" = None
  | _ => False
  end.
Proof.
  destruct (post_purchase 1000 "AAAA-BBBB-CCCC-DDDD"
              (mkPurchaseReq Example.buyer (Some 1) (Some "Card")) Example.db0).2
    as [[c [ | | | | | message o | | ]] | e] eqn:Hrun;
    try (vm_compute in Hrun; discriminate).
  split.
  - vm_compute in Hrun. by injection Hrun as <- _ _.
  - apply (proj2 (proj2 C10_toJSON_hides_paymentData) _ _ _ _ _ _ _ Hrun).
Defined.

(** ** Further properties *)

(** *** [parseInt] reads back what [toString] writes *)

Lemma digit_val_pretty (d : N) :
  (d < 10)%N -> digit_val 10 (pretty_N_char d) = Some (Z.of_N d).
Proof.
  intros Hd.
  assert (d = 0 \/ d = 1 \/ d = 2 \/ d = 3 \/ d = 4 \/ d = 5 \/ d = 6 \/ d = 7
          \/ d = 8 \/ d = 9)%N as Hcases by lia.
  repeat (destruct Hcases as [-> | Hcases]; [reflexivity|]). by subst.
Qed.

Lemma parse_digits_pretty_go (x : N) :
  forall s, (0 < x)%N ->
    parse_digits 10 None (pretty_N_go x s) = parse_digits 10 (Some (Z.of_N x)) s.
Proof.
  induction (N.lt_wf_0 x) as [x _ IH]. intros s Hx.
  rewrite pretty_N_go_step by done.
  assert (Hmod : (x `mod` 10 < 10)%N) by (apply N.mod_lt; lia).
  destruct (decide (x `div` 10 = 0)%N) as [Hq | Hq].
  - rewrite Hq, pretty_N_go_0. cbn [parse_digits].
    rewrite (digit_val_pretty _ Hmod). do 3 f_equal.
    apply N.mod_small. by apply N.div_small_iff.
  - rewrite IH; [|apply N.div_lt; lia|by apply N.neq_0_lt_0]. cbn [parse_digits].
    rewrite (digit_val_pretty _ Hmod). do 2 f_equal.
    rewrite (N.div_mod x 10) at 3 by done. lia.
Qed.

(** The decimal form of a positive number starts with a digit from 1 to 9. *)
Lemma pretty_go_head (x : N) :
  forall s, (0 < x)%N ->
    exists d r, pretty_N_go x s = String (pretty_N_char d) r /\ (0 < d < 10)%N.
Proof.
  induction (N.lt_wf_0 x) as [x _ IH]. intros s Hx.
  rewrite pretty_N_go_step by done.
  destruct (decide (x `div` 10 = 0)%N) as [Hq | Hq].
  - rewrite Hq, pretty_N_go_0. eexists _, _. split; [done|].
    apply N.div_small_iff in Hq; [|done]. rewrite N.mod_small by done. lia.
  - apply IH; [apply N.div_lt; lia|by apply N.neq_0_lt_0].
Qed.

Lemma parseInt_digit_head (d : N) (r : string) :
  (0 < d < 10)%N ->
  parseInt (String (pretty_N_char d) r)
  = parse_digits 10 None (String (pretty_N_char d) r).
Proof.
  intros Hd.
  assert (d = 1 \/ d = 2 \/ d = 3 \/ d = 4 \/ d = 5 \/ d = 6 \/ d = 7
          \/ d = 8 \/ d = 9)%N as Hcases by lia.
  repeat (destruct Hcases as [-> | Hcases]; [reflexivity|]). by subst.
Qed.

Lemma parse_unsigned_digit_head (d : N) (r : string) :
  (0 < d < 10)%N ->
  parse_unsigned (String (pretty_N_char d) r)
  = parse_digits 10 None (String (pretty_N_char d) r).
Proof.
  intros Hd.
  assert (d = 1 \/ d = 2 \/ d = 3 \/ d = 4 \/ d = 5 \/ d = 6 \/ d = 7
          \/ d = 8 \/ d = 9)%N as Hcases by lia.
  repeat (destruct Hcases as [-> | Hcases]; [reflexivity|]). by subst.
Qed.

Lemma parseInt_positive (p : positive) :
  parseInt (pretty (N.pos p)) = Some (Z.pos p)
  /\ parse_unsigned (pretty (N.pos p)) = Some (Z.pos p).
Proof.
  unfold pretty, pretty_N. rewrite decide_False by done.
  destruct (pretty_go_head (N.pos p) "" eq_refl) as (d & r & Hhead & Hd).
  pose proof (parse_digits_pretty_go (N.pos p) "" eq_refl) as Hval.
  rewrite Hhead in *.
  by rewrite parseInt_digit_head, parse_unsigned_digit_head, Hval.
Qed.

Lemma parseInt_toString_id (z : Z) : parseInt (toString z) = Some z.
Proof.
  unfold toString, pretty, pretty_Z. destruct z as [|p|p].
  - reflexivity.
  - apply parseInt_positive.
  - change (parseInt ("-" +:+ pretty p))
      with (Z.opp <$> parse_unsigned (pretty (N.pos p))).
    by rewrite (proj2 (parseInt_positive p)).
Qed.

(** *** The exact writes of each operation *)

Lemma completed_exact (zone : TimeZone) (now : Z) (session : Session.t)
    (req : WebhookReq) (db : Db) :
  exact_effect now (OpWebhook req) db
    (purchases (handleCheckoutSessionCompleted zone now session db).1).
Proof.
  unfold handleCheckoutSessionCompleted. unfold_handler. cbn.
  destruct (session_reference session) as [ref|]; cbn; [|by left].
  destruct (truthy_num (parseInt (interp ref))); cbn; [|by left].
  destruct (list_find _ (purchases db)) as [[i p]|] eqn:Hfind; cbn; [|by left].
  apply list_find_Some in Hfind as (Hp & _ & _).
  repeat (next_case; cbn).
  all: try (by left).
  all: right; left; exists i, p; eexists; split; [done|].
  all: rewrite ?list_insert_insert_eq; split; [|reflexivity].
  all: first [ apply (rw_completed now req session p (Purchase.expiresAt p) zone); by left
             | apply (rw_completed now req session p _ zone); right; eassumption ].
Qed.

Lemma failed_exact (now : Z) (paymentIntent : PaymentIntent.t) (req : WebhookReq) (db : Db) :
  exact_effect now (OpWebhook req) db
    (purchases (handlePaymentFailed now paymentIntent db).1).
Proof.
  unfold handlePaymentFailed. unfold_handler. cbn.
  destruct (list_find _ (purchases db)) as [[i p]|] eqn:Hfind; cbn; [|by left].
  apply list_find_Some in Hfind as (Hp & Hintent & _).
  repeat (next_case; cbn).
  all: try (by left).
  all: right; left; exists i, p; eexists; split; [done|].
  all: split; [|reflexivity]; by eapply rw_failed.
Qed.

Lemma webhook_exact (env : Env) (now : Z) (req : WebhookReq) (db : Db) :
  exact_effect now (OpWebhook req) db (purchases (webhook env now req db).1).
Proof.
  destruct (stripe env) as [api|] eqn:Hapi; [|unfold webhook; rewrite Hapi; by left].
  destruct (constructEvent api (wh_body req) (wh_signature req)
              (STRIPE_WEBHOOK_SECRET env)) as [event|err] eqn:Hev;
    [|unfold webhook; rewrite Hapi, Hev; by left].
  rewrite (webhook_verified _ _ _ _ _ _ Hapi Hev). cbn [fst].
  destruct event as [session|pi|pi|type]; cbn [handle_event]; try (by left).
  - apply completed_exact.
  - apply failed_exact.
Qed.

Lemma checkout_exact (env : Env) (now : Z) (key : string) (req : CheckoutReq) (db : Db) :
  exact_effect now (OpCheckout key req) db
    (purchases (create_checkout_session env now key req db).1).
Proof.
  unfold create_checkout_session. unfold_handler. cbn.
  repeat (next_case; cbn).
  all: try (by left).
  all: right; right; eexists; rewrite ?snoc_insert; split; [|reflexivity].
  all: first [ eapply (cr_checkout now db key req _ _ _ _ _ _ None)
             | eapply cr_checkout ].
Qed.

Lemma purchase_exact (now : Z) (key : string) (req : PurchaseReq) (db : Db) :
  exact_effect now (OpPurchase key req) db (purchases (post_purchase now key req db).1).
Proof.
  unfold post_purchase. unfold_handler. cbn.
  repeat (next_case; cbn).
  all: try (by left).
  all: try (exfalso;
            rewrite (proj1 (completePurchase_fields _ _ _)) in *;
            unfold Purchase.validate in *; cbn in *; congruence).
  all: right; right; eexists; rewrite ?snoc_insert; split; [|reflexivity].
  all: eapply cr_purchase.
Qed.

Lemma download_exact (now : Z) (req : DownloadReq) (db : Db) :
  exact_effect now (OpDownload req) db (purchases (post_download now req db).1).
Proof.
  unfold post_download. unfold_handler. cbn.
  destruct (parseInt (dl_id req)) as [pid|]; cbn; [|by left].
  destruct (list_find _ (purchases db)) as [[i p]|] eqn:Hfind; cbn; [|by left].
  apply list_find_Some in Hfind as (Hp & _ & _).
  destruct (dl_user req =? Purchase.userId p) eqn:Huser; cbn; [|by left].
  apply Z.eqb_eq in Huser.
  destruct (Purchase.canDownload now p) eqn:Hcan; cbn; [|by left].
  unfold Purchase.recordDownload.
  repeat (next_case; cbn).
  all: try (by left).
  all: right; left; exists i, p; eexists; split; [done|].
  all: split; [|reflexivity]; by apply rw_download.
Qed.

Lemma refund_exact (now : Z) (i : nat) (reason : option string) (db : Db) :
  exact_effect now (OpRefund i reason) db (purchases (refund now i reason db).1).
Proof.
  unfold refund. unfold_handler. cbn.
  destruct (purchases db !! i) as [p|] eqn:Hp; cbn; [|by left].
  repeat (next_case; cbn).
  all: try (by left).
  all: right; left; exists i, p; eexists; split; [done|].
  all: split; [|reflexivity]; apply rw_refund.
Qed.

Lemma op_exact (env : Env) (now : Z) (op : Op) (db : Db) :
  exact_effect now op db (purchases (run_op env now op db)).
Proof.
  destruct op; cbn [run_op].
  - apply checkout_exact.
  - apply webhook_exact.
  - apply purchase_exact.
  - apply download_exact.
  - apply refund_exact.
Qed.

(** *** Invariants of the ledger *)

Lemma run_ops_invariant (P : Db -> Prop) (env : Env) :
  (forall now op db, P db -> P (run_op env now op db)) ->
  forall ops db, P db -> P (run_ops env ops db).
Proof.
  intros Hstep ops. induction ops as [|[now op] ops IH]; intros db HP; [done|].
  cbn [run_ops]. by apply IH, Hstep.
Qed.

Lemma foldr_max_upper (x : Z) (r : list Z) :
  x <= foldr Z.max x r /\ Forall (fun y => y <= foldr Z.max x r) r.
Proof.
  induction r as [|y r [IHx IHr]]; cbn [foldr]; [by split|].
  split; [lia|]. constructor; [lia|].
  eapply Forall_impl; [exact IHr|]. cbn. intros; lia.
Qed.

Lemma next_id_above (ids : list Z) : Forall (fun n => n < next_id ids) ids.
Proof.
  destruct ids as [|x r]; [constructor|]. cbn [next_id].
  destruct (foldr_max_upper x r) as [Hx Hr].
  constructor; [lia|]. eapply Forall_impl; [exact Hr|]. cbn. intros; lia.
Qed.

Lemma next_id_positive (ids : list Z) :
  Forall (fun n => 1 <= n) ids -> 1 <= next_id ids.
Proof.
  destruct ids as [|x r]; [done|]. intros [Hx _]%Forall_cons. cbn [next_id].
  destruct (foldr_max_upper x r) as [Hle _]. lia.
Qed.

Lemma rewrite_same_order (now : Z) (op : Op) (p p' : Purchase.t) :
  rewrite_by now op p p' -> same_order p p'.
Proof. destruct 1; unfold same_order; by split_and!. Qed.

Lemma created_id (now : Z) (db : Db) (op : Op) (p' : Purchase.t) :
  created_by now db op p' ->
  Purchase.id p' = next_id (Purchase.id <$> purchases db).
Proof.
  destruct 1; [done|].
  unfold Purchase.completePurchase. by destruct (truthy_str _).
Qed.

Lemma ids_step (env : Env) (now : Z) (op : Op) (db : Db) :
  Purchase.id <$> purchases (run_op env now op db) = Purchase.id <$> purchases db
  \/ Purchase.id <$> purchases (run_op env now op db)
     = (Purchase.id <$> purchases db) ++ [next_id (Purchase.id <$> purchases db)].
Proof.
  destruct (op_exact env now op db)
    as [-> | [(i & p & p' & Hp & Hrw & ->) | (p' & Hcr & ->)]].
  - by left.
  - left. rewrite list_fmap_insert.
    destruct (rewrite_same_order _ _ _ _ Hrw) as (_ & Hid & _). rewrite Hid.
    apply list_insert_id. by rewrite list_lookup_fmap, Hp.
  - right. rewrite fmap_app. cbn. by rewrite (created_id _ _ _ _ Hcr).
Qed.

Lemma numbered_step (env : Env) (now : Z) (op : Op) (db : Db) :
  numbered db -> numbered (run_op env now op db).
Proof.
  intros [Hpos Hnodup]. unfold numbered.
  destruct (ids_step env now op db) as [-> | ->]; [done|].
  split.
  - apply Forall_app. split; [done|]. apply Forall_singleton.
    by apply next_id_positive.
  - apply NoDup_app. split_and!; [done| |apply NoDup_singleton].
    intros n Hn ->%list_elem_of_singleton.
    pose proof (next_id_above (Purchase.id <$> purchases db)) as Habove.
    rewrite Forall_forall in Habove. specialize (Habove _ Hn). lia.
Qed.

(** *** The purchase number through the payment provider *)

Lemma toString_nonempty (z : Z) : toString z <> "".
Proof.
  intros Hz. pose proof (parseInt_toString_id z) as Hp.
  rewrite Hz in Hp. vm_compute in Hp. discriminate.
Qed.

Lemma truthy_toString (z : Z) : truthy_str (Some (toString z)) = true.
Proof.
  cbn [truthy_str]. by rewrite (proj2 (String.eqb_neq _ _) (toString_nonempty z)).
Qed.

(** X1 (checkout / completion): the purchase number the checkout hands to
    the provider is read back by the completion handler: from a session
    that echoes [client_reference_id], and from one without it (null, or
    the empty string) that echoes the metadata, [parseInt] of the reference
    the handler reads is the number of the purchase. *)
Theorem X1_purchase_id_read_back (env : Env) (uid : Z) (slug duration : string)
    (product : Product.t) (tier : Product.Duration) (purchase : Purchase.t)
    (session : Session.t) :
  let params := session_params env uid slug duration product tier purchase in
  Session.client_reference_id session = Some (sp_client_reference_id params)
  \/ (truthy_str (Session.client_reference_id session) = false
      /\ Session.metadata session = Some (sp_metadata params)) ->
  exists ref,
    session_reference session = Ok ref
    /\ parseInt (interp ref) = Some (Purchase.id purchase).
Proof.
  intros params [Hown | [Hnone Hmeta]]; unfold session_reference.
  - rewrite Hown. cbn [params session_params sp_client_reference_id].
    rewrite truthy_toString. eexists; split; [done|].
    apply parseInt_toString_id.
  - rewrite Hnone, Hmeta. eexists; split; [done|].
    cbn [params session_params sp_metadata]. rewrite lookup_insert_eq.
    apply parseInt_toString_id.
Qed.

Lemma X1_purchase_id_read_back_witness :
  exists ref,
    session_reference
      (Session.mk "cs_9" (Some "")
         (Some (sp_metadata
                  (session_params Example.env Example.buyer "pro-tool" "1month"
                     Example.pro_tool Example.tier (Example.stored 0 Example.db1))))
         None None) = Ok ref
    /\ parseInt (interp ref) = Some (Purchase.id (Example.stored 0 Example.db1)).
Proof.
  apply (X1_purchase_id_read_back Example.env Example.buyer "pro-tool" "1month"
           Example.pro_tool Example.tier (Example.stored 0 Example.db1)).
  right. split; reflexivity.
Defined.

(** The store a checkout leaves when the product and the tier exist and the
    record passes validation: one purchase more, whatever the provider
    answers. *)
Lemma checkout_created (env : Env) (api : Stripe) (now : Z) (key : string)
    (req : CheckoutReq) (slug name : string) (db : Db) (j : nat)
    (product : Product.t) (tier : Product.Duration) :
  stripe env = Some api ->
  co_productSlug req = Some slug -> slug <> "" ->
  co_duration req = Some name -> name <> "" ->
  list_find (fun p => Product.slug p = cast_slug slug /\ Product.active p = true)
    (products db) = Some (j, product) ->
  Product.findDuration name product = Some tier ->
  Qle_bool 0 (Product.price tier) = true ->
  str_in (str_or (Product.currency product) "USD") ["USD"; "EUR"; "BTC"; "ETH"] = true ->
  exists sessionId,
    (create_checkout_session env now key req db).1
    = with_purchases
        (purchases db ++
         [Purchase.set_stripeSessionId sessionId
            (stored_new key db
               (Purchase.new now (co_user req) (Product.id product) (Some slug)
                  (Some name) (Product.days tier) "Card" (Product.price tier)
                  (str_or (Product.currency product) "USD")))])
        db.
Proof.
  intros Hapi Hslug Hslug' Hname Hname' Hfound Htier Hprice Hcur.
  assert (Hreq : negb (truthy_str (co_productSlug req))
                 || negb (truthy_str (co_duration req)) = false).
  { rewrite Hslug, Hname. cbn.
    by rewrite (proj2 (String.eqb_neq _ _) Hslug'), (proj2 (String.eqb_neq _ _) Hname'). }
  unfold create_checkout_session.
  rewrite Hapi, Hreq, Hslug, Hname. cbn [default from_option id].
  unfold try_catch, bind, gets, ret. rewrite Hfound, Htier.
  unfold insertPurchase, savePurchase, lift.
  rewrite (proj1 (validate_checkout_record now (co_user req) (Product.id product)
                    key (Some slug) (Some name) (Product.days tier) _ _
                    0%nat 0 None Hprice Hcur)).
  cbn [truthy_str Purchase.licenseKey Purchase.new Purchase.set_id Purchase.set__id].
  destruct (sessions_create api _) as [session|e];
    cbn [fst snd purchases with_purchases].
  - rewrite (proj2 (validate_checkout_record now (co_user req) (Product.id product)
                      key (Some slug) (Some name) (Product.days tier) _ _
                      _ _ _ Hprice Hcur)).
    cbn [fst snd purchases with_purchases]. rewrite snoc_insert.
    exists (Some (Session.id session)). by destruct db.
  - exists None. by destruct db.
Qed.

(** What the completion handler does to the purchase collection once it has
    found the purchase: it rewrites that record, and no other. *)
Lemma completion_marks (zone : TimeZone) (now : Z) (session : Session.t) (db : Db)
    (ref : option string) (pid : Z) (i : nat) (p : Purchase.t) :
  session_reference session = Ok ref ->
  parseInt (interp ref) = Some pid -> pid <> 0 ->
  list_find (fun p => Purchase.id p = pid) (purchases db) = Some (i, p) ->
  Purchase.validate p = true ->
  exists p',
    purchases (handleCheckoutSessionCompleted zone now session db).1
    = <[i := p']> (purchases db)
    /\ Purchase.status p' = Completed
    /\ Purchase.completedAt p' = Some now
    /\ Purchase.transactionId p' = Some (Session.id session)
    /\ Purchase.stripePaymentId p' = Session.payment_intent session
    /\ same_order p p'.
Proof.
  intros Href Hpid Hnz Hfind Hvalid.
  unfold handleCheckoutSessionCompleted. unfold_handler.
  rewrite Href. cbn [fst snd]. rewrite Hpid.
  cbn [truthy_num negb default from_option id].
  rewrite (proj2 (Z.eqb_neq _ _) Hnz). cbn [negb]. rewrite Hfind.
  change (Purchase.validate (Purchase.set_transactionId _ _))
    with (Purchase.validate p).
  rewrite Hvalid. cbn.
  repeat (next_case; cbn).
  all: rewrite ?list_insert_insert_eq.
  all: eexists; split; [reflexivity|]; unfold same_order; by split_and!.
Qed.

(** X2 (checkout, then completion): in a store whose purchase numbers are
    positive, a checkout that passes the checks stores one new Pending
    purchase, and the completion event that carries the number of that
    purchase as its reference completes exactly that record: it becomes
    Completed, with the session as transaction, and every purchase stored
    before keeps its place and contents. *)
Theorem X2_checkout_then_completion (env : Env) (api : Stripe) (now : Z)
    (key : string) (req : CheckoutReq) (slug name : string) (db : Db) (j : nat)
    (product : Product.t) (tier : Product.Duration) :
  stripe env = Some api ->
  co_productSlug req = Some slug -> slug <> "" ->
  co_duration req = Some name -> name <> "" ->
  list_find (fun p => Product.slug p = cast_slug slug /\ Product.active p = true)
    (products db) = Some (j, product) ->
  Product.findDuration name product = Some tier ->
  Qle_bool 0 (Product.price tier) = true ->
  str_in (str_or (Product.currency product) "USD") ["USD"; "EUR"; "BTC"; "ETH"] = true ->
  Forall (fun n => 1 <= n) (Purchase.id <$> purchases db) ->
  let db1 := (create_checkout_session env now key req db).1 in
  exists p,
    purchases db1 = purchases db ++ [p]
    /\ Purchase.status p = Pending
    /\ forall zone now' session,
         Session.client_reference_id session = Some (toString (Purchase.id p)) ->
         let db2 := (handleCheckoutSessionCompleted zone now' session db1).1 in
         exists p',
           purchases db2 = purchases db ++ [p']
           /\ Purchase.status p' = Completed
           /\ Purchase.transactionId p' = Some (Session.id session)
           /\ same_order p p'.
Proof.
  intros Hapi Hslug Hslug' Hname Hname' Hfound Htier Hprice Hcur Hpos db1.
  destruct (checkout_created env api now key req slug name db j product tier)
    as [sessionId Hdb1]; try done.
  subst db1. rewrite Hdb1. eexists. split; [by destruct db|]. split; [done|].
  intros zone now' session Href db2. subst db2.
  set (p := Purchase.set_stripeSessionId _ _) in *.
  assert (Hid : Purchase.id p = next_id (Purchase.id <$> purchases db)) by done.
  assert (Hfind : list_find (fun q => Purchase.id q = Purchase.id p)
                    (purchases (with_purchases (purchases db ++ [p]) db))
                  = Some (length (purchases db), p)).
  { apply list_find_Some. split_and!.
    - destruct db; cbn. rewrite lookup_app_r by lia. by rewrite Nat.sub_diag.
    - done.
    - intros k q Hk Hlt. destruct db as [ps ? ? ? ? ?]; cbn in *.
      rewrite lookup_app_l in Hk by done.
      pose proof (next_id_above (Purchase.id <$> ps)) as Habove.
      rewrite Forall_forall in Habove.
      assert (Hin : Purchase.id q ∈ Purchase.id <$> ps).
      { apply list_elem_of_fmap. exists q. split; [done|].
        by eapply list_elem_of_lookup_2. }
      specialize (Habove _ Hin). cbn in Habove. intros Heq. rewrite Heq in Habove.
      change (Purchase.id p) with (next_id (Purchase.id <$> ps)) in Habove. lia. }
  destruct (completion_marks zone now' session
              (with_purchases (purchases db ++ [p]) db)
              (Some (toString (Purchase.id p))) (Purchase.id p)
              (length (purchases db)) p)
    as (p' & Hps & Hst & _ & Htx & _ & Hsame).
  - unfold session_reference. by rewrite Href, truthy_toString.
  - apply parseInt_toString_id.
  - rewrite Hid. pose proof (next_id_positive _ Hpos). lia.
  - exact Hfind.
  - apply (validate_checkout_record now (co_user req) (Product.id product) key
             (Some slug) (Some name) (Product.days tier) _ _ _ _ _ Hprice Hcur).
  - exists p'. rewrite Hps. split_and!; try done.
    destruct db; cbn. apply snoc_insert.
Qed.

Lemma X2_checkout_then_completion_witness :
  let db1 := (create_checkout_session Example.env 1000 "AAAA-BBBB-CCCC-DDDD"
                (mkCheckoutReq Example.buyer (Some "pro-tool") (Some "1month"))
                Example.db0).1 in
  exists p,
    purchases db1 = purchases Example.db0 ++ [p]
    /\ Purchase.status p = Pending
    /\ forall zone now' session,
         Session.client_reference_id session = Some (toString (Purchase.id p)) ->
         let db2 := (handleCheckoutSessionCompleted zone now' session db1).1 in
         exists p',
           purchases db2 = purchases Example.db0 ++ [p']
           /\ Purchase.status p' = Completed
           /\ Purchase.transactionId p' = Some (Session.id session)
           /\ same_order p p'.
Proof.
  apply (X2_checkout_then_completion Example.env Example.api 1000
           "AAAA-BBBB-CCCC-DDDD"
           (mkCheckoutReq Example.buyer (Some "pro-tool") (Some "1month"))
           "pro-tool" "1month" Example.db0 0%nat Example.pro_tool Example.tier);
    try reflexivity; try discriminate.
  constructor.
Defined.

Lemma same_order_refl (p : Purchase.t) : same_order p p.
Proof. unfold same_order. by split_and!. Qed.

Lemma same_order_trans (p q r : Purchase.t) :
  same_order p q -> same_order q r -> same_order p r.
Proof. unfold same_order. intros ? ?. split_and!; intuition congruence. Qed.

Lemma kept_step (env : Env) (now : Z) (op : Op) (db : Db) (i : nat) (p : Purchase.t) :
  purchases db !! i = Some p ->
  exists p', purchases (run_op env now op db) !! i = Some p'
    /\ (p' = p \/ rewrite_by now op p p').
Proof.
  intros Hp.
  destruct (op_exact env now op db)
    as [-> | [(i0 & p0 & p' & Hp0 & Hrw & ->) | (p' & _ & ->)]].
  - eauto.
  - destruct (decide (i0 = i)) as [->|Hne].
    + exists p'. rewrite list_lookup_insert_eq by (by eapply lookup_lt_Some).
      simplify_eq. auto.
    + exists p. rewrite list_lookup_insert_ne by done. auto.
  - exists p. rewrite lookup_app_l by (by eapply lookup_lt_Some). auto.
Qed.

(** X3.  Purchase numbers.  In a store whose purchase numbers are positive and
    pairwise distinct, they stay so through every sequence of operations,
    so that a lookup by number names at most one purchase. *)
Theorem X3_purchase_numbers_distinct :
  forall env ops db,
    numbered db ->
    let db' := run_ops env ops db in
    numbered db'
    /\ (forall i j p q,
          purchases db' !! i = Some p -> purchases db' !! j = Some q ->
          Purchase.id p = Purchase.id q -> i = j).
Proof.
  intros env ops db Hnum db'.
  assert (Hnum' : numbered db').
  { apply (run_ops_invariant numbered env); [|done].
    intros now op d. apply numbered_step. }
  split; [done|]. intros i j p q Hi Hj Heq.
  destruct Hnum' as [_ Hnodup].
  eapply NoDup_lookup; [exact Hnodup| |].
  - rewrite list_lookup_fmap, Hi. reflexivity.
  - rewrite list_lookup_fmap, Hj. cbn. by rewrite Heq.
Qed.

Lemma X3_purchase_numbers_distinct_witness :
  numbered
    (run_ops Example.env
       [(1000, Example.checkout "pro-tool" "1month");
        (1500, Example.checkout "ghost-tool" "1month");
        (2000, Example.delivery "C1" "valid")]
       Example.db0).
Proof.
  apply (X3_purchase_numbers_distinct Example.env
           [(1000, Example.checkout "pro-tool" "1month");
            (1500, Example.checkout "ghost-tool" "1month");
            (2000, Example.delivery "C1" "valid")]
           Example.db0).
  split; [constructor|apply NoDup_nil_2].
Defined.

(** X4.  Write-once fields.  Through every sequence of operations a stored
    purchase keeps its number, buyer, software reference, payment method,
    amount, currency, product slug, duration, day count, purchase date,
    download limit, license key and payment data. *)
Theorem X4_order_fields_kept :
  forall env ops db i p,
    purchases db !! i = Some p ->
    exists p', purchases (run_ops env ops db) !! i = Some p' /\ same_order p p'.
Proof.
  intros env ops. induction ops as [|[now op] ops IH]; intros db i p Hp.
  - exists p. split; [done|apply same_order_refl].
  - cbn [run_ops].
    destruct (kept_step env now op db i p Hp) as (p1 & Hp1 & Hcase).
    destruct (IH _ i p1 Hp1) as (p' & Hp' & Hsame).
    exists p'. split; [done|]. eapply same_order_trans; [|exact Hsame].
    destruct Hcase as [->|Hrw]; [apply same_order_refl|].
    by eapply rewrite_same_order.
Qed.

Lemma X4_order_fields_kept_witness :
  exists p',
    purchases
      (run_ops Example.env
         [(2000, Example.delivery "C1" "valid"); (3000, OpDownload Example.redeem);
          (4000, Example.delivery "F" "valid")]
         Example.db1) !! 0%nat = Some p'
    /\ same_order (Example.stored 0 Example.db1) p'.
Proof.
  apply (X4_order_fields_kept Example.env
           [(2000, Example.delivery "C1" "valid"); (3000, OpDownload Example.redeem);
            (4000, Example.delivery "F" "valid")]
           Example.db1 0%nat (Example.stored 0 Example.db1)).
  vm_compute. reflexivity.
Defined.

Lemma unpaid_step (env : Env) (now : Z) (op : Op) (db : Db) :
  unpaid_without_intent db -> unpaid_without_intent (run_op env now op db).
Proof.
  unfold unpaid_without_intent. intros Hinv.
  destruct (op_exact env now op db)
    as [-> | [(i & p & p' & Hp & Hrw & ->) | (p' & Hcr & ->)]].
  - done.
  - apply Forall_insert; [done|].
    pose proof (Forall_lookup_1 _ _ _ _ Hinv Hp) as Hp0. cbn in Hp0.
    destruct Hrw as [req session q e zone _ | req intent note q _ | req q _ _ | j reason q];
      by cbn.
  - apply Forall_app. split; [done|]. apply Forall_singleton.
    destruct Hcr; [done|].
    unfold Purchase.completePurchase. by destruct (truthy_str _).
Qed.

(** X5.  A payment-failure event never fails a Pending purchase.  The event is
    matched on the stored payment intent, which only a completion writes:
    in a store where no Pending purchase carries an intent (every store the
    flow builds), that stays so, and no operation takes a purchase from
    Pending to Failed. *)
Theorem X5_pending_never_failed :
  forall env ops db,
    unpaid_without_intent db ->
    let db' := run_ops env ops db in
    unpaid_without_intent db'
    /\ (forall now op i,
          status_at i db' = Some Pending ->
          status_at i (run_op env now op db') <> Some Failed).
Proof.
  intros env ops db Hinv db'.
  assert (Hinv' : unpaid_without_intent db').
  { apply (run_ops_invariant unpaid_without_intent env); [|done].
    intros now op d. apply unpaid_step. }
  split; [done|]. intros now op i. unfold status_at.
  destruct (purchases db' !! i) as [p|] eqn:Hp; [|done]. cbn. intros [= Hst].
  destruct (kept_step env now op db' i p Hp) as (p' & -> & Hcase). cbn.
  destruct Hcase as [->|Hrw]; [by rewrite Hst|].
  pose proof (Forall_lookup_1 _ _ _ _ Hinv' Hp Hst) as Hnone.
  destruct Hrw
    as [req session q e zone _ | req intent note q Hintent | req q _ _ | j reason q];
    cbn; try done.
  - by rewrite Hnone in Hintent.
  - by rewrite Hst.
Qed.

Lemma X5_pending_never_failed_witness :
  status_at 0 (run_op Example.env 3000 (Example.delivery "F" "valid") Example.db1)
  <> Some Failed.
Proof.
  apply (proj2 (X5_pending_never_failed Example.env
                  [(1000, Example.checkout "pro-tool" "1month")] Example.db0
                  (Forall_nil_2 _)) 3000 (Example.delivery "F" "valid") 0%nat).
  vm_compute. reflexivity.
Defined.

Lemma expiry_step (env : Env) (now : Z) (op : Op) (db : Db) :
  expiry_from_days db -> expiry_from_days (run_op env now op db).
Proof.
  unfold expiry_from_days. intros Hinv.
  destruct (op_exact env now op db)
    as [-> | [(i & p & p' & Hp & Hrw & ->) | (p' & Hcr & ->)]].
  - done.
  - apply Forall_insert; [done|].
    pose proof (Forall_lookup_1 _ _ _ _ Hinv Hp) as Hp0. cbn in Hp0.
    destruct Hrw
      as [req session q e zone [-> | He] | req intent note q _ | req q _ _ | j reason q];
      cbn; try done.
    by apply (role_expiry_ok _ _ _ _ He).
  - apply Forall_app. split; [done|]. apply Forall_singleton.
    destruct Hcr; [done|].
    unfold Purchase.completePurchase. by destruct (truthy_str _).
Qed.

(** X6.  An expiry, once set, is never cleared.  In a store where every purchase
    with an expiry has a positive day count (every store the flow builds),
    that stays so, and a purchase that has an expiry still has one after
    any sequence of operations. *)
Theorem X6_expiry_never_cleared :
  forall env ops db i p,
    expiry_from_days db ->
    purchases db !! i = Some p ->
    Purchase.expiresAt p <> None ->
    expiry_from_days (run_ops env ops db)
    /\ exists p', purchases (run_ops env ops db) !! i = Some p'
         /\ Purchase.expiresAt p' <> None.
Proof.
  intros env ops. induction ops as [|[now op] ops IH]; intros db i p Hinv Hp Hset.
  - split; [done|]. eauto.
  - cbn [run_ops]. pose proof (expiry_step env now op db Hinv) as Hinv1.
    destruct (kept_step env now op db i p Hp) as (p1 & Hp1 & Hcase).
    apply (IH _ i p1 Hinv1 Hp1).
    destruct Hcase as [->|Hrw]; [done|].
    pose proof (Forall_lookup_1 _ _ _ _ Hinv Hp Hset) as (d & Hd & Hpos).
    destruct Hrw
      as [req session q e zone [-> | He] | req intent note q _ | req q _ _ | j reason q];
      cbn; try done.
    apply (role_expiry_ok _ _ _ _ He). eauto.
Qed.

Lemma X6_expiry_never_cleared_witness :
  exists p',
    purchases
      (run_ops Example.env
         [(3000, Example.delivery "F" "valid"); (4000, Example.delivery "C1" "valid")]
         Example.db2) !! 0%nat = Some p'
    /\ Purchase.expiresAt p' <> None.
Proof.
  apply (X6_expiry_never_cleared Example.env
           [(3000, Example.delivery "F" "valid"); (4000, Example.delivery "C1" "valid")]
           Example.db2 0%nat (Example.stored 0 Example.db2)).
  - assert (Hl : purchases Example.db2 = [Example.stored 0 Example.db2])
      by (vm_compute; reflexivity).
    unfold expiry_from_days. rewrite Hl. apply Forall_singleton.
    intros _. exists 30. split; [vm_compute; reflexivity|lia].
  - vm_compute. reflexivity.
  - vm_compute. discriminate.
Defined.

(** *** The other collections *)

Lemma frame_refl (db : Db) : frame db db.
Proof. unfold frame. by split_and!. Qed.

Lemma frame_trans (a b c : Db) : frame a b -> frame b c -> frame a c.
Proof.
  unfold frame. intros (? & ? & ? & ? & ?) (? & ? & ? & ? & ?).
  split_and!; try congruence; by etrans.
Qed.

Ltac frame_leaf :=
  unfold frame; cbn; split_and!; first [done | by eexists].

Lemma completed_frame (zone : TimeZone) (now : Z) (session : Session.t) (db : Db) :
  frame db (handleCheckoutSessionCompleted zone now session db).1.
Proof.
  unfold handleCheckoutSessionCompleted. unfold_handler. cbn.
  repeat (next_case; cbn). all: frame_leaf.
Qed.

Lemma failed_frame (now : Z) (paymentIntent : PaymentIntent.t) (db : Db) :
  frame db (handlePaymentFailed now paymentIntent db).1
  /\ userRoles (handlePaymentFailed now paymentIntent db).1 = userRoles db.
Proof.
  unfold handlePaymentFailed. unfold_handler. cbn.
  repeat (next_case; cbn). all: split; [frame_leaf|done].
Qed.

Lemma webhook_frame (env : Env) (now : Z) (req : WebhookReq) (db : Db) :
  frame db (webhook env now req db).1.
Proof.
  destruct (stripe env) as [api|] eqn:Hapi;
    [|unfold webhook; rewrite Hapi; apply frame_refl].
  destruct (constructEvent api (wh_body req) (wh_signature req)
              (STRIPE_WEBHOOK_SECRET env)) as [event|err] eqn:Hev;
    [|unfold webhook; rewrite Hapi, Hev; apply frame_refl].
  rewrite (webhook_verified _ _ _ _ _ _ Hapi Hev). cbn [fst].
  destruct event as [session|pi|pi|type]; cbn [handle_event];
    try apply frame_refl.
  - apply completed_frame.
  - apply failed_frame.
Qed.

Lemma other_ops_frame (env : Env) (now : Z) (op : Op) (db : Db) :
  ~ is_webhook op ->
  frame db (run_op env now op db)
  /\ userRoles (run_op env now op db) = userRoles db.
Proof.
  intros Hop. destruct op as [key req|req|key req|req|i reason]; cbn [run_op].
  - unfold create_checkout_session. unfold_handler. cbn.
    repeat (next_case; cbn). all: split; [frame_leaf|done].
  - by destruct Hop.
  - unfold post_purchase. unfold_handler. cbn.
    destruct (negb (truthy_num (pr_softwareId req))
              || negb (truthy_str (pr_paymentMethod req))); cbn;
      [split; [frame_leaf|done]|].
    destruct (list_find _ (software db)) as [[j s]|] eqn:Hfind; cbn;
      [|split; [frame_leaf|done]].
    apply list_find_Some in Hfind as (Hs & _ & _).
    repeat (next_case; cbn).
    all: split; [|done].
    all: unfold frame; cbn; split_and!; try done.
    all: rewrite list_fmap_insert; apply list_insert_id.
    all: by rewrite list_lookup_fmap, Hs.
  - unfold post_download. unfold_handler. cbn.
    unfold Purchase.recordDownload.
    repeat (next_case; cbn). all: split; [frame_leaf|done].
  - unfold refund. unfold_handler. cbn.
    repeat (next_case; cbn). all: split; [frame_leaf|done].
Qed.

Lemma frame_step (env : Env) (now : Z) (op : Op) (db : Db) :
  frame db (run_op env now op db).
Proof.
  destruct op as [key req|req|key req|req|i reason];
    try (apply other_ops_frame; by intros []).
  apply webhook_frame.
Qed.

(** X7.  The flow never edits the catalog and never takes back a grant.  Through
    every sequence of operations the products and roles are untouched, the
    role assignments and notifications already stored stay as they are
    (new ones are appended), and the software listings keep their numbers;
    only a gateway callback adds role assignments. *)
Theorem X7_catalog_untouched_grants_append_only :
  forall env ops db,
    frame db (run_ops env ops db)
    /\ (forall now op, ~ is_webhook op ->
          userRoles (run_op env now op db) = userRoles db).
Proof.
  intros env ops db. split.
  - revert db. induction ops as [|[now op] ops IH]; intros db; [apply frame_refl|].
    cbn [run_ops]. eapply frame_trans; [apply frame_step|apply IH].
  - intros now op Hop. by apply other_ops_frame.
Qed.

Lemma X7_catalog_untouched_grants_append_only_witness :
  userRoles
    (run_op Example.env 3000 (OpDownload Example.redeem) Example.db2)
  = userRoles Example.db2.
Proof.
  apply (proj2 (X7_catalog_untouched_grants_append_only Example.env [] Example.db2)
           3000 (OpDownload Example.redeem)).
  intros [].
Defined.

(** *** Buying a legacy listing *)

Lemma validate_from_listing (now : Z) (user softwareId : Z) (method : string)
    (s : Software.t) :
  str_in method ["Crypto"; "Card"; "PayPal"; "Bank Transfer"] = true ->
  Software.validate s = true ->
  Purchase.validate
    (Purchase.new now user softwareId None None None method (Software.price s)
       (Software.currency s)) = true.
Proof.
  intros Hmethod Hvalid. unfold Software.validate in Hvalid.
  repeat (apply andb_true_iff in Hvalid as [Hvalid ?]).
  unfold Purchase.validate.
  cbn [Purchase.new Purchase.paymentMethod Purchase.amount Purchase.currency
       Purchase.downloadCount Purchase.maxDownloads].
  repeat (apply andb_true_iff; split); done.
Qed.

Lemma validate_sold (now : Z) (s : Software.t) :
  Software.validate s = true ->
  Software.validate
    (Software.set_updatedAt (cast_date now) (Software.incrementSales now s)) = true.
Proof.
  unfold Software.validate, Software.incrementSales. cbn.
  rewrite !andb_true_iff, !Z.leb_le. intuition lia.
Qed.

Lemma post_purchase_created (now : Z) (key : string) (req : PurchaseReq) (db : Db)
    (resp : Response) :
  (post_purchase now key req db).2 = Ok resp ->
  code resp = 201 ->
  exists j s,
    negb (truthy_num (pr_softwareId req)) || negb (truthy_str (pr_paymentMethod req))
    = false
    /\ list_find (fun s => Software.id s = default 0 (pr_softwareId req)) (software db)
       = Some (j, s)
    /\ Software.isPurchasable s = true
    /\ (post_purchase now key req db).1 = bought now key req j s db.
Proof.
  unfold post_purchase. unfold_handler. cbn.
  destruct (negb (truthy_num (pr_softwareId req))
            || negb (truthy_str (pr_paymentMethod req))) eqn:Hreq; cbn;
    [by intros [= <-]|].
  destruct (list_find _ (software db)) as [[j s]|] eqn:Hfind; cbn;
    [|by intros [= <-]].
  destruct (Software.isPurchasable s) eqn:Hok; cbn; [|by intros [= <-]].
  repeat (next_case; cbn); intros [= <-]; cbn; try done.
  intros _. exists j, s. rewrite (snoc_insert (purchases db)). by split_and!.
Qed.

(** X8.  Refusals of [POST /api/purchases] write nothing.  Whenever the answer
    is 400 (missing field, listing not purchasable), 404 (no such listing)
    or 409 (already owned), the store is exactly as before. *)
Theorem X8_purchase_refusals_write_nothing :
  forall now key req db resp,
    (post_purchase now key req db).2 = Ok resp ->
    code resp = 400 \/ code resp = 404 \/ code resp = 409 ->
    (post_purchase now key req db).1 = db.
Proof.
  intros now key req db resp. unfold post_purchase. unfold_handler. cbn.
  repeat (next_case; cbn); intros [= <-]; cbn; try done.
  all: intros [?|[?|?]]; done.
Qed.

Lemma X8_purchase_refusals_write_nothing_witness :
  (post_purchase 1000 "AAAA-BBBB-CCCC-DDDD"
     (mkPurchaseReq Example.buyer (Some 8) (Some "Card")) Example.db2).1
  = Example.db2.
Proof.
  apply (X8_purchase_refusals_write_nothing 1000 "AAAA-BBBB-CCCC-DDDD"
           (mkPurchaseReq Example.buyer (Some 8) (Some "Card")) Example.db2
           (fail 404 "Software not found")).
  - vm_compute. reflexivity.
  - right; left. reflexivity.
Defined.

(** X9.  A successful [POST /api/purchases].  For a purchasable, valid listing
    that the buyer does not own yet and an accepted payment method, the
    answer is 201, exactly one purchase is appended (Completed at once, at
    the listing's price and currency, with the key drawn and the demo
    transaction id), and the listing's sales count grows by one; the
    listing's [updatedAt] is the one the save writes, the current date cast
    to a string, to the second, not the instant [incrementSales] assigned,
    and the rest of the listing is as it was. *)
Theorem X9_purchase_created :
  forall now key req db softwareId method j s,
    pr_softwareId req = Some softwareId -> softwareId <> 0 ->
    pr_paymentMethod req = Some method ->
    str_in method ["Crypto"; "Card"; "PayPal"; "Bank Transfer"] = true ->
    list_find (fun s => Software.id s = softwareId) (software db) = Some (j, s) ->
    Software.isPurchasable s = true ->
    Software.validate s = true ->
    list_find (fun p => Purchase.userId p = pr_user req
                        /\ Purchase.softwareId p = softwareId
                        /\ Purchase.status p = Completed) (purchases db) = None ->
    exists p resp,
      post_purchase now key req db = (bought now key req j s db, Ok resp)
      /\ code resp = 201
      /\ purchases (bought now key req j s db) = purchases db ++ [p]
      /\ Purchase.status p = Completed
      /\ Purchase.userId p = pr_user req
      /\ Purchase.softwareId p = softwareId
      /\ Purchase.amount p = Software.price s
      /\ Purchase.currency p = Software.currency s
      /\ Purchase.completedAt p = Some now
      /\ Purchase.transactionId p = Some ("DEMO_" +:+ toString now)
      /\ Purchase.licenseKey p = Some key
      /\ Purchase.downloadCount p = 0
      /\ (exists s', software (bought now key req j s db) !! j = Some s'
            /\ Software.totalSales s' = Software.totalSales s + 1
            /\ Software.updatedAt s' = now / 1000 * 1000
            /\ s' = Software.set_updatedAt (now / 1000 * 1000)
                      (Software.set_totalSales (Software.totalSales s + 1) s)).
Proof.
  intros now key req db softwareId method j s Hsid Hnz Hmethod Henum Hfind Hok
    Hvalid Hnone.
  pose proof Hfind as (Hs & _ & _)%list_find_Some.
  assert (Hmnz : method <> "") by (intros ->; done).
  assert (Hreq : negb (truthy_num (pr_softwareId req))
                 || negb (truthy_str (pr_paymentMethod req)) = false).
  { rewrite Hsid, Hmethod. cbn.
    by rewrite (proj2 (Z.eqb_neq _ _) Hnz), (proj2 (String.eqb_neq _ _) Hmnz). }
  eexists _, _. split.
  - unfold post_purchase. unfold_handler. rewrite Hreq, Hsid, Hmethod.
    cbn [default from_option id]. rewrite Hfind. cbn [fst snd]. rewrite Hok.
    cbn [negb]. rewrite Hnone.
    rewrite (validate_from_listing now _ _ _ _ Henum Hvalid).
    cbn [fst snd truthy_str Purchase.licenseKey Purchase.new Purchase.set_id
         Purchase.set__id].
    rewrite (proj1 (completePurchase_fields _ _ _)).
    change (Purchase.validate (Purchase.set_licenseKey _ _))
      with (Purchase.validate
              (Purchase.new now (pr_user req) softwareId None None None method
                 (Software.price s) (Software.currency s))).
    rewrite (validate_from_listing now _ _ _ _ Henum Hvalid).
    cbn [fst snd software with_purchases].
    rewrite (validate_sold now s Hvalid).
    cbn [fst snd purchases with_purchases]. rewrite (snoc_insert (purchases db)).
    unfold bought, stored_new. rewrite Hsid, Hmethod. reflexivity.
  - unfold bought, stored_new, Purchase.completePurchase.
    rewrite Hsid, Hmethod. cbn.
    split_and!; try done.
    eexists. split; [apply list_lookup_insert_eq; by eapply lookup_lt_Some|].
    by split_and!.
Qed.

Lemma X9_purchase_created_witness :
  exists p resp,
    post_purchase 1234 "AAAA-BBBB-CCCC-DDDD"
      (mkPurchaseReq Example.buyer (Some 1) (Some "Card")) Example.db0
    = (bought 1234 "AAAA-BBBB-CCCC-DDDD"
         (mkPurchaseReq Example.buyer (Some 1) (Some "Card")) 0 Example.legacy
         Example.db0, Ok resp)
    /\ code resp = 201
    /\ purchases (bought 1234 "AAAA-BBBB-CCCC-DDDD"
                    (mkPurchaseReq Example.buyer (Some 1) (Some "Card")) 0
                    Example.legacy Example.db0) = purchases Example.db0 ++ [p]
    /\ Purchase.status p = Completed
    /\ Purchase.userId p = Example.buyer
    /\ Purchase.softwareId p = 1
    /\ Purchase.amount p = Software.price Example.legacy
    /\ Purchase.currency p = Software.currency Example.legacy
    /\ Purchase.completedAt p = Some 1234
    /\ Purchase.transactionId p = Some ("DEMO_" +:+ toString 1234)
    /\ Purchase.licenseKey p = Some "AAAA-BBBB-CCCC-DDDD"
    /\ Purchase.downloadCount p = 0
    /\ (exists s', software (bought 1234 "AAAA-BBBB-CCCC-DDDD"
                               (mkPurchaseReq Example.buyer (Some 1) (Some "Card")) 0
                               Example.legacy Example.db0) !! 0%nat = Some s'
          /\ Software.totalSales s' = Software.totalSales Example.legacy + 1
          /\ Software.updatedAt s' = 1234 / 1000 * 1000
          /\ s' = Software.set_updatedAt (1234 / 1000 * 1000)
                    (Software.set_totalSales (Software.totalSales Example.legacy + 1)
                       Example.legacy)).
Proof.
  apply (X9_purchase_created 1234 "AAAA-BBBB-CCCC-DDDD"
           (mkPurchaseReq Example.buyer (Some 1) (Some "Card")) Example.db0 1 "Card"
           0%nat Example.legacy).
  - reflexivity.
  - discriminate.
  - reflexivity.
  - reflexivity.
  - reflexivity.
  - reflexivity.
  - vm_compute. reflexivity.
  - reflexivity.
Defined.

(** X10.  Buying twice.  After a 201 from [POST /api/purchases], a further
    request of the same buyer for the same listing, at any time and with
    any payment method, is answered 409 and writes nothing. *)
Theorem X10_second_purchase_conflict :
  forall now key req db resp now' key' req',
    (post_purchase now key req db).2 = Ok resp ->
    code resp = 201 ->
    pr_user req' = pr_user req ->
    pr_softwareId req' = pr_softwareId req ->
    truthy_str (pr_paymentMethod req') = true ->
    let db1 := (post_purchase now key req db).1 in
    post_purchase now' key' req' db1
    = (db1, Ok (fail 409 "You already own this software")).
Proof.
  intros now key req db resp now' key' req' Hrun Hcode Huser Hsid Hmethod db1.
  destruct (post_purchase_created now key req db resp Hrun Hcode)
    as (j & s & Hreq & Hfind & Hok & Hdb1).
  subst db1. rewrite Hdb1.
  apply orb_false_iff in Hreq as [Hnum _]. apply negb_false_iff in Hnum.
  unfold post_purchase. unfold_handler.
  rewrite Hsid, Hnum, Hmethod. cbn [negb orb].
  assert (Hfind' :
    list_find (fun s0 => Software.id s0 = default 0 (pr_softwareId req))
      (software (bought now key req j s db))
    = Some (j, Software.set_updatedAt (cast_date now) (Software.incrementSales now s))).
  { unfold bought. cbn [software with_software].
    eapply list_find_update; [exact Hfind|].
    by apply list_find_Some in Hfind as (_ & ? & _). }
  rewrite Hfind'. cbn [fst snd].
  change (Software.isPurchasable (Software.set_updatedAt _ _))
    with (Software.isPurchasable s).
  rewrite Hok. cbn [negb].
  destruct (list_find _ (purchases (bought now key req j s db)))
    as [[i p]|] eqn:Hown; [reflexivity|].
  exfalso. apply list_find_None in Hown.
  unfold bought in Hown. cbn [purchases with_software with_purchases] in Hown.
  apply Forall_app in Hown as [_ Hnew]. apply Forall_inv in Hnew.
  apply Hnew. rewrite Huser.
  unfold Purchase.completePurchase. by destruct (truthy_str _).
Qed.

Lemma X10_second_purchase_conflict_witness :
  let db1 := (post_purchase 1000 "AAAA-BBBB-CCCC-DDDD"
                (mkPurchaseReq Example.buyer (Some 1) (Some "Card")) Example.db0).1 in
  post_purchase 5000 "EEEE-FFFF-GGGG-HHHH"
    (mkPurchaseReq Example.buyer (Some 1) (Some "PayPal")) db1
  = (db1, Ok (fail 409 "You already own this software")).
Proof.
  destruct (post_purchase 1000 "AAAA-BBBB-CCCC-DDDD"
              (mkPurchaseReq Example.buyer (Some 1) (Some "Card")) Example.db0).2
    as [resp|e] eqn:Hrun; [|vm_compute in Hrun; discriminate].
  apply (X10_second_purchase_conflict 1000 "AAAA-BBBB-CCCC-DDDD"
           (mkPurchaseReq Example.buyer (Some 1) (Some "Card")) Example.db0 resp
           5000 "EEEE-FFFF-GGGG-HHHH"
           (mkPurchaseReq Example.buyer (Some 1) (Some "PayPal")) Hrun).
  - vm_compute in Hrun. by injection Hrun as <-.
  - reflexivity.
  - reflexivity.
  - reflexivity.
Defined.

(** *** Redeeming a download *)

(** X11.  Only the buyer redeems.  A redeem request writes to the store only when
    the requester is the buyer of the purchase named and the purchase may
    be downloaded at that instant; for a purchase of somebody else the
    answer is 403 and the store is exactly as before. *)
Theorem X11_only_the_buyer_redeems :
  forall now req db,
    ((post_download now req db).1 = db
     \/ exists i p,
          purchases db !! i = Some p
          /\ Some (Purchase.id p) = parseInt (dl_id req)
          /\ dl_user req = Purchase.userId p
          /\ Purchase.canDownload now p = true)
    /\ (forall pid i p,
          parseInt (dl_id req) = Some pid ->
          list_find (fun p => Purchase.id p = pid) (purchases db) = Some (i, p) ->
          dl_user req <> Purchase.userId p ->
          post_download now req db
          = (db, Ok (fail 403 "You can only download your own purchases"))).
Proof.
  intros now req db. split.
  - unfold post_download. unfold_handler. cbn.
    destruct (parseInt (dl_id req)) as [pid|]; cbn; [|by left].
    destruct (list_find _ (purchases db)) as [[i p]|] eqn:Hfind; cbn; [|by left].
    apply list_find_Some in Hfind as (Hp & Hid & _).
    destruct (dl_user req =? Purchase.userId p) eqn:Huser; cbn; [|by left].
    apply Z.eqb_eq in Huser.
    destruct (Purchase.canDownload now p) eqn:Hcan; cbn; [|by left].
    right. exists i, p. split_and!; try done. by rewrite Hid.
  - intros pid i p Hpid Hfind Hne. unfold post_download. unfold_handler.
    rewrite Hpid, Hfind. cbn. by rewrite (proj2 (Z.eqb_neq _ _) Hne).
Qed.

Lemma X11_only_the_buyer_redeems_witness :
  post_download 3000 (mkDownloadReq 43 "1") Example.db2
  = (Example.db2, Ok (fail 403 "You can only download your own purchases")).
Proof.
  apply (proj2 (X11_only_the_buyer_redeems 3000 (mkDownloadReq 43 "1") Example.db2)
           1 0%nat (Example.stored 0 Example.db2)).
  - reflexivity.
  - vm_compute. reflexivity.
  - vm_compute. discriminate.
Defined.

(** X12.  A redeem that is allowed.  For the buyer of a valid purchase that may
    be downloaded, the answer is 200 with the listing's download URL (null
    when there is no listing or no URL) and the downloads left, which is
    [maxDownloads - (downloadCount + 1)] and never negative; the stored
    record counts one more download, dated now, and nothing else of the
    store changes. *)
Theorem X12_redeem_allowed :
  forall now req pid db i p,
    parseInt (dl_id req) = Some pid ->
    list_find (fun p => Purchase.id p = pid) (purchases db) = Some (i, p) ->
    dl_user req = Purchase.userId p ->
    Purchase.canDownload now p = true ->
    Purchase.validate p = true ->
    let p' := Purchase.set_lastDownload (Some now)
                (Purchase.set_downloadCount (Purchase.downloadCount p + 1) p) in
    exists url,
      post_download now req db
      = (with_purchases (<[i := p']> (purchases db)) db,
         Ok (mkResponse 200
               (BDownload "Download recorded successfully" url
                  (Purchase.maxDownloads p - (Purchase.downloadCount p + 1)))))
      /\ 0 <= Purchase.maxDownloads p - (Purchase.downloadCount p + 1)
      /\ url = (snd <$> list_find (fun s => Software.id s = Purchase.softwareId p)
                          (software db))
               ≫= (fun s => if truthy_str (Software.downloadUrl s)
                             then Software.downloadUrl s else None).
Proof.
  intros now req pid db i p Hpid Hfind Huser Hcan Hvalid p'.
  assert (Hlt : Purchase.downloadCount p < Purchase.maxDownloads p).
  { unfold Purchase.canDownload in Hcan.
    destruct (bool_decide (Purchase.status p = Completed)); [|done]. cbn in Hcan.
    destruct (Z.leb_spec (Purchase.maxDownloads p) (Purchase.downloadCount p));
      [done|lia]. }
  eexists. split; [|split; [lia|reflexivity]].
  unfold post_download. unfold_handler. rewrite Hpid, Hfind. cbn.
  rewrite Huser, Z.eqb_refl, Hcan. cbn.
  unfold Purchase.recordDownload.
  rewrite (proj2 (Z.leb_gt _ _) Hlt). cbn.
  rewrite (validate_counted now p Hvalid). cbn.
  by destruct (list_find _ (software db)) as [[j s]|].
Qed.

Lemma X12_redeem_allowed_witness :
  exists url,
    post_download 3000 Example.redeem Example.db2
    = (with_purchases
         (<[0%nat := Purchase.set_lastDownload (Some 3000)
                       (Purchase.set_downloadCount
                          (Purchase.downloadCount (Example.stored 0 Example.db2) + 1)
                          (Example.stored 0 Example.db2))]> (purchases Example.db2))
         Example.db2,
       Ok (mkResponse 200
             (BDownload "Download recorded successfully" url
                (Purchase.maxDownloads (Example.stored 0 Example.db2)
                 - (Purchase.downloadCount (Example.stored 0 Example.db2) + 1)))))
    /\ 0 <= Purchase.maxDownloads (Example.stored 0 Example.db2)
            - (Purchase.downloadCount (Example.stored 0 Example.db2) + 1)
    /\ url = (snd <$> list_find
                        (fun s => Software.id s
                                  = Purchase.softwareId (Example.stored 0 Example.db2))
                        (software Example.db2))
             ≫= (fun s => if truthy_str (Software.downloadUrl s)
                           then Software.downloadUrl s else None).
Proof.
  apply (X12_redeem_allowed 3000 Example.redeem 1 Example.db2 0%nat
           (Example.stored 0 Example.db2)).
  - reflexivity.
  - vm_compute. reflexivity.
  - reflexivity.
  - vm_compute. reflexivity.
  - vm_compute. reflexivity.
Defined.

(** *** The notifications of the event handlers *)

Lemma length_append (s1 s2 : string) :
  String.length (s1 +:+ s2) = (String.length s1 + String.length s2)%nat.
Proof.
  induction s1 as [|a s1 IH]; [done|].
  change (S (String.length (s1 +:+ s2)) = S (String.length s1 + String.length s2)).
  by rewrite IH.
Qed.

(** The notification of a completed purchase passes the schema as long as
    the product title leaves room in the 1000 characters of a message. *)
Lemma completed_notice_valid (now userUid : Z) (product : Product.t)
    (data : JsValue) (relatedId fromUserId : option Z) :
  Notification.validate
    (Notification.new now userUid "purchase" "Purchase Complete!"
       (completed_message (Some product)) data relatedId fromUserId)
  = (String.length (Product.title product) <=? 950)%nat.
Proof.
  unfold Notification.validate, completed_message.
  cbn [Notification.new Notification.type Notification.title Notification.message].
  rewrite !length_append.
  change (str_in "purchase" _) with true.
  change (String.length "Purchase Complete!") with 18%nat.
  change (String.length "Your purchase of ") with 17%nat.
  change (String.length " has been completed successfully.") with 33%nat.
  cbn [andb negb String.eqb Nat.leb].
  change ("Your purchase of " +:+ ?s) with (String "Y" ("our purchase of " +:+ s)).
  cbn [String.eqb negb andb].
  destruct (Nat.leb_spec (String.length (Product.title product)) 950);
    destruct (Nat.leb_spec (17 + (String.length (Product.title product) + 33)) 1000);
    first [done | lia].
Qed.

(** X13 (completion notice): when the completion handler finds the purchase
    and its product, and does not stop at the expiry of a role it grants,
    it answers without an exception exactly when the product title has at
    most 950 characters; it then appends one unread notification for the
    buyer, related to the purchase.  With a longer title the handler throws
    at the notification, after the purchase has been completed, and no
    notification is stored.  When it grants a role whose expiry is beyond
    the range of a date, it throws before that, at the expiry: the purchase
    has been completed, and neither a role assignment nor a notification is
    stored. *)
Theorem X13_completion_notice (zone : TimeZone) (now : Z) (session : Session.t)
    (db : Db) (ref : option string) (pid : Z) (i : nat) (p : Purchase.t) (j : nat)
    (product : Product.t) :
  session_reference session = Ok ref ->
  parseInt (interp ref) = Some pid -> pid <> 0 ->
  list_find (fun p => Purchase.id p = pid) (purchases db) = Some (i, p) ->
  Purchase.validate p = true ->
  list_find (fun q => Some (Product.slug q) = cast_slug <$> Purchase.productSlug p)
    (products db) = Some (j, product) ->
  let r := handleCheckoutSessionCompleted zone now session db in
  let expiry := role_expiry zone now (Purchase.durationDays p) in
  ((granted_role db p = None \/ exists e, expiry = Ok e) ->
   ((String.length (Product.title product) <= 950)%nat ->
      r.2 = Ok tt
      /\ exists note,
           notifications r.1 = notifications db ++ [note]
           /\ Notification.userUid note = Purchase.userId p
           /\ Notification.relatedId note = Some pid
           /\ Notification.message note = completed_message (Some product)
           /\ Notification.read note = false)
   /\ ((950 < String.length (Product.title product))%nat ->
      r.2 = Throw (ValidationError "Notification validation failed")
      /\ notifications r.1 = notifications db
      /\ status_at i r.1 = Some Completed))
  /\ (forall role, granted_role db p = Some role ->
      expiry = Throw (RangeError "Invalid time value") ->
      r.2 = Throw (RangeError "Invalid time value")
      /\ notifications r.1 = notifications db
      /\ userRoles r.1 = userRoles db
      /\ status_at i r.1 = Some Completed).
Proof.
  intros Href Hpid Hnz Hfind Hvalid Hproduct r expiry.
  pose proof Hfind as (Hp & Hid & _)%list_find_Some.
  split.
  - subst r expiry. unfold granted_role. rewrite Hproduct.
    unfold handleCheckoutSessionCompleted. unfold_handler.
    rewrite Href. cbn [fst snd]. rewrite Hpid.
    cbn [truthy_num negb default from_option id].
    rewrite (proj2 (Z.eqb_neq _ _) Hnz). cbn [negb]. rewrite Hfind.
    change (Purchase.validate (Purchase.set_transactionId _ _))
      with (Purchase.validate p).
    rewrite Hvalid.
    cbn [fst snd products with_purchases Purchase.productSlug
         Purchase.set_transactionId Purchase.set_stripePaymentId
         Purchase.set_completedAt Purchase.set_status].
    rewrite Hproduct.
    cbn [fmap option_fmap option_map snd fst roles with_purchases Purchase.durationDays
         Purchase.set_transactionId Purchase.set_stripePaymentId
         Purchase.set_completedAt Purchase.set_status].
    repeat (next_case; cbn [fst snd roles with_purchases]).
    all: intros Hok.
    all: try (destruct Hok as [Hok|[e' Hok]]; cbn in Hok; discriminate).
    all: try match goal with
             | H : Purchase.validate _ = false |- _ =>
                 change (Purchase.validate p = false) in H; congruence
             end.
    all: match goal with
         | H : Notification.validate _ = _ |- _ => rewrite completed_notice_valid in H
         end.
    all: split; [intros Hfits%Nat.leb_le | intros Hlong%Nat.leb_gt]; try congruence.
    all: cbn; split; [done|].
    all: try (eexists; split; [reflexivity|]; by rewrite Hid).
    all: split; [done|].
    all: unfold status_at; cbn; rewrite ?list_insert_insert_eq.
    all: by rewrite list_lookup_insert_eq by (by eapply lookup_lt_Some).
  - intros role Hgrant Hthrow.
    destruct (granted_role_Some _ _ _ Hgrant)
      as (j' & product' & n & k & Hproduct' & Hrole & Hrnz & Hfound & Hr).
    subst r.
    rewrite (grant_refused zone session ref pid Href Hpid Hnz _
               (products db) (roles db) j' product' n k role Hproduct' Hrole Hrnz Hfound
               now db i p eq_refl eq_refl eq_refl Hfind Hvalid _ Hthrow).
    cbn [fst snd notifications userRoles with_purchases]. split_and!; try done.
    unfold status_at. cbn [purchases with_purchases].
    by rewrite list_lookup_insert_eq by (by eapply lookup_lt_Some).
Qed.

Lemma X13_completion_notice_witness :
  (let r := handleCheckoutSessionCompleted utc_zone 2000 Example.session1 Example.db1 in
   r.2 = Ok tt
   /\ exists note,
        notifications r.1 = notifications Example.db1 ++ [note]
        /\ Notification.userUid note = Example.buyer
        /\ Notification.relatedId note = Some 1
        /\ Notification.message note = completed_message (Some Example.pro_tool)
        /\ Notification.read note = false)
  /\ (let r := handleCheckoutSessionCompleted utc_zone 2000 Example.session1 Example.long1 in
      r.2 = Throw (ValidationError "Notification validation failed")
      /\ notifications r.1 = notifications Example.long1
      /\ status_at 0 r.1 = Some Completed)
  /\ (let r :=
        handleCheckoutSessionCompleted utc_zone 2000 Example.session1 Example.eternal1 in
      r.2 = Throw (RangeError "Invalid time value")
      /\ notifications r.1 = notifications Example.eternal1
      /\ userRoles r.1 = userRoles Example.eternal1
      /\ status_at 0 r.1 = Some Completed).
Proof.
  split_and!.
  - destruct (X13_completion_notice utc_zone 2000 Example.session1 Example.db1 (Some "1")
                1 0%nat (Example.stored 0 Example.db1) 0%nat Example.pro_tool)
      as [Hnotice _].
    + reflexivity.
    + reflexivity.
    + discriminate.
    + vm_compute. reflexivity.
    + reflexivity.
    + vm_compute. reflexivity.
    + apply Hnotice.
      * right. exists (Some (2000 + 30 * 86400000)). vm_compute. reflexivity.
      * vm_compute. lia.
  - destruct (X13_completion_notice utc_zone 2000 Example.session1 Example.long1 (Some "1")
                1 0%nat (Example.stored 0 Example.long1) 4%nat Example.long_tool)
      as [Hnotice _].
    + reflexivity.
    + reflexivity.
    + discriminate.
    + vm_compute. reflexivity.
    + reflexivity.
    + vm_compute. reflexivity.
    + apply Hnotice.
      * left. vm_compute. reflexivity.
      * vm_compute. lia.
  - destruct (X13_completion_notice utc_zone 2000 Example.session1 Example.eternal1
                (Some "1") 1 0%nat (Example.stored 0 Example.eternal1) 0%nat
                Example.eternal_tool)
      as [_ Hrange].
    + reflexivity.
    + reflexivity.
    + discriminate.
    + vm_compute. reflexivity.
    + reflexivity.
    + vm_compute. reflexivity.
    + apply (Hrange Example.vip); vm_compute; reflexivity.
Defined.

(** X14 (payment failure): a payment-failed event whose intent is on record
    marks that purchase Failed with a note that is never empty (the
    provider's message, "Payment failed" when there is none), tells the
    buyer in one notification, and touches no role assignment; an intent
    that is on no record changes nothing.  Either way the handler
    returns. *)
Theorem X14_payment_failed (now : Z) (intent : PaymentIntent.t) (db : Db) :
  let found :=
    list_find (fun p => Purchase.stripePaymentId p = Some (PaymentIntent.id intent))
      (purchases db) in
  let r := handlePaymentFailed now intent db in
  (found = None -> r = (db, Ok tt))
  /\ (forall i p, found = Some (i, p) -> Purchase.validate p = true ->
      r.2 = Ok tt
      /\ userRoles r.1 = userRoles db
      /\ exists note n,
           purchases r.1
           = <[i := Purchase.set_notes (Some note) (Purchase.set_status Failed p)]>
               (purchases db)
           /\ note <> ""
           /\ (forall m, PaymentIntent.last_payment_error intent
                         ≫= PaymentIntent.message = Some m -> m <> "" -> note = m)
           /\ notifications r.1 = notifications db ++ [n]
           /\ Notification.userUid n = Purchase.userId p
           /\ Notification.title n = "Payment Failed"
           /\ Notification.relatedId n = Some (Purchase.id p)).
Proof.
  intros found r. subst found r. unfold handlePaymentFailed. unfold_handler.
  split; [by intros ->|].
  intros i p Hfind Hvalid. rewrite Hfind. cbn [fst snd].
  change (Purchase.validate (Purchase.set_notes _ _)) with (Purchase.validate p).
  rewrite Hvalid. cbn.
  split; [done|]. split; [done|]. eexists _, _. split; [reflexivity|].
  split_and!; try done.
  - destruct (PaymentIntent.last_payment_error intent ≫= PaymentIntent.message)
      as [m|]; cbn; [|done].
    destruct (String.eqb_spec m ""); done.
  - intros m -> Hm. cbn. by rewrite (proj2 (String.eqb_neq _ _) Hm).
Qed.

Lemma X14_payment_failed_witness :
  let r := handlePaymentFailed 3000 Example.decline Example.db2 in
  r.2 = Ok tt
  /\ userRoles r.1 = userRoles Example.db2
  /\ exists note n,
       purchases r.1
       = <[0%nat := Purchase.set_notes (Some note)
                      (Purchase.set_status Failed (Example.stored 0 Example.db2))]>
           (purchases Example.db2)
       /\ note <> ""
       /\ (forall m, PaymentIntent.last_payment_error Example.decline
                     ≫= PaymentIntent.message = Some m -> m <> "" -> note = m)
       /\ notifications r.1 = notifications Example.db2 ++ [n]
       /\ Notification.userUid n = Purchase.userId (Example.stored 0 Example.db2)
       /\ Notification.title n = "Payment Failed"
       /\ Notification.relatedId n = Some (Purchase.id (Example.stored 0 Example.db2)).
Proof.
  apply (X14_payment_failed 3000 Example.decline Example.db2).
  - vm_compute. reflexivity.
  - reflexivity.
Defined.

(** X15 (role and purchase lapse together): when a completion grants a
    role, the role assignment and the purchase carry the same expiry, so at
    every instant the role is expired exactly when the purchase is, and
    valid exactly when the purchase is active; both are in force at every
    instant up to the expiry, and for ever when there is none.  On a host
    that runs on UTC the expiry is not before the grant, so both are in
    force at the instant of the grant. *)
Theorem X15_role_and_purchase_lapse_together (zone : TimeZone) (now : Z)
    (session : Session.t) (ref : option string) (pid : Z) (db : Db) (i : nat)
    (p : Purchase.t) (j : nat) (product : Product.t) (r : Z) (k : nat) (role : Role.t)
    (e : option Z) :
  session_reference session = Ok ref ->
  parseInt (interp ref) = Some pid -> pid <> 0 ->
  list_find (fun p => Purchase.id p = pid) (purchases db) = Some (i, p) ->
  Purchase.validate p = true ->
  list_find (fun q => Some (Product.slug q) = cast_slug <$> Purchase.productSlug p)
    (products db) = Some (j, product) ->
  Product.roleId product = Some r -> r <> 0 ->
  list_find (fun x => Some (Role.id x) = Product.roleId product) (roles db)
    = Some (k, role) ->
  role_expiry zone now (Purchase.durationDays p) = Ok e ->
  let db1 := (handleCheckoutSessionCompleted zone now session db).1 in
  exists u p',
    userRoles db1 = userRoles db ++ [u]
    /\ purchases db1 !! i = Some p'
    /\ UserRole.userUid u = Purchase.userId p'
    /\ UserRole.roleId u = r
    /\ UserRole.expiresAt u = e
    /\ Purchase.expiresAt p' = e
    /\ (forall t, UserRole.isExpired t u = Purchase.expired t p')
    /\ (forall t, UserRole.isValid t u = Purchase.isActive t p')
    /\ (forall t, (forall x, e = Some x -> t <= x) ->
          UserRole.isValid t u = true /\ Purchase.isActive t p' = true)
    /\ (zone = utc_zone ->
          UserRole.isValid now u = true /\ Purchase.isActive now p' = true).
Proof.
  intros Href Hpid Hnz Hfind Hvalid Hproduct Hrole Hrnz Hfound He db1.
  pose proof Hfind as (Hp & _ & _)%list_find_Some.
  pose proof Hfound as (_ & Hrid & _)%list_find_Some.
  destruct (grant_run zone session ref pid Href Hpid Hnz
              (cast_slug <$> Purchase.productSlug p)
              (products db) (roles db) j product r k role Hproduct Hrole Hrnz Hfound
              now db i p eq_refl eq_refl eq_refl Hfind Hvalid e He)
    as (Hps1 & Hur1 & _).
  fold db1 in Hps1, Hur1.
  eexists _, _. split; [exact Hur1|]. split.
  { rewrite Hps1. apply list_lookup_insert_eq. by eapply lookup_lt_Some. }
  assert (Hupto : forall t, (forall x, e = Some x -> t <= x) ->
                            match e with Some x => x <? t | None => false end = false).
  { intros t Ht. destruct e as [x|]; [|done]. apply Z.ltb_ge. by apply Ht. }
  unfold UserRole.isValid, Purchase.isActive, UserRole.isExpired, Purchase.expired,
    completed_record.
  cbn. split; [done|]. split; [congruence|]. split; [done|]. split; [done|].
  split; [done|]. split; [done|]. split.
  - intros t Ht. by rewrite (Hupto t Ht).
  - intros ->. rewrite (Hupto now); [done|].
    intros x ->. destruct (proj2 (role_expiry_ok _ _ _ _ He) x eq_refl)
      as (d & _ & Hpos & Hadd).
    rewrite addDays_utc in Hadd.
    destruct (Z.abs (now + d * 86400000) <=? max_time); [|done].
    injection Hadd as <-. lia.
Qed.

Lemma X15_role_and_purchase_lapse_together_witness :
  let db1 :=
    (handleCheckoutSessionCompleted utc_zone 2000 Example.session1 Example.db1).1 in
  exists u p',
    userRoles db1 = userRoles Example.db1 ++ [u]
    /\ purchases db1 !! 0%nat = Some p'
    /\ UserRole.userUid u = Purchase.userId p'
    /\ UserRole.roleId u = 7
    /\ UserRole.expiresAt u = Some (2000 + 30 * 86400000)
    /\ Purchase.expiresAt p' = Some (2000 + 30 * 86400000)
    /\ (forall t, UserRole.isExpired t u = Purchase.expired t p')
    /\ (forall t, UserRole.isValid t u = Purchase.isActive t p')
    /\ (UserRole.isValid (2000 + 30 * 86400000) u = true
        /\ Purchase.isActive (2000 + 30 * 86400000) p' = true)
    /\ (UserRole.isValid 2000 u = true /\ Purchase.isActive 2000 p' = true).
Proof.
  destruct (X15_role_and_purchase_lapse_together utc_zone 2000 Example.session1
              (Some "1") 1 Example.db1 0%nat (Example.stored 0 Example.db1)
              0%nat Example.pro_tool 7 0%nat Example.vip (Some (2000 + 30 * 86400000)))
    as (u & p' & Hroles & Hp' & Huser & Hrole & Hu & Hp & Hexpired & Hvalid & Hupto & Hutc).
  - reflexivity.
  - reflexivity.
  - discriminate.
  - vm_compute. reflexivity.
  - reflexivity.
  - vm_compute. reflexivity.
  - reflexivity.
  - discriminate.
  - vm_compute. reflexivity.
  - vm_compute. reflexivity.
  - exists u, p'.
    do 8 (split; [assumption|]). split; [|exact (Hutc eq_refl)].
    apply Hupto. intros x [= <-]. lia.
Defined.

(** *** License keys *)

Lemma get_in (s : string) :
  forall n, (n < String.length s)%nat ->
    exists a, String.get n s = Some a /\ In a (list_ascii_of_string s).
Proof.
  induction s as [|b s IH]; intros n Hn; cbn in Hn; [lia|].
  destruct n as [|n]; cbn.
  - exists b. split; [done|by left].
  - destruct (IH n) as (a & Hget & Hin); [lia|].
    exists a. split; [done|by right].
Qed.

Lemma Qfloor_scaled (q : Q) (n : positive) :
  (0 <= q)%Q -> (q < 1)%Q -> 0 <= Qfloor (Qmult q (Z.pos n # 1)) < Z.pos n.
Proof.
  intros H0 H1. split.
  - change 0 with (Qfloor 0). apply Qfloor_resp_le.
    apply Qmult_le_0_compat; [done|]. by unfold Qle.
  - rewrite Zlt_Qlt. eapply Qle_lt_trans; [apply Qfloor_le|].
    destruct q as [a b]. unfold Qlt in *. cbn in *.
    rewrite ?Pos2Z.inj_mul. nia.
Qed.

(** Each round draws one character of the alphabet. *)
Lemma drawn_char (rand : nat -> Q) (i : nat) :
  (0 <= rand i)%Q -> (rand i < 1)%Q ->
  exists a,
    charAt license_chars
      (Qfloor (Qmult (rand i) (Z.of_nat (String.length license_chars) # 1)))
    = String a ""
    /\ In a (list_ascii_of_string license_chars).
Proof.
  intros H0 H1.
  change (Z.of_nat (String.length license_chars)) with (Z.pos 36).
  pose proof (Qfloor_scaled (rand i) 36 H0 H1) as Hk.
  set (k := Qfloor _) in *. unfold charAt.
  rewrite (proj2 (Z.ltb_ge k 0)) by lia.
  destruct (get_in license_chars (Z.to_nat k)) as (a & -> & Hin).
  { change (String.length license_chars) with 36%nat. lia. }
  by exists a.
Qed.

Lemma license_step_shape (rand : nat -> Q) (result : string) (i : nat) :
  (0 <= rand i)%Q /\ (rand i < 1)%Q ->
  exists a,
    In a (list_ascii_of_string license_chars)
    /\ license_step rand result i
       = (if (0 <? i)%nat && (i mod 4 =? 0)%nat then result +:+ "-" else result)
         +:+ String a "".
Proof.
  intros [H0 H1]. unfold license_step.
  destruct (drawn_char rand i H0 H1) as (a & -> & Hin). by exists a.
Qed.

(** The next round of the loop, the rounds before it having been run. *)
Ltac license_round Hrand k a H :=
  match goal with
  | |- context [license_step ?rand ?result k] =>
      destruct (license_step_shape rand result k) as (a & H & ->);
      [apply Hrand; lia|];
      cbn -[license_chars license_step]
  end.

(** X16 (license keys): whatever [Math.random] draws in its range [0, 1),
    the license key has 19 characters, a dash at positions 4, 9 and 14, and
    at every other position a capital letter or a digit of the alphabet. *)
Theorem X16_license_key_format (rand : nat -> Q) :
  (forall i, (i < 16)%nat -> (0 <= rand i)%Q /\ (rand i < 1)%Q) ->
  String.length (generateLicenseKey rand) = 19%nat
  /\ forall n, (n < 19)%nat ->
       exists a,
         String.get n (generateLicenseKey rand) = Some a
         /\ if (n mod 5 =? 4)%nat then a = "-"%char
            else In a (list_ascii_of_string license_chars).
Proof.
  intros Hrand. unfold generateLicenseKey. cbn [foldl seq].
  license_round Hrand 0%nat a0 H0. license_round Hrand 1%nat a1 H1.
  license_round Hrand 2%nat a2 H2. license_round Hrand 3%nat a3 H3.
  license_round Hrand 4%nat a4 H4. license_round Hrand 5%nat a5 H5.
  license_round Hrand 6%nat a6 H6. license_round Hrand 7%nat a7 H7.
  license_round Hrand 8%nat a8 H8. license_round Hrand 9%nat a9 H9.
  license_round Hrand 10%nat a10 H10. license_round Hrand 11%nat a11 H11.
  license_round Hrand 12%nat a12 H12. license_round Hrand 13%nat a13 H13.
  license_round Hrand 14%nat a14 H14. license_round Hrand 15%nat a15 H15.
  split; [done|].
  intros n Hn.
  do 19 (destruct n as [|n];
         [eexists; split; [reflexivity|first [exact eq_refl|assumption]]|]).
  lia.
Qed.

Lemma X16_license_key_format_witness :
  String.length (generateLicenseKey (fun i => (Z.of_nat i # 16)%Q)) = 19%nat
  /\ forall n, (n < 19)%nat ->
       exists a,
         String.get n (generateLicenseKey (fun i => (Z.of_nat i # 16)%Q)) = Some a
         /\ if (n mod 5 =? 4)%nat then a = "-"%char
            else In a (list_ascii_of_string license_chars).
Proof.
  apply (X16_license_key_format (fun i => (Z.of_nat i # 16)%Q)).
  intros i Hi. split; [unfold Qle|unfold Qlt]; cbn; lia.
Defined.

(** *** Extending a role assignment *)

(** X17 (role extension): [extend] counts from the current expiry, or from
    now when the role has none.  When the new expiry is beyond the range of
    a date, [extend] throws and the role is left as it was.  Otherwise the
    role gets the new expiry and nothing else of it changes: it is expired
    exactly after that instant; two extensions add up, whenever the second
    is made; extending a time-limited role by a non-negative number of days
    keeps it valid wherever it was valid; a permanent role becomes
    time-limited and lapses once the days are over; and a role that lapsed
    long enough ago is still expired after the extension. *)
Theorem X17_extend (now days : Z) (u : UserRole.t) :
  let current := default now (UserRole.expiresAt u) in
  let expiry := current + days * 86400000 in
  (max_time < Z.abs expiry ->
     extend now days u = Throw (RangeError "Invalid time value"))
  /\ (Z.abs expiry <= max_time ->
      exists u',
        extend now days u = Ok u'
        /\ u' = UserRole.mk (UserRole.id u) (UserRole.userUid u) (UserRole.roleId u)
                  (UserRole.assignedAt u) (UserRole.assignedBy u) (Some expiry)
                  (UserRole.active u)
        /\ (forall t, UserRole.isExpired t u' = (expiry <? t))
        /\ (forall now' days', extend now' days' u' = extend now (days + days') u)
        /\ (forall t, 0 <= days -> UserRole.expiresAt u <> None ->
              UserRole.isValid t u = true -> UserRole.isValid t u' = true)
        /\ (forall t, UserRole.expiresAt u = None -> now + days * 86400000 < t ->
              UserRole.isExpired t u = false /\ UserRole.isExpired t u' = true)
        /\ (forall e, UserRole.expiresAt u = Some e -> e + days * 86400000 < now ->
              UserRole.isExpired now u' = true)).
Proof.
  intros current expiry.
  assert (Hms : current + days * 24 * 60 * 60 * 1000 = expiry) by (subst expiry; lia).
  unfold extend, addMilliseconds, TimeClip, toISOString. fold current. rewrite Hms.
  split.
  - intros Hout. by rewrite (proj2 (Z.leb_gt _ _) Hout).
  - intros Hin. rewrite (proj2 (Z.leb_le _ _) Hin). eexists. split; [reflexivity|].
    split; [done|]. unfold UserRole.isValid, UserRole.isExpired.
    cbn [UserRole.expiresAt UserRole.active default from_option id].
    split_and!.
    + done.
    + intros now' days'.
      by replace (expiry + days' * 24 * 60 * 60 * 1000)
        with (current + (days + days') * 24 * 60 * 60 * 1000) by lia.
    + intros t Hdays Hsome Hvalid. subst expiry current.
      destruct (UserRole.expiresAt u) as [e|]; cbn in *; [|done].
      apply andb_true_iff in Hvalid as [-> Hnot]. cbn.
      apply negb_true_iff, Z.ltb_ge in Hnot. apply negb_true_iff, Z.ltb_ge. lia.
    + intros t Hnone Hlt. subst expiry current. rewrite Hnone in *. cbn.
      split; [done|]. apply Z.ltb_lt. lia.
    + intros e He Hlt. subst expiry current. rewrite He. cbn. apply Z.ltb_lt. lia.
Qed.

Lemma X17_extend_witness :
  extend 1000 100000000 (UserRole.new 0 42 7 None (Some 5000))
  = Throw (RangeError "Invalid time value")
  /\ (exists u',
        extend 1000 30 (UserRole.new 0 42 7 None (Some 5000)) = Ok u'
        /\ UserRole.expiresAt u' = Some (5000 + 30 * 86400000)
        /\ (forall t, UserRole.isValid t (UserRole.new 0 42 7 None (Some 5000)) = true ->
              UserRole.isValid t u' = true))
  /\ (exists u',
        extend 1000 30 (UserRole.new 0 42 7 None None) = Ok u'
        /\ UserRole.isExpired (1001 + 30 * 86400000) (UserRole.new 0 42 7 None None)
           = false
        /\ UserRole.isExpired (1001 + 30 * 86400000) u' = true)
  /\ (exists u',
        extend (6000 + 30 * 86400000) 30 (UserRole.new 0 42 7 None (Some 5000)) = Ok u'
        /\ UserRole.isExpired (6000 + 30 * 86400000) u' = true).
Proof.
  split_and!.
  - apply (proj1 (X17_extend 1000 100000000 (UserRole.new 0 42 7 None (Some 5000)))).
    vm_compute. reflexivity.
  - destruct (proj2 (X17_extend 1000 30 (UserRole.new 0 42 7 None (Some 5000))))
      as (u' & Hrun & Hu' & _ & _ & Hkept & _).
    + vm_compute. discriminate.
    + exists u'. split; [exact Hrun|]. split; [by rewrite Hu'|].
      intros t. apply Hkept; [lia|discriminate].
  - destruct (proj2 (X17_extend 1000 30 (UserRole.new 0 42 7 None None)))
      as (u' & Hrun & _ & _ & _ & _ & Hlapses & _).
    + vm_compute. discriminate.
    + exists u'. split; [exact Hrun|]. apply Hlapses; [reflexivity|lia].
  - destruct (proj2 (X17_extend (6000 + 30 * 86400000) 30
                       (UserRole.new 0 42 7 None (Some 5000))))
      as (u' & Hrun & _ & _ & _ & _ & _ & Hstill).
    + vm_compute. discriminate.
    + exists u'. split; [exact Hrun|]. apply (Hstill 5000); [reflexivity|lia].
Defined.

(** *** The role checks of the middleware *)

Lemma role_check_codes (allowed : User.t -> bool) (denied : string)
    (user : option User.t) :
  role_check allowed denied user
  = match user with
    | None => Some (fail 401 "Authentication required")
    | Some u => if allowed u then None else Some (fail 403 denied)
    end.
Proof. destruct user as [u|]; [|done]. cbn. by destruct (allowed u). Qed.

(** X18 (role checks): the four role checks are nested: whoever passes
    [requireOwner] passes [requireAdmin], whoever passes [requireAdmin]
    passes [requireModerator], and whoever passes [requireModerator] passes
    [requireSupport]; none of them lets a request without user through
    (401).  A badge that [changeRank] accepts passes [requireSupport]
    exactly when it is one of the four staff badges, and the change touches
    neither the account number nor the ban. *)
Theorem X18_role_checks_nested (u : User.t) (b : string) :
  (requireOwner (Some u) = None -> requireAdmin (Some u) = None)
  /\ (requireAdmin (Some u) = None -> requireModerator (Some u) = None)
  /\ (requireModerator (Some u) = None -> requireSupport (Some u) = None)
  /\ (forall check,
        In check [requireOwner; requireAdmin; requireModerator; requireSupport] ->
        check None = Some (fail 401 "Authentication required"))
  /\ (forall u', User.changeRank b u = Ok u' ->
        User.uid u' = User.uid u
        /\ User.banned u' = User.banned u
        /\ (requireSupport (Some u') = None <->
            b = "Owner" \/ b = "Admin" \/ b = "Moderator" \/ b = "Support")).
Proof.
  unfold requireOwner, requireAdmin, requireModerator, requireSupport.
  rewrite !role_check_codes.
  split_and!.
  - unfold User.isAdmin, str_in. cbn. by destruct (String.eqb (User.badge u) "Owner").
  - unfold User.isAdmin, User.isModerator, str_in. cbn.
    by destruct (String.eqb (User.badge u) "Owner"),
                (String.eqb (User.badge u) "Admin").
  - unfold User.isSupport, User.isModerator, str_in. cbn.
    by destruct (String.eqb (User.badge u) "Owner"),
                (String.eqb (User.badge u) "Admin"),
                (String.eqb (User.badge u) "Moderator").
  - intros check [<-|[<-|[<-|[<-|[]]]]]; done.
  - intros u'. unfold User.changeRank.
    destruct (str_in b User.validBadges) eqn:Hvalid; [|done].
    intros [= <-]. split; [done|]. split; [done|].
    rewrite role_check_codes. unfold User.isSupport, str_in. cbn.
    destruct (String.eqb_spec b "Owner") as [->|]; [cbn; split; by auto 6|].
    destruct (String.eqb_spec b "Admin") as [->|]; [cbn; split; by auto 6|].
    destruct (String.eqb_spec b "Moderator") as [->|]; [cbn; split; by auto 6|].
    destruct (String.eqb_spec b "Support") as [->|]; [cbn; split; by auto 6|].
    cbn. split; [done|]. intros [?|[?|[?|?]]]; congruence.
Qed.

Lemma X18_role_checks_nested_witness :
  exists u',
    User.changeRank "Support" (User.mk 7 "Member" false None None None) = Ok u'
    /\ requireSupport (Some u') = None
    /\ requireModerator (Some u') <> None.
Proof.
  destruct (X18_role_checks_nested (User.mk 7 "Member" false None None None) "Support")
    as (_ & _ & _ & _ & Hrank).
  eexists. split; [reflexivity|]. split; [|discriminate].
  apply (Hrank _ eq_refl). auto.
Defined.

(** *** Reading one purchase *)



(** *** Pagination *)

(** X20 (pagination): the page and the limit a list route uses are never 0
    (a missing, unreadable or zero parameter gives the default); with a
    positive limit and a count that is not negative, [totalPages] is the
    least number of pages of [limit] entries that hold [total] entries, and
    there is a next page exactly when the entries up to the current page do
    not exhaust the count. *)
Theorem X20_pagination (page limit total : Z) :
  1 <= limit -> 0 <= total ->
  let pg := pagination page limit total in
  (forall x dflt, dflt <> 0 -> query_int x dflt <> 0)
  /\ query_int None 20 = 20
  /\ total <= totalPages pg * limit
  /\ (totalPages pg - 1) * limit < total + limit
  /\ (0 < total -> (totalPages pg - 1) * limit < total)
  /\ (hasNext pg = true <-> page * limit < total)
  /\ (hasPrev pg = true <-> 1 < page)
  /\ (hasNext pg = true -> 1 <= page -> 0 <= skip_of (page + 1) limit < total).
Proof.
  intros Hlimit Htotal pg. subst pg. unfold pagination, ceil_div, skip_of. cbn.
  assert (Hdiv : (- total) / limit * limit <= - total < ((- total) / limit + 1) * limit).
  { pose proof (Z.mul_div_le (- total) limit ltac:(lia)).
    pose proof (Z.mul_succ_div_gt (- total) limit ltac:(lia)). lia. }
  set (q := (- total) / limit) in *.
  assert (Hnext : (page <? - q) = true <-> page * limit < total).
  { rewrite Z.ltb_lt. split; intros; nia. }
  split_and!.
  - intros x dflt Hd. unfold query_int.
    destruct (parseInt (interp x)) as [n|]; [|done].
    by destruct (Z.eqb_spec n 0).
  - done.
  - nia.
  - nia.
  - intros. nia.
  - exact Hnext.
  - apply Z.ltb_lt.
  - intros Hn%Hnext Hpage. nia.
Qed.

Lemma X20_pagination_witness :
  let pg := pagination 2 20 45 in
  (forall x dflt, dflt <> 0 -> query_int x dflt <> 0)
  /\ query_int None 20 = 20
  /\ 45 <= totalPages pg * 20
  /\ (totalPages pg - 1) * 20 < 45 + 20
  /\ (0 < 45 -> (totalPages pg - 1) * 20 < 45)
  /\ (hasNext pg = true <-> 2 * 20 < 45)
  /\ (hasPrev pg = true <-> 1 < 2)
  /\ (hasNext pg = true -> 1 <= 2 -> 0 <= skip_of (2 + 1) 20 < 45).
Proof.
  apply (X20_pagination 2 20 45); lia.
Defined.

(** *** Access predicates of a purchase *)

(** X21 (download access and activity): a purchase can be downloaded
    exactly when it is active and downloads are left; both predicates only
    ever switch off as time passes; and a recorded download keeps the
    purchase active. *)
Theorem X21_canDownload_isActive (now : Z) (p : Purchase.t) :
  Purchase.canDownload now p
    = Purchase.isActive now p && (Purchase.downloadCount p <? Purchase.maxDownloads p)
  /\ (forall t, t <= now ->
        (Purchase.isActive now p = true -> Purchase.isActive t p = true)
        /\ (Purchase.canDownload now p = true -> Purchase.canDownload t p = true))
  /\ (forall p', Purchase.recordDownload now p = Ok p' ->
        Purchase.isActive now p' = Purchase.isActive now p).
Proof.
  unfold Purchase.canDownload, Purchase.isActive, Purchase.expired.
  split_and!.
  - destruct (bool_decide (Purchase.status p = Completed)); cbn; [|done].
    rewrite Z.leb_antisym.
    destruct (Purchase.downloadCount p <? Purchase.maxDownloads p); cbn;
      [|by destruct (Purchase.expiresAt p) as [e|]; [destruct (e <? now)|]].
    by destruct (Purchase.expiresAt p) as [e|]; [destruct (e <? now)|].
  - intros t Ht.
    destruct (bool_decide (Purchase.status p = Completed)); cbn; [|done].
    destruct (Purchase.maxDownloads p <=? Purchase.downloadCount p);
      destruct (Purchase.expiresAt p) as [e|]; try done.
    all: destruct (Z.ltb_spec e now); try done.
    all: by rewrite (proj2 (Z.ltb_ge e t)) by lia.
  - intros p'. unfold Purchase.recordDownload.
    destruct (Purchase.maxDownloads p <=? Purchase.downloadCount p); [done|].
    by intros [= <-].
Qed.

Lemma X21_canDownload_isActive_witness :
  Purchase.canDownload 5000 Example.lapsing
    = Purchase.isActive 5000 Example.lapsing
      && (Purchase.downloadCount Example.lapsing <? Purchase.maxDownloads Example.lapsing)
  /\ (forall t, t <= 5000 ->
        (Purchase.isActive 5000 Example.lapsing = true ->
         Purchase.isActive t Example.lapsing = true)
        /\ (Purchase.canDownload 5000 Example.lapsing = true ->
            Purchase.canDownload t Example.lapsing = true))
  /\ (forall p', Purchase.recordDownload 5000 Example.lapsing = Ok p' ->
        Purchase.isActive 5000 p' = Purchase.isActive 5000 Example.lapsing).
Proof.
  apply (X21_canDownload_isActive 5000 Example.lapsing).
Defined.

(** *** Unread notifications *)

Lemma unread_prefix (uid : Z) (l l' : list Notification.t) :
  l `prefix_of` l' ->
  (length (List.filter (unread_of uid) l) <= length (List.filter (unread_of uid) l'))%nat.
Proof. intros [k ->]. rewrite List.filter_app, length_app. lia. Qed.

Lemma frame_run_ops (env : Env) (ops : list (Z * Op)) :
  forall db, frame db (run_ops env ops db).
Proof.
  induction ops as [|[now op] ops IH]; intros db; [apply frame_refl|].
  cbn [run_ops]. eapply frame_trans; [apply frame_step|apply IH].
Qed.

(** X23 (read-all): [PUT /api/notifications/read-all] leaves the user no
    unread notification, changes no notification of another user and none
    that was already read, removes and reorders nothing, and leaves the
    rest of the store alone; a second call changes nothing more. *)
Theorem X23_read_all (now uid : Z) (db : Db) :
  let db' := (read_all now uid db).1 in
  unreadCount uid db' = 0
  /\ (forall other, other <> uid -> unreadCount other db' = unreadCount other db)
  /\ Notification.id <$> notifications db' = Notification.id <$> notifications db
  /\ (forall i n, notifications db !! i = Some n ->
        Notification.userUid n <> uid \/ Notification.read n = true ->
        notifications db' !! i = Some n)
  /\ (forall now', (read_all now' uid db').1 = db')
  /\ purchases db' = purchases db
  /\ userRoles db' = userRoles db.
Proof.
  cbn zeta. unfold read_all, unreadCount. cbn [fst notifications with_notifications
    purchases userRoles].
  split_and!; try done.
  - induction (notifications db) as [|n l IH]; [done|]. cbn.
    destruct (unread_of uid n) eqn:Hn; cbn.
    + unfold unread_of in *. cbn. apply andb_true_iff in Hn as [-> _]. cbn. exact IH.
    + rewrite Hn. exact IH.
  - intros other Hother. f_equal. f_equal.
    induction (notifications db) as [|n l IH]; [done|]. cbn.
    destruct (unread_of uid n) eqn:Hn; cbn; [|by rewrite IH].
    unfold unread_of in *. cbn. apply andb_true_iff in Hn as [Hu%Z.eqb_eq _].
    rewrite (proj2 (Z.eqb_neq _ _)) by lia. cbn. exact IH.
  - rewrite <- list_fmap_compose. apply list_fmap_ext. intros i n _. cbn.
    by destruct (unread_of uid n).
  - intros i n Hn Hkept. rewrite list_lookup_fmap, Hn. cbn.
    unfold unread_of. destruct Hkept as [Hu | ->].
    + by rewrite (proj2 (Z.eqb_neq _ _)) by done.
    + by rewrite andb_false_r.
  - intros now'. destruct db as [ps pr rs us ns sw]. cbn. unfold with_notifications.
    cbn. f_equal. rewrite <- list_fmap_compose.
    apply list_fmap_ext. intros i n _. cbn.
    destruct (unread_of uid n) eqn:Hn; [|by rewrite Hn].
    unfold unread_of. cbn. by rewrite andb_false_r.
Qed.

(** X24 (unread counts): no operation of the purchase flow removes a
    notification or marks one read: over every sequence of operations the
    unread count of every user can only grow. *)
Theorem X24_unread_never_decreases (env : Env) (ops : list (Z * Op)) (db : Db)
    (uid : Z) :
  unreadCount uid db <= unreadCount uid (run_ops env ops db).
Proof.
  destruct (frame_run_ops env ops db) as (_ & _ & _ & Hprefix & _).
  unfold unreadCount. pose proof (unread_prefix uid _ _ Hprefix). lia.
Qed.

(** *** The price of a checkout *)

(** X25 (quoted price): when a checkout is accepted, the amount of the
    purchase it stores is the price [Product.getPriceForDuration] quotes
    for that product and tier, in the product's currency ("USD" when the
    product has none), and the purchase belongs to the requester.  The
    product is the active one whose slug is the requested slug, trimmed and
    in lower case; the purchase keeps the slug as it was sent, and the
    lookup of the completion handler, which casts it the same way, leads
    back to a product of that slug. *)
Theorem X25_checkout_stores_quoted_price (env : Env) (api : Stripe) (now : Z)
    (key : string) (req : CheckoutReq) (slug name : string) (db : Db) (j : nat)
    (product : Product.t) (tier : Product.Duration) :
  stripe env = Some api ->
  co_productSlug req = Some slug -> slug <> "" ->
  co_duration req = Some name -> name <> "" ->
  list_find (fun p => Product.slug p = cast_slug slug /\ Product.active p = true)
    (products db) = Some (j, product) ->
  Product.findDuration name product = Some tier ->
  Qle_bool 0 (Product.price tier) = true ->
  str_in (str_or (Product.currency product) "USD") ["USD"; "EUR"; "BTC"; "ETH"] = true ->
  let db1 := (create_checkout_session env now key req db).1 in
  exists p,
    purchases db1 = purchases db ++ [p]
    /\ Purchase.amount p = Product.getPriceForDuration name product
    /\ Purchase.currency p = str_or (Product.currency product) "USD"
    /\ Purchase.userId p = co_user req
    /\ Purchase.softwareId p = Product.id product
    /\ Purchase.productSlug p = Some slug
    /\ Product.slug product = cast_slug slug
    /\ Purchase.licenseKey p = Some key
    /\ Purchase.downloadCount p = 0
    /\ exists j' product',
         list_find (fun q => Some (Product.slug q) = cast_slug <$> Purchase.productSlug p)
           (products db1) = Some (j', product')
         /\ Product.slug product' = Product.slug product.
Proof.
  intros Hapi Hslug Hslug' Hname Hname' Hfound Htier Hprice Hcur db1.
  destruct (checkout_created env api now key req slug name db j product tier)
    as [sessionId Hdb1]; try done.
  subst db1. rewrite Hdb1.
  apply list_find_Some in Hfound as (Hj & [Hcast _] & _).
  eexists. split; [by destruct db|].
  unfold Product.getPriceForDuration. rewrite Htier. split_and!; try done.
  assert (Hproducts : products (with_purchases
            (purchases db ++
             [Purchase.set_stripeSessionId sessionId
                (stored_new key db
                   (Purchase.new now (co_user req) (Product.id product) (Some slug)
                      (Some name) (Product.days tier) "Card" (Product.price tier)
                      (str_or (Product.currency product) "USD")))]) db) = products db)
    by (by destruct db).
  rewrite Hproducts.
  cbn [Purchase.productSlug Purchase.set_stripeSessionId stored_new Purchase.set_id
       Purchase.set__id Purchase.set_licenseKey Purchase.new fmap option_fmap option_map].
  destruct (list_find (fun q => Some (Product.slug q) = Some (cast_slug slug))
              (products db)) as [[j' product']|] eqn:Hagain.
  - exists j', product'. split; [done|].
    apply list_find_Some in Hagain as (_ & [= ->] & _). done.
  - apply list_find_None in Hagain. rewrite Forall_forall in Hagain.
    destruct (Hagain product); [by eapply list_elem_of_lookup_2|by rewrite Hcast].
Qed.

Lemma X25_checkout_stores_quoted_price_witness :
  let db1 := (create_checkout_session Example.env 1000 "AAAA-BBBB-CCCC-DDDD"
                (mkCheckoutReq Example.buyer (Some "PRO-TOOL") (Some "1month"))
                Example.db0).1 in
  exists p,
    purchases db1 = purchases Example.db0 ++ [p]
    /\ Purchase.amount p = Product.getPriceForDuration "1month" Example.pro_tool
    /\ Purchase.currency p = str_or (Product.currency Example.pro_tool) "USD"
    /\ Purchase.userId p
       = co_user (mkCheckoutReq Example.buyer (Some "PRO-TOOL") (Some "1month"))
    /\ Purchase.softwareId p = Product.id Example.pro_tool
    /\ Purchase.productSlug p = Some "PRO-TOOL"
    /\ Product.slug Example.pro_tool = cast_slug "PRO-TOOL"
    /\ Purchase.licenseKey p = Some "AAAA-BBBB-CCCC-DDDD"
    /\ Purchase.downloadCount p = 0
    /\ exists j' product',
         list_find (fun q => Some (Product.slug q) = cast_slug <$> Purchase.productSlug p)
           (products db1) = Some (j', product')
         /\ Product.slug product' = Product.slug Example.pro_tool.
Proof.
  apply (X25_checkout_stores_quoted_price Example.env Example.api 1000
           "AAAA-BBBB-CCCC-DDDD"
           (mkCheckoutReq Example.buyer (Some "PRO-TOOL") (Some "1month"))
           "PRO-TOOL" "1month" Example.db0 0%nat Example.pro_tool Example.tier);
    try reflexivity; discriminate.
Defined.

(** *** Refunds *)



